(** * The inference gateway of app.py

    A shallow embedding of the model directory ([get_supported_models]),
    the fallback invoker ([call_gemini]) and the JSON extraction done by
    the routes [scan_food], [diet_plan] and [chat] of src/app.py, and the
    properties of the natural-language specification that concern them.

    Conventions of the embedding.
    - A Python [str] is a list of Unicode code points.
    - A value obtained from JSON is a [JSON] tree; Python's dynamic
      checks on such values ([in], indexing, [.get], truthiness) are
      written out case by case.
    - A Python call either returns or raises: [result A].
    - The network is a script: what [requests.get] answers, and what the
      k-th [requests.post] of a run answers.  The URLs posted to are
      logged, which is how "the models attempted" are observed.
    - Behaviour that lives in the interpreter or in a library and not in
      app.py (full-Unicode [str.lower], [json.loads], [repr], the text of
      built-in error messages) is the interface [Python].  The theorems
      hold for every implementation of it; [CPython] is the instance the
      concrete examples run on.
    - [print] calls write diagnostics to stdout only and are left out. *)

From Stdlib Require Import ZArith NArith List Bool Lia String Ascii.
From Stdlib Require Import DecimalString Floats.SpecFloat.
Import ListNotations.

Set Warnings "-register-all".

(** ** Python strings *)

Definition char := N.
Definition pystr := list char.

(** An ASCII literal as a Python string. *)
Definition py (s : string) : pystr := map N_of_ascii (list_ascii_of_string s).

(** A literal in which the apostrophe stands for the double quote, for
    JSON sample texts. *)
Definition js (s : string) : pystr :=
  map (fun c => if N.eqb c 39 then 34%N else c) (py s).

Definition LBRACE : char := 123%N.
Definition RBRACE : char := 125%N.
Definition SLASH : char := 47%N.

Fixpoint str_eqb (a b : pystr) : bool :=
  match a, b with
  | [], [] => true
  | x :: a', y :: b' => N.eqb x y && str_eqb a' b'
  | _, _ => false
  end.

(** [s.startswith(p)] *)
Fixpoint startswith (p s : pystr) : bool :=
  match p, s with
  | [], _ => true
  | x :: p', y :: s' => N.eqb x y && startswith p' s'
  | _ :: _, [] => false
  end.

(** [needle in hay] for two strings. *)
Fixpoint contains (needle hay : pystr) : bool :=
  startswith needle hay ||
  match hay with
  | [] => false
  | _ :: hay' => contains needle hay'
  end.

(** [str.isspace] of one code point, which is also what [\s] matches in a
    [str] pattern. *)
Definition isspace (c : char) : bool :=
  ((9 <=? c) && (c <=? 13) || (28 <=? c) && (c <=? 32) ||
   (c =? 133) || (c =? 160) || (c =? 5760) ||
   (8192 <=? c) && (c <=? 8202) || (c =? 8232) || (c =? 8233) ||
   (c =? 8239) || (c =? 8287) || (c =? 12288))%N.

Fixpoint lstrip (s : pystr) : pystr :=
  match s with
  | c :: s' => if isspace c then lstrip s' else s
  | [] => []
  end.

Definition rstrip (s : pystr) : pystr := rev (lstrip (rev s)).

(** [s.strip()] *)
Definition strip (s : pystr) : pystr := rstrip (lstrip s).

(** [s.split(sep)] for a one-character separator: never the empty list. *)
Fixpoint split (sep : char) (s : pystr) : list pystr :=
  match s with
  | [] => [[]]
  | c :: s' =>
      if N.eqb c sep then [] :: split sep s'
      else match split sep s' with
           | h :: t => (c :: h) :: t
           | [] => [[c]]
           end
  end.

(** [str(n)] of an [int]. *)
Definition str_int (n : Z) : pystr := py (NilZero.string_of_int (Z.to_int n)).

(** ** Values, exceptions, results *)

Inductive JSON : Type :=
| JNull
| JBool (b : bool)
| JInt (n : Z)
| JFloat (f : spec_float)
| JStr (s : pystr)
| JArr (items : list JSON)
| JObj (fields : list (pystr * JSON)).

Inductive exn_class : Type :=
| Exception | JSONDecodeError | RequestException | TypeError | KeyError
| IndexError | AttributeError | ValueError | RecursionError.

(** An exception object: its class and [str(e)]. *)
Record exn : Type := Raise { exn_class_of : exn_class; str_exn : pystr }.

Inductive result (A : Type) : Type :=
| Ok (a : A)
| Raised (e : exn).
Arguments Ok {A} a.
Arguments Raised {A} e.

Definition bind {A B : Type} (m : result A) (k : A -> result B) : result B :=
  match m with
  | Ok a => k a
  | Raised e => Raised e
  end.

Notation "x <- m ;; k" := (bind m (fun x => k))
  (at level 61, m at next level, right associativity).

(** The built-in errors the dynamic checks on a [JSON] value can end in. *)
Inductive fault : Type :=
| NotAContainer (v : JSON)
| NotIterable (v : JSON)
| NotSubscriptable (v : JSON)
| BadIndex (v : JSON)
| NoAttribute (v : JSON) (attr : pystr)
| MissingKey (key : JSON)
| OutOfRange (v : JSON)
| NotAString (v : JSON).

Definition fault_class (f : fault) : exn_class :=
  match f with
  | NotAContainer _ | NotIterable _ | NotSubscriptable _ | BadIndex _
  | NotAString _ => TypeError
  | NoAttribute _ _ => AttributeError
  | MissingKey _ => KeyError
  | OutOfRange _ => IndexError
  end.

(** What app.py takes from the interpreter and its libraries. *)
Class Python : Type := {
  str_lower : pystr -> pystr;
  json_loads : pystr -> result JSON;
  py_repr : JSON -> pystr;
  errmsg : fault -> pystr
}.

(** ** Dynamic operations on parsed values *)

Section Gateway.

Context {P : Python}.

(** The module-wide API key (app.py, lines 16-55). *)
Variable GOOGLE_API_KEY : pystr.

Definition raise_fault {A : Type} (f : fault) : result A :=
  Raised (Raise (fault_class f) (errmsg f)).

Fixpoint dict_lookup (key : pystr) (fields : list (pystr * JSON)) : option JSON :=
  match fields with
  | [] => None
  | (k, v) :: rest => if str_eqb k key then Some v else dict_lookup key rest
  end.

(** [v.get(key, default)] *)
Definition py_get (v : JSON) (key : pystr) (default : JSON) : result JSON :=
  match v with
  | JObj fields =>
      match dict_lookup key fields with
      | Some x => Ok x
      | None => Ok default
      end
  | _ => raise_fault (NoAttribute v (py "get"))
  end.

Definition is_str (key : pystr) (v : JSON) : bool :=
  match v with
  | JStr s => str_eqb s key
  | _ => false
  end.

(** [key in v] for a string [key] *)
Definition py_in (key : pystr) (v : JSON) : result bool :=
  match v with
  | JObj fields => Ok (existsb (fun kv => str_eqb (fst kv) key) fields)
  | JArr items => Ok (existsb (is_str key) items)
  | JStr s => Ok (contains key s)
  | _ => raise_fault (NotAContainer v)
  end.

(** [v[key]] for a string [key] *)
Definition py_getitem (v : JSON) (key : pystr) : result JSON :=
  match v with
  | JObj fields =>
      match dict_lookup key fields with
      | Some x => Ok x
      | None => raise_fault (MissingKey (JStr key))
      end
  | JArr _ | JStr _ => raise_fault (BadIndex v)
  | _ => raise_fault (NotSubscriptable v)
  end.

(** [v[0]] *)
Definition py_first (v : JSON) : result JSON :=
  match v with
  | JArr (x :: _) => Ok x
  | JStr (c :: _) => Ok (JStr [c])
  | JArr [] | JStr [] => raise_fault (OutOfRange v)
  | JObj _ => raise_fault (MissingKey (JInt 0))
  | _ => raise_fault (NotSubscriptable v)
  end.

(** The items a [for] over [v] goes through. *)
Definition py_iter (v : JSON) : result (list JSON) :=
  match v with
  | JArr items => Ok items
  | JObj fields => Ok (map (fun kv => JStr (fst kv)) fields)
  | JStr s => Ok (map (fun c => JStr [c]) s)
  | _ => raise_fault (NotIterable v)
  end.

(** [bool(v)] *)
Definition truthy (v : JSON) : bool :=
  match v with
  | JNull => false
  | JBool b => b
  | JInt n => negb (Z.eqb n 0)
  | JFloat (S754_zero _) => false
  | JFloat _ => true
  | JStr s => negb (Nat.eqb (List.length s) 0)
  | JArr items => negb (Nat.eqb (List.length items) 0)
  | JObj fields => negb (Nat.eqb (List.length fields) 0)
  end.

(** [v.lower()] *)
Definition py_lower (v : JSON) : result pystr :=
  match v with
  | JStr s => Ok (str_lower s)
  | _ => raise_fault (NoAttribute v (py "lower"))
  end.

(** [v.split('/')[-1]] *)
Definition py_last_segment (v : JSON) : result pystr :=
  match v with
  | JStr s => Ok (last (split SLASH s) [])
  | _ => raise_fault (NoAttribute v (py "split"))
  end.

(** [str(v)], as an f-string renders [v]. *)
Definition py_str (v : JSON) : pystr :=
  match v with
  | JStr s => s
  | _ => py_repr v
  end.

(** ** The network *)

(** What app.py reads of a [requests.Response]: [r.status_code],
    [r.headers.get('content-type')], [r.text] and [r.json()]. *)
Record Response : Type := {
  status_code : Z;
  content_type : option pystr;
  text : pystr;
  json : result JSON
}.

(** One run's network: the answer to [requests.get(url, timeout=5)] and
    the answer to the k-th [requests.post(url, json=payload,
    timeout=timeout)].  A timeout or a connection error is a raised
    exception. *)
Record Net : Type := {
  requests_get : pystr -> result Response;
  requests_post : nat -> pystr -> JSON -> Z -> result Response
}.

(** ** Model directory (app.py, lines 76-107) *)

Definition AVAILABLE_MODELS : list pystr :=
  [ py "gemini-1.5-flash";
    py "gemini-1.5-pro";
    py "gemini-2.0-flash";
    py "gemini-1.5-flash-latest";
    py "gemini-1.5-pro-latest";
    py "gemini-1.0-pro" ].

Definition models_url : pystr :=
  py "https://generativelanguage.googleapis.com/v1beta/models?key=" ++ GOOGLE_API_KEY.

(** ['marker' not in m['name'].lower()] *)
Definition marker_absent (marker : pystr) (m : JSON) : result bool :=
  name <- py_getitem m (py "name") ;;
  lowered <- py_lower name ;;
  Ok (negb (contains marker lowered)).

(** The condition of the comprehension of lines 98-101; [and] evaluates
    its right operand only when the left one is true. *)
Definition text_capable (m : JSON) : result bool :=
  methods <- py_get m (py "supportedGenerationMethods") (JArr []) ;;
  generates <- py_in (py "generateContent") methods ;;
  if negb generates then Ok false else
  no_tts <- marker_absent (py "tts") m ;;
  if negb no_tts then Ok false else
  no_embed <- marker_absent (py "embed") m ;;
  if negb no_embed then Ok false else
  marker_absent (py "aqa") m.

(** The comprehension of lines 96-102. *)
Fixpoint select_models (all_models : list JSON) : result (list pystr) :=
  match all_models with
  | [] => Ok []
  | m :: rest =>
      keep <- text_capable m ;;
      if keep then
        name <- py_getitem m (py "name") ;;
        short <- py_last_segment name ;;
        models <- select_models rest ;;
        Ok (short :: models)
      else select_models rest
  end.

(** Lines 91-104, for a response whose status is 200. *)
Definition discovered (r : Response) : result (list pystr) :=
  body <- json r ;;
  all_models <- py_get body (py "models") (JArr []) ;;
  items <- py_iter all_models ;;
  select_models items.

Definition get_supported_models (net : Net) : list pystr :=
  match requests_get net models_url with
  | Ok r =>
      if Z.eqb (status_code r) 200 then
        match discovered r with
        | Ok models => models
        | Raised _ => AVAILABLE_MODELS
        end
      else AVAILABLE_MODELS
  | Raised _ => AVAILABLE_MODELS
  end.

(** ** Fallback invoker (app.py, lines 109-141) *)

Definition generate_url (model : pystr) : pystr :=
  py "https://generativelanguage.googleapis.com/v1beta/models/" ++ model
  ++ py ":generateContent?key=" ++ GOOGLE_API_KEY.

(** How one pass through the loop body ends. *)
Inductive flow : Type :=
| Return (v : JSON)
| Break (last_error : pystr)
| Continue (last_error : pystr).

Definition is_application_json (h : option pystr) : bool :=
  match h with
  | Some v => str_eqb v (py "application/json")
  | None => false
  end.

(** Line 129. *)
Definition error_data (r : Response) : result pystr :=
  if is_application_json (content_type r)
  then v <- json r ;; Ok (py_str v)
  else Ok (text r).

(** Lines 121-139, given what [requests.post] did. *)
Definition attempt (model : pystr) (posted : result Response) : flow :=
  match posted with
  | Raised e => Continue (str_exn e)
  | Ok r =>
      if Z.eqb (status_code r) 200 then
        match json r with
        | Ok v => Return v
        | Raised e => Continue (str_exn e)
        end
      else
        match error_data r with
        | Raised e => Continue (str_exn e)
        | Ok data =>
            let last_error :=
              py "API " ++ str_int (status_code r) ++ py " (" ++ model
              ++ py "): " ++ data in
            if Z.eqb (status_code r) 400 || Z.eqb (status_code r) 403
            then Break last_error
            else Continue last_error
        end
  end.

(** How the [for] loop ends. *)
Inductive loop_end : Type :=
| Returned (v : JSON)
| Exhausted (last_error : pystr).

(** The loop of lines 117-139; [log] is the list of URLs posted to so
    far, oldest first. *)
Fixpoint try_models (net : Net) (payload : JSON) (timeout : Z)
    (models : list pystr) (last_error : pystr) (log : list pystr)
    : loop_end * list pystr :=
  match models with
  | [] => (Exhausted last_error, log)
  | model :: rest =>
      let url := generate_url model in
      match attempt model (requests_post net (List.length log) url payload timeout) with
      | Return v => (Returned v, log ++ [url])
      | Break e => (Exhausted e, log ++ [url])
      | Continue e => try_models net payload timeout rest e (log ++ [url])
      end
  end.

(** [call_gemini(payload, timeout)]: what it returns or raises, and the
    URLs it posted to. *)
Definition call_gemini (net : Net) (payload : JSON) (timeout : Z)
    : result JSON * list pystr :=
  let models_to_try := get_supported_models net in
  match try_models net payload timeout models_to_try (py "No models attempted") [] with
  | (Returned v, log) => (Ok v, log)
  | (Exhausted last_error, log) =>
      (Raised (Raise Exception
                 (py "All AI attempts failed. Final error: " ++ last_error)),
       log)
  end.

End Gateway.

(** ** Structured extraction (app.py, lines 254-255 and 299-300) *)

Fixpoint count_space (s : pystr) : nat :=
  match s with
  | c :: s' => if isspace c then S (count_space s') else 0
  | [] => 0
  end.

(** The length of the match of the pattern [```json\s*|\s*```] at the
    start of [s], if it matches there.  The first alternative is tried
    first; [\s*] takes the whole run of whitespace, and giving some of it
    back cannot help the second alternative, whose next character must be
    a backtick. *)
Definition fence_match (s : pystr) : option nat :=
  if startswith (py "```json") s
  then Some (7 + count_space (skipn 7 s))
  else
    let n := count_space s in
    if startswith (py "```") (skipn n s) then Some (n + 3) else None.

(** [re.sub(pattern, '', s)], scanning from the left; [skip] counts the
    characters of the current match still to be dropped. *)
Fixpoint remove_fences (skip : nat) (s : pystr) : pystr :=
  match s with
  | [] => []
  | c :: rest =>
      match skip with
      | S k => remove_fences k rest
      | O =>
          match fence_match s with
          | Some (S k) => remove_fences k rest
          | _ => c :: remove_fences 0 rest
          end
      end
  end.

Definition re_sub_fences (s : pystr) : pystr := remove_fences 0 s.

(** The longest prefix of [s] that ends in a closing brace: what [.*\}]
    matches at the start of [s] under [re.DOTALL]. *)
Fixpoint upto_last_rbrace (s : pystr) : option pystr :=
  match s with
  | [] => None
  | c :: rest =>
      match upto_last_rbrace rest with
      | Some m => Some (c :: m)
      | None => if N.eqb c RBRACE then Some [c] else None
      end
  end.

(** The match of [\{.*\}] at the start of [s]. *)
Definition match_braces (s : pystr) : option pystr :=
  match s with
  | c :: rest =>
      if N.eqb c LBRACE then option_map (cons c) (upto_last_rbrace rest) else None
  | [] => None
  end.

(** [re.search(r"\{.*\}", s, re.DOTALL)], as [match.group()]. *)
Fixpoint re_search_braces (s : pystr) : option pystr :=
  match match_braces s with
  | Some m => Some m
  | None =>
      match s with
      | [] => None
      | _ :: rest => re_search_braces rest
      end
  end.

Section Routes.

Context {P : Python}.
Variable GOOGLE_API_KEY : pystr.

(** A route's answer: the JSON body and the HTTP status. *)
Definition reply : Type := (JSON * Z)%type.

Definition error_body (message : pystr) : JSON :=
  JObj [(py "error", JStr message)].

Definition error_raw (message : pystr) (text : JSON) : JSON :=
  JObj [(py "error", JStr message); (py "raw", text)].

(** ["candidates" not in data or not data["candidates"]] *)
Definition no_candidates (data : JSON) : result bool :=
  present <- py_in (py "candidates") data ;;
  if negb present then Ok true else
  candidates <- py_getitem data (py "candidates") ;;
  Ok (negb (truthy candidates)).

(** [data["candidates"][0]["content"]["parts"][0]["text"]] *)
Definition first_text (data : JSON) : result JSON :=
  candidates <- py_getitem data (py "candidates") ;;
  candidate <- py_first candidates ;;
  content <- py_getitem candidate (py "content") ;;
  parts <- py_getitem content (py "parts") ;;
  part <- py_first parts ;;
  py_getitem part (py "text").

(** [re.sub(..., '', text).strip()]; [re.sub] wants a string. *)
Definition clean (text : JSON) : result pystr :=
  match text with
  | JStr s => Ok (strip (re_sub_fences s))
  | _ => raise_fault (NotAString text)
  end.

(** scan_food, lines 254-264. *)
Definition scan_food_extract (text : JSON) : result reply :=
  clean_text <- clean text ;;
  match re_search_braces clean_text with
  | Some span =>
      match json_loads span with
      | Ok json_data => Ok (json_data, 200%Z)
      | Raised e =>
          match exn_class_of e with
          | JSONDecodeError =>
              Ok (error_raw (py "AI returned invalid JSON structure") text, 500%Z)
          | _ => Raised e
          end
      end
  | None => Ok (error_raw (py "AI response did not contain JSON") text, 500%Z)
  end.

(** diet_plan, lines 299-305. *)
Definition diet_plan_extract (text : JSON) : result reply :=
  clean_text <- clean text ;;
  match re_search_braces clean_text with
  | Some span => parsed <- json_loads span ;; Ok (parsed, 200%Z)
  | None => Ok (error_raw (py "AI response did not contain JSON") text, 500%Z)
  end.

(** What a route does with the value [call_gemini] returned. *)
Definition scan_food_handle (data : JSON) : result reply :=
  missing <- no_candidates data ;;
  if missing
  then Ok (error_body (py "No results from AI. Safety filters might be active."), 500%Z)
  else text <- first_text data ;; scan_food_extract text.

Definition diet_plan_handle (res_data : JSON) : result reply :=
  missing <- no_candidates res_data ;;
  if missing
  then Ok (error_body (py "AI could not generate a plan."), 500%Z)
  else text <- first_text res_data ;; diet_plan_extract text.

Definition chat_handle (res_data : JSON) : result reply :=
  missing <- no_candidates res_data ;;
  if missing
  then Ok (error_body (py "Bella is unable to respond right now."), 500%Z)
  else reply_text <- first_text res_data ;; Ok (JObj [(py "reply", reply_text)], 200%Z).

(** The [try] of a route: the payload is assembled (which may itself
    raise), [call_gemini] is called with its default timeout, the result
    is handled, and [except Exception as e] turns whatever was raised
    into a 500 whose message starts with [prefix]. *)
Definition guarded (prefix : pystr) (handle : JSON -> result reply)
    (net : Net) (built : result JSON) : reply * list pystr :=
  match built with
  | Raised e => ((error_body (prefix ++ str_exn e), 500%Z), [])
  | Ok payload =>
      let (called, log) := call_gemini GOOGLE_API_KEY net payload 30%Z in
      match data <- called ;; handle data with
      | Ok answer => (answer, log)
      | Raised e => ((error_body (prefix ++ str_exn e), 500%Z), log)
      end
  end.

(** scan_food (lines 227-267); [image] is [None] when the request has no
    uploaded file named image, and otherwise what lines 233-243 make of
    it. *)
Definition scan_food (net : Net) (image : option (result JSON)) : reply * list pystr :=
  match image with
  | None => ((error_body (py "No image uploaded"), 400%Z), [])
  | Some built => guarded (py "Server Error: ") scan_food_handle net built
  end.

(** diet_plan (lines 270-307); [built] is what lines 273-289 make of the
    request. *)
Definition diet_plan (net : Net) (built : result JSON) : reply * list pystr :=
  guarded (py "AI Plan failed: ") diet_plan_handle net built.

(** chat, the [try] of lines 471-518; [built] is what lines 472-505 make
    of the request. *)
Definition chat (net : Net) (built : result JSON) : reply * list pystr :=
  guarded (py "Bella Error: ") chat_handle net built.

End Routes.

(** ** Loading the API key (app.py, lines 31-55) *)

(** [s.endswith(p)] *)
Definition endswith (p s : pystr) : bool := startswith (rev p) (rev s).

(** [s.split(sep, 1)[1]] for a one-character separator: what follows the
    first [sep]; [None] stands for the IndexError when there is none. *)
Fixpoint after_first (sep : char) (s : pystr) : option pystr :=
  match s with
  | [] => None
  | c :: rest => if N.eqb c sep then Some rest else after_first sep rest
  end.

(** [s[1:-1]] *)
Definition strip_ends (s : pystr) : pystr := removelast (tl s).

Definition DQUOTE : pystr := [34%N].
Definition SQUOTE : pystr := [39%N].

(** Lines 42-44: a value wrapped in a pair of double quotes or in a pair
    of single quotes loses them. *)
Definition unquote (key_val : pystr) : pystr :=
  if (startswith DQUOTE key_val && endswith DQUOTE key_val)
     || (startswith SQUOTE key_val && endswith SQUOTE key_val)
  then strip_ends key_val
  else key_val.

(** The loop of lines 37-48 over the lines read from the .env file: the
    key of the first line that, stripped, starts with [Google_api=].
    [None] when the loop ends without one; the handler of line 49 only
    prints, so an exception leaves the key unset all the same. *)
Fixpoint manual_parse (lines : list pystr) : option pystr :=
  match lines with
  | [] => None
  | raw :: rest =>
      let line := strip raw in
      if startswith (py "Google_api=") line then
        match after_first 61%N line with
        | Some value => Some (unquote (strip value))
        | None => None
        end
      else manual_parse rest
  end.

(** [not GOOGLE_API_KEY] *)
Definition unset (key : option pystr) : bool :=
  match key with
  | None | Some [] => true
  | Some (_ :: _) => false
  end.

(** Lines 31-55: [getenv] is what [os.getenv("Google_api")] returns, and
    [env_file] the lines the loop gets to read from the .env file, when
    it exists. *)
Definition load_api_key (getenv : option pystr) (env_file : option (list pystr)) : pystr :=
  let key :=
    if unset getenv then
      match env_file with
      | Some lines =>
          match manual_parse lines with
          | Some found => Some found
          | None => getenv
          end
      | None => getenv
      end
    else getenv in
  match key with
  | Some k => k
  | None => []
  end.

(** ** The weekly route (app.py, lines 310-333) *)

(** A row of the query: calories, protein, carbs, fats. *)
Definition row : Type := (JSON * JSON * JSON * JSON)%type.

Definition column (n : nat) (r : row) : JSON :=
  match r, n with
  | (a, _, _, _), 0%nat => a
  | (_, b, _, _), 1%nat => b
  | (_, _, c, _), 2%nat => c
  | (_, _, _, d), _ => d
  end.

(** [[f"Day {i+1}" for i in range(n)]] *)
Definition day_labels (n : nat) : list JSON :=
  map (fun i => JStr (py "Day " ++ str_int (Z.of_nat (S i)))) (seq 0 n).

(** [[r[n] for r in rows][::-1]] *)
Definition series (n : nat) (rows : list row) : list JSON := rev (map (column n) rows).

(** weekly; [fetched] is what connecting and running the query gives. *)
Definition weekly (fetched : result (list row)) : JSON * Z :=
  match fetched with
  | Raised e => (JObj [(py "error", JStr (str_exn e))], 500%Z)
  | Ok [] =>
      (JObj [(py "labels", JArr [JStr (py "Day 1")]);
             (py "calories", JArr [JInt 0]);
             (py "protein", JArr [JInt 0]);
             (py "carbs", JArr [JInt 0]);
             (py "fats", JArr [JInt 0])], 200%Z)
  | Ok rows =>
      (JObj [(py "labels", JArr (day_labels (List.length rows)));
             (py "calories", JArr (series 0 rows));
             (py "protein", JArr (series 1 rows));
             (py "carbs", JArr (series 2 rows));
             (py "fats", JArr (series 3 rows))], 200%Z)
  end.

(** ** A Python for the examples

    [CPython] implements the [Python] interface as CPython 3.11 behaves
    on the texts the examples use: [str.lower] and [repr] are right for
    ASCII text, the built-in messages are those of 3.11, and [json.loads]
    is the decoder of the standard library except for its recursion
    limit, which is not reproduced. *)

Module Json.

(** A decoding step: the value and the rest of the input, or a message
    and the suffix of the document at which the error is reported. *)
Definition step (A : Type) : Type := ((A * pystr) + (pystr * pystr))%type.

Definition QUOTE : char := 34%N.
Definition BACKSLASH : char := 92%N.

Definition is_json_space (c : char) : bool :=
  (N.eqb c 32 || N.eqb c 9 || N.eqb c 10 || N.eqb c 13)%N.

Fixpoint skip_ws (s : pystr) : pystr :=
  match s with
  | c :: s' => if is_json_space c then skip_ws s' else s
  | [] => []
  end.

Definition is_digit (c : char) : bool := ((48 <=? c) && (c <=? 57))%N.

Definition hex_value (c : char) : option N :=
  if ((48 <=? c) && (c <=? 57))%N then Some (c - 48)%N
  else if ((97 <=? c) && (c <=? 102))%N then Some (c - 87)%N
  else if ((65 <=? c) && (c <=? 70))%N then Some (c - 55)%N
  else None.

(** Four hexadecimal digits at the start of [s]. *)
Definition hex4 (s : pystr) : option (N * pystr) :=
  match s with
  | a :: b :: c :: d :: rest =>
      match hex_value a, hex_value b, hex_value c, hex_value d with
      | Some x, Some y, Some z, Some w => Some (((x * 16 + y) * 16 + z) * 16 + w, rest)%N
      | _, _, _, _ => None
      end
  | _ => None
  end.

Definition simple_escape (c : char) : option char :=
  if N.eqb c 34 then Some 34%N        (* quote *)
  else if N.eqb c 92 then Some 92%N   (* backslash *)
  else if N.eqb c 47 then Some 47%N   (* slash *)
  else if N.eqb c 98 then Some 8%N    (* b *)
  else if N.eqb c 102 then Some 12%N  (* f *)
  else if N.eqb c 110 then Some 10%N  (* n *)
  else if N.eqb c 114 then Some 13%N  (* r *)
  else if N.eqb c 116 then Some 9%N   (* t *)
  else None.

Definition is_high_surrogate (u : N) : bool := ((55296 <=? u) && (u <=? 56319))%N.
Definition is_low_surrogate (u : N) : bool := ((56320 <=? u) && (u <=? 57343))%N.

(** The body of a string literal; [start] is the document from the
    opening quote, [acc] the characters decoded so far, last first. *)
Fixpoint scan_string (fuel : nat) (start s acc : pystr) : step pystr :=
  match fuel with
  | O => inr (py "Unterminated string starting at", start)
  | S fuel' =>
      match s with
      | [] => inr (py "Unterminated string starting at", start)
      | c :: rest =>
          if N.eqb c QUOTE then inl (rev acc, rest)
          else if N.eqb c BACKSLASH then
            match rest with
            | [] => inr (py "Unterminated string starting at", start)
            | e :: rest' =>
                if N.eqb e 117 then
                  match hex4 rest' with
                  | None => inr (py "Invalid \uXXXX escape", rest)
                  | Some (u, after) =>
                      let alone := scan_string fuel' start after (u :: acc) in
                      if is_high_surrogate u then
                        match after with
                        | b :: v :: after' =>
                            if N.eqb b BACKSLASH && N.eqb v 117 then
                              match hex4 after' with
                              | Some (u2, after2) =>
                                  if is_low_surrogate u2
                                  then scan_string fuel' start after2
                                         ((65536 + (u - 55296) * 1024 + (u2 - 56320))%N :: acc)
                                  else alone
                              | None => alone
                              end
                            else alone
                        | _ => alone
                        end
                      else alone
                  end
                else
                  match simple_escape e with
                  | Some x => scan_string fuel' start rest' (x :: acc)
                  | None => inr (py "Invalid \escape", s)
                  end
            end
          else if (c <? 32)%N then inr (py "Invalid control character at", s)
          else scan_string fuel' start rest (c :: acc)
      end
  end.

Fixpoint take_digits (s : pystr) : pystr * pystr :=
  match s with
  | c :: s' =>
      if is_digit c then let (d, r) := take_digits s' in (c :: d, r) else ([], s)
  | [] => ([], [])
  end.

Definition digits_value (d : pystr) : Z :=
  fold_left (fun acc c => (acc * 10 + Z.of_N (c - 48))%Z) d 0%Z.

(** The double nearest to [m * 10 ^ e10] (ties to even), for [m >= 0]:
    what [float] makes of a decimal literal. *)
Definition decimal_to_float (negative : bool) (m e10 : Z) : spec_float :=
  let sign (x : Z) := if negative then Z.opp x else x in
  if Z.eqb m 0 then S754_zero negative
  else if (0 <=? e10)%Z then binary_normalize 53 1024 (sign (m * 10 ^ e10)%Z) 0 negative
  else
    let k := Z.opp e10 in
    let shift := (4 * k + 64)%Z in
    let q := (m * 2 ^ shift / 10 ^ k)%Z in
    let sticky := if Z.eqb (m * 2 ^ shift mod 10 ^ k) 0 then 0%Z else 1%Z in
    binary_normalize 53 1024 (sign (2 * q + sticky)%Z) (Z.opp (shift + 1)) negative.

Definition MAX_STR_DIGITS : nat := 4300.

(** A number literal at the start of [s]: an [int] when it has neither a
    fraction nor an exponent; [None] when no number starts here.  The
    inner result is the [ValueError] of an integer literal of more than
    4300 digits. *)
Definition scan_number (s : pystr) : option (result JSON * pystr) :=
  let (negative, s1) :=
    match s with
    | c :: s' => if N.eqb c 45 then (true, s') else (false, s)
    | [] => (false, s)
    end in
  let integer :=
    match s1 with
    | c :: s' =>
        if N.eqb c 48 then Some ([c], s')
        else if is_digit c then Some (take_digits s1)
        else None
    | [] => None
    end in
  match integer with
  | None => None
  | Some (int_digits, s2) =>
      let (frac_digits, s3) :=
        match s2 with
        | dot :: d :: _ =>
            if N.eqb dot 46 && is_digit d then take_digits (tl s2) else ([], s2)
        | _ => ([], s2)
        end in
      let fraction := negb (Nat.eqb (List.length frac_digits) 0) in
      let exponent :=
        match s3 with
        | e :: s4 =>
            if N.eqb e 101 || N.eqb e 69 then
              let (minus, s5) :=
                match s4 with
                | c :: s' =>
                    if N.eqb c 45 then (true, s')
                    else if N.eqb c 43 then (false, s')
                    else (false, s4)
                | [] => (false, s4)
                end in
              match take_digits s5 with
              | ([], _) => None
              | (d, rest) =>
                  Some ((if minus then Z.opp (digits_value d) else digits_value d), rest)
              end
            else None
        | [] => None
        end in
      match fraction, exponent with
      | false, None =>
          if Nat.ltb MAX_STR_DIGITS (List.length int_digits)
          then
            Some (Raised (Raise ValueError
                    (py "Exceeds the limit (4300 digits) for integer string conversion: value has "
                     ++ str_int (Z.of_nat (List.length int_digits))
                     ++ py " digits; use sys.set_int_max_str_digits() to increase the limit")),
                  s3)
          else
            let v := digits_value int_digits in
            Some (Ok (JInt (if negative then Z.opp v else v)), s3)
      | _, _ =>
          let (e, rest) :=
            match exponent with
            | Some (e, rest) => (e, rest)
            | None => (0%Z, s3)
            end in
          Some (Ok (JFloat (decimal_to_float negative
                              (digits_value (int_digits ++ frac_digits))
                              (e - Z.of_nat (List.length frac_digits))%Z)),
                rest)
      end
  end.

(** [d[key] = v] on a dict in insertion order. *)
Fixpoint dict_set (key : pystr) (v : JSON) (fields : list (pystr * JSON))
    : list (pystr * JSON) :=
  match fields with
  | [] => [(key, v)]
  | (k, x) :: rest =>
      if str_eqb k key then (k, v) :: rest else (k, x) :: dict_set key v rest
  end.

Definition keyword (word : string) (v : JSON) (s : pystr) : option (JSON * pystr) :=
  if startswith (py word) s then Some (v, skipn (List.length (py word)) s) else None.

(** The outcome of decoding one value: as [step], with the [ValueError]
    of an oversized integer as a third case. *)
Inductive decoded : Type :=
| Value (v : JSON) (rest : pystr)
| Syntax (message : pystr) (suffix : pystr)
| Other (e : exn).

Fixpoint scan_once (fuel : nat) (s : pystr) : decoded :=
  match fuel with
  | O => Syntax (py "Expecting value") s
  | S fuel' =>
      match s with
      | [] => Syntax (py "Expecting value") s
      | c :: rest =>
          if N.eqb c QUOTE then
            match scan_string (List.length rest + 1) s rest [] with
            | inl (str, after) => Value (JStr str) after
            | inr (message, suffix) => Syntax message suffix
            end
          else if N.eqb c LBRACE then
            let after := skip_ws rest in
            match after with
            | c' :: after' =>
                if N.eqb c' RBRACE then Value (JObj []) after'
                else scan_members fuel' after []
            | [] => scan_members fuel' after []
            end
          else if N.eqb c 91 then
            let after := skip_ws rest in
            match after with
            | c' :: after' =>
                if N.eqb c' 93 then Value (JArr []) after'
                else scan_items fuel' after []
            | [] => scan_items fuel' after []
            end
          else
            match keyword "null" JNull s with
            | Some (v, after) => Value v after
            | None =>
            match keyword "true" (JBool true) s with
            | Some (v, after) => Value v after
            | None =>
            match keyword "false" (JBool false) s with
            | Some (v, after) => Value v after
            | None =>
            match scan_number s with
            | Some (Ok v, after) => Value v after
            | Some (Raised e, _) => Other e
            | None =>
            match keyword "NaN" (JFloat S754_nan) s with
            | Some (v, after) => Value v after
            | None =>
            match keyword "Infinity" (JFloat (S754_infinity false)) s with
            | Some (v, after) => Value v after
            | None =>
            match keyword "-Infinity" (JFloat (S754_infinity true)) s with
            | Some (v, after) => Value v after
            | None => Syntax (py "Expecting value") s
            end end end end end end end
      end
  end

(** The members of an object, from the first key; [acc] is the dict so
    far. *)
with scan_members (fuel : nat) (s : pystr) (acc : list (pystr * JSON)) : decoded :=
  match fuel with
  | O => Syntax (py "Expecting value") s
  | S fuel' =>
      match s with
      | c :: rest =>
          if N.eqb c QUOTE then
            match scan_string (List.length rest + 1) s rest [] with
            | inr (message, suffix) => Syntax message suffix
            | inl (key, after_key) =>
                match skip_ws after_key with
                | colon :: after_colon =>
                    if N.eqb colon 58 then
                      match scan_once fuel' (skip_ws after_colon) with
                      | Value v after_value =>
                          let acc' := dict_set key v acc in
                          match skip_ws after_value with
                          | d :: after_d =>
                              if N.eqb d RBRACE then Value (JObj acc') after_d
                              else if N.eqb d 44
                              then scan_members fuel' (skip_ws after_d) acc'
                              else Syntax (py "Expecting ',' delimiter") (d :: after_d)
                          | [] => Syntax (py "Expecting ',' delimiter") []
                          end
                      | failed => failed
                      end
                    else Syntax (py "Expecting ':' delimiter") (colon :: after_colon)
                | [] => Syntax (py "Expecting ':' delimiter") []
                end
            end
          else Syntax (py "Expecting property name enclosed in double quotes") s
      | [] => Syntax (py "Expecting property name enclosed in double quotes") s
      end
  end

(** The items of an array, from the first item; [acc] holds the items so
    far, last first. *)
with scan_items (fuel : nat) (s : pystr) (acc : list JSON) : decoded :=
  match fuel with
  | O => Syntax (py "Expecting value") s
  | S fuel' =>
      match scan_once fuel' s with
      | Value v after_value =>
          match skip_ws after_value with
          | d :: after_d =>
              if N.eqb d 93 then Value (JArr (rev (v :: acc))) after_d
              else if N.eqb d 44 then scan_items fuel' (skip_ws after_d) (v :: acc)
              else Syntax (py "Expecting ',' delimiter") (d :: after_d)
          | [] => Syntax (py "Expecting ',' delimiter") []
          end
      | failed => failed
      end
  end.

(** The number of characters of [s] after its last newline. *)
Definition after_last_newline (s : pystr) : nat :=
  List.length (last (split 10%N s) []).

(** [JSONDecodeError(msg, doc, pos)] as a string. *)
Definition decode_error (message doc suffix : pystr) : exn :=
  let pos := (List.length doc - List.length suffix)%nat in
  let before := firstn pos doc in
  let lineno := S (List.length (filter (N.eqb 10) before)) in
  let colno := S (after_last_newline before) in
  Raise JSONDecodeError
    (message ++ py ": line " ++ str_int (Z.of_nat lineno)
     ++ py " column " ++ str_int (Z.of_nat colno)
     ++ py " (char " ++ str_int (Z.of_nat pos) ++ py ")").

(** [json.loads(doc)] *)
Definition loads (doc : pystr) : result JSON :=
  match doc with
  | 65279%N :: _ =>
      Raised (decode_error (py "Unexpected UTF-8 BOM (decode using utf-8-sig)") doc doc)
  | _ =>
      match scan_once (2 * List.length doc + 2) (skip_ws doc) with
      | Value v rest =>
          match skip_ws rest with
          | [] => Ok v
          | extra => Raised (decode_error (py "Extra data") doc extra)
          end
      | Syntax message suffix => Raised (decode_error message doc suffix)
      | Other e => Raised e
      end
  end.

End Json.

Module Runtime.

(** [str.lower] on ASCII letters. *)
Definition ascii_lower (s : pystr) : pystr :=
  map (fun c => if ((65 <=? c) && (c <=? 90))%N then (c + 32)%N else c) s.

Definition type_name (v : JSON) : pystr :=
  match v with
  | JNull => py "NoneType"
  | JBool _ => py "bool"
  | JInt _ => py "int"
  | JFloat _ => py "float"
  | JStr _ => py "str"
  | JArr _ => py "list"
  | JObj _ => py "dict"
  end.

Definition hex_digit (n : N) : char :=
  if (n <? 10)%N then (48 + n)%N else (87 + n)%N.

(** [repr] of a string of ASCII characters. *)
Definition str_repr (s : pystr) : pystr :=
  let quote : char :=
    if existsb (N.eqb 39) s && negb (existsb (N.eqb 34) s) then 34%N else 39%N in
  let escape (c : char) : pystr :=
    if N.eqb c 92 then py "\\"
    else if N.eqb c quote then [92%N; c]
    else if N.eqb c 9 then py "\t"
    else if N.eqb c 10 then py "\n"
    else if N.eqb c 13 then py "\r"
    else if ((c <? 32) || N.eqb c 127)%N
    then py "\x" ++ [hex_digit (c / 16); hex_digit (c mod 16)]
    else [c] in
  quote :: flat_map escape s ++ [quote].

(** Is [m * 2 ^ e >= 10 ^ p]? *)
Definition reaches (m e p : Z) : bool :=
  (10 ^ Z.max p 0 * 2 ^ Z.max (- e) 0 <=? m * 2 ^ Z.max e 0 * 10 ^ Z.max (- p) 0)%Z.

Fixpoint first_above (fuel : nat) (m e p : Z) : Z :=
  match fuel with
  | O => p
  | S fuel' => if reaches m e p then first_above fuel' m e (p + 1)%Z else p
  end.

(** The shortest decimal [d * 10 ^ q] that reads back as the double
    [m * 2 ^ e], the nearest such when there are two; [p] is the number
    of digits of the integer part, [n] the length tried. *)
Fixpoint shortest (fuel : nat) (m e p n : Z) : Z * Z :=
  let q := (p - n)%Z in
  let num := (m * 2 ^ Z.max e 0 * 10 ^ Z.max (- q) 0)%Z in
  let den := (2 ^ Z.max (- e) 0 * 10 ^ Z.max q 0)%Z in
  let lo := (num / den)%Z in
  let hi := (lo + 1)%Z in
  let back (d : Z) :=
    match Json.decimal_to_float false d q with
    | S754_finite false m' e' => Z.eqb (Zpos m') m && Z.eqb e' e
    | _ => false
    end in
  match fuel with
  | O => (lo, q)
  | S fuel' =>
      match back lo, back hi with
      | true, true =>
          match (2 * num ?= (lo + hi) * den)%Z with
          | Lt => (lo, q)
          | Gt => (hi, q)
          | Eq => if Z.even lo then (lo, q) else (hi, q)
          end
      | true, false => (lo, q)
      | false, true => (hi, q)
      | false, false => shortest fuel' m e p (n + 1)%Z
      end
  end.

Fixpoint trim_zeros (fuel : nat) (d q : Z) : Z * Z :=
  match fuel with
  | O => (d, q)
  | S fuel' =>
      if Z.eqb (d mod 10) 0 && negb (Z.eqb d 0)
      then trim_zeros fuel' (d / 10)%Z (q + 1)%Z
      else (d, q)
  end.

Definition zeros (n : Z) : pystr := repeat 48%N (Z.to_nat n).

(** [repr] of a [float]. *)
Definition float_repr (f : spec_float) : pystr :=
  match f with
  | S754_nan => py "nan"
  | S754_infinity false => py "inf"
  | S754_infinity true => py "-inf"
  | S754_zero false => py "0.0"
  | S754_zero true => py "-0.0"
  | S754_finite negative mantissa e =>
      let m := Zpos mantissa in
      let p := first_above 6 m e ((Z.log2 m + e) * 30103 / 100000 - 1)%Z in
      let (d0, q0) := shortest 17 m e p 1 in
      let (d, q) := trim_zeros 20 d0 q0 in
      let digits := str_int d in
      let len := Z.of_nat (List.length digits) in
      let decpt := (len + q)%Z in
      let body :=
        if ((-4 <? decpt) && (decpt <=? 16))%Z then
          if (decpt <=? 0)%Z then py "0." ++ zeros (- decpt) ++ digits
          else if (len <=? decpt)%Z then digits ++ zeros (decpt - len) ++ py ".0"
          else firstn (Z.to_nat decpt) digits ++ py "." ++ skipn (Z.to_nat decpt) digits
        else
          let x := (decpt - 1)%Z in
          firstn 1 digits
          ++ (if (1 <? len)%Z then py "." ++ skipn 1 digits else [])
          ++ py "e" ++ (if (x <? 0)%Z then py "-" else py "+")
          ++ (if (Z.abs x <? 10)%Z then py "0" else []) ++ str_int (Z.abs x) in
      if negative then py "-" ++ body else body
  end.

Definition join (sep : pystr) (parts : list pystr) : pystr :=
  match parts with
  | [] => []
  | first :: rest => first ++ flat_map (fun x => sep ++ x) rest
  end.

(** [repr] of a parsed value. *)
Fixpoint repr (v : JSON) : pystr :=
  match v with
  | JNull => py "None"
  | JBool true => py "True"
  | JBool false => py "False"
  | JInt n => str_int n
  | JFloat f => float_repr f
  | JStr s => str_repr s
  | JArr items => py "[" ++ join (py ", ") (map repr items) ++ py "]"
  | JObj fields =>
      py "{"
      ++ join (py ", ") (map (fun kv => str_repr (fst kv) ++ py ": " ++ repr (snd kv)) fields)
      ++ py "}"
  end.

(** The messages of the built-in errors, as CPython 3.11 words them. *)
Definition message (f : fault) : pystr :=
  match f with
  | NotAContainer v => py "argument of type '" ++ type_name v ++ py "' is not iterable"
  | NotIterable v => py "'" ++ type_name v ++ py "' object is not iterable"
  | NotSubscriptable v => py "'" ++ type_name v ++ py "' object is not subscriptable"
  | BadIndex (JStr _) => py "string indices must be integers, not 'str'"
  | BadIndex _ => py "list indices must be integers or slices, not str"
  | NoAttribute v attr =>
      py "'" ++ type_name v ++ py "' object has no attribute '" ++ attr ++ py "'"
  | MissingKey key => repr key
  | OutOfRange (JStr _) => py "string index out of range"
  | OutOfRange _ => py "list index out of range"
  | NotAString v => py "expected string or bytes-like object, got '" ++ type_name v ++ py "'"
  end.

End Runtime.

#[global] Instance CPython : Python := {
  str_lower := Runtime.ascii_lower;
  json_loads := Json.loads;
  py_repr := Runtime.repr;
  errmsg := Runtime.message
}.

(** * The vocabulary of the statements *)

(** A span: an opening brace, anything, a closing brace. *)
Definition brace_span (span : pystr) : Prop :=
  exists body, span = LBRACE :: body ++ [RBRACE].

(** [span] runs from the first opening brace of [s] to its last closing
    brace. *)
Definition first_to_last (s span : pystr) : Prop :=
  exists pre post,
    s = pre ++ span ++ post /\ brace_span span /\
    ~ In LBRACE pre /\ ~ In RBRACE post.

(** Where a scan stands with respect to the string literals of a JSON
    text: outside of them, inside one, or inside one just after a
    backslash. *)
Inductive lexing : Type := Outside | Inside | Escaped.

(** Brace matching as a reader of JSON does it: the shortest prefix of
    [s] that closes [depth] open braces, the braces inside string
    literals not counting. *)
Fixpoint closing (m : lexing) (depth : nat) (s : pystr) : option pystr :=
  match s with
  | [] => None
  | c :: rest =>
      match m with
      | Escaped => option_map (cons c) (closing Inside depth rest)
      | Inside =>
          if N.eqb c Json.QUOTE then option_map (cons c) (closing Outside depth rest)
          else if N.eqb c Json.BACKSLASH
          then option_map (cons c) (closing Escaped depth rest)
          else option_map (cons c) (closing Inside depth rest)
      | Outside =>
          if N.eqb c Json.QUOTE then option_map (cons c) (closing Inside depth rest)
          else if N.eqb c LBRACE then option_map (cons c) (closing Outside (S depth) rest)
          else if N.eqb c RBRACE then
            match depth with
            | O => None
            | S O => Some [c]
            | S d => option_map (cons c) (closing Outside d rest)
            end
          else option_map (cons c) (closing Outside depth rest)
      end
  end.

(** The first balanced [{...}] substring of [s]: from the first opening
    brace that has a matching closing brace, to that brace. *)
Fixpoint first_balanced (s : pystr) : option pystr :=
  match s with
  | [] => None
  | c :: rest =>
      if N.eqb c LBRACE then
        match closing Outside 1 rest with
        | Some m => Some (c :: m)
        | None => first_balanced rest
        end
      else first_balanced rest
  end.

(** A brace span is balanced when the brace that closes its first one
    is its last character. *)
Definition balanced (span : pystr) : Prop :=
  exists body, span = LBRACE :: body /\ closing Outside 1 body = Some body.

(** The scan goes through [p] from [m] to [m'], and at its end as many
    braces are open as at its start, never fewer in between. *)
Definition passes (m m' : lexing) (p : pystr) : Prop :=
  forall depth tail,
    closing m (S depth) (p ++ tail) = option_map (app p) (closing m' (S depth) tail).

(** [s] is [rest] after a text the scan goes through from [m] to [m']. *)
Definition reads (m m' : lexing) (s rest : pystr) : Prop :=
  exists p, s = p ++ rest /\ passes m m' p.

Section Vocabulary.

Context {P : Python}.
Variable GOOGLE_API_KEY : pystr.

(** The text the span is searched in. *)
Definition clean_text (text : pystr) : pystr := strip (re_sub_fences text).

Definition NO_JSON : pystr := py "AI response did not contain JSON".
Definition INVALID_JSON : pystr := py "AI returned invalid JSON structure".

(** The value of the candidates field, when [data] is an object that has
    one. *)
Definition candidates_of (data : JSON) : option JSON :=
  match data with
  | JObj fields => dict_lookup (py "candidates") fields
  | _ => None
  end.

(** A provider-listed model as the listing call describes it: its name
    and its supported generation methods. *)
Record Listing : Type := {
  identifier : pystr;
  capabilities : list JSON
}.

(** The listing entry [m] read as a [Listing]: an object whose name is
    a string and whose methods, when given, are an array. *)
Definition describe (m : JSON) : option Listing :=
  match m with
  | JObj fields =>
      match dict_lookup (py "name") fields,
            dict_lookup (py "supportedGenerationMethods") fields with
      | Some (JStr name), Some (JArr methods) => Some (Build_Listing name methods)
      | Some (JStr name), None => Some (Build_Listing name [])
      | _, _ => None
      end
  | _ => None
  end.

Definition generates_content (d : Listing) : bool :=
  existsb (is_str (py "generateContent")) (capabilities d).

Definition marked (marker : pystr) (d : Listing) : bool :=
  contains marker (str_lower (identifier d)).

(** The filtering rule: generate-content capable, and none of the three
    markers in the lower-cased identifier. *)
Definition included (d : Listing) : bool :=
  generates_content d
  && negb (marked (py "tts") d)
  && negb (marked (py "embed") d)
  && negb (marked (py "aqa") d).

Definition short_name (d : Listing) : pystr := last (split SLASH (identifier d)) [].

Section Passes.

Variable net : Net.
Variable payload : JSON.
Variable timeout : Z.

(** How the pass for the [i]-th of [models] ends when [k] posts were made
    before the loop; [None] when there is no [i]-th model. *)
Definition pass_from (k : nat) (models : list pystr) (i : nat) : option flow :=
  match nth_error models i with
  | Some m => Some (attempt m (requests_post net (k + i) (generate_url GOOGLE_API_KEY m) payload timeout))
  | None => None
  end.

(** The passes before the [n]-th all went on to the next model. *)
Definition continued_from (k : nat) (models : list pystr) (n : nat) : Prop :=
  forall i, i < n -> exists e, pass_from k models i = Some (Continue e).

(** The error on record after the passes for all of [models] went on to
    the next model: that of the last pass, or the initial one. *)
Definition last_recorded (k : nat) (models : list pystr) (initial e : pystr) : Prop :=
  match List.length models with
  | O => e = initial
  | S n => pass_from k models n = Some (Continue e)
  end.

End Passes.

(** The pass for the [i]-th candidate of a call, the passes before the
    [n]-th having gone on, and the URLs of the first [n] candidates. *)
Definition pass (net : Net) (payload : JSON) (timeout : Z) (i : nat) : option flow :=
  pass_from net payload timeout 0 (get_supported_models GOOGLE_API_KEY net) i.

Definition continued (net : Net) (payload : JSON) (timeout : Z) (n : nat) : Prop :=
  continued_from net payload timeout 0 (get_supported_models GOOGLE_API_KEY net) n.

Definition posted_to (net : Net) (n : nat) : list pystr :=
  map (generate_url GOOGLE_API_KEY) (firstn n (get_supported_models GOOGLE_API_KEY net)).

Definition FINAL_ERROR : pystr := py "All AI attempts failed. Final error: ".
Definition NO_MODELS_ATTEMPTED : pystr := py "No models attempted".

End Vocabulary.

(** ** Further vocabulary *)

Definition BACKTICK : char := 96%N.
Definition FENCE : pystr := py "```".
Definition JSON_FENCE : pystr := py "```json".

(** Nothing but whitespace. *)
Definition blank (w : pystr) : Prop := Forall (fun c => isspace c = true) w.

(** What [requests.post] did is neither a success nor a 400 or 403: an
    exception, or a response with another status. *)
Definition transient (posted : result Response) : Prop :=
  match posted with
  | Raised _ => True
  | Ok r => status_code r <> 200%Z /\ status_code r <> 400%Z /\ status_code r <> 403%Z
  end.

(** The text of a body of the documented shape: an object whose
    candidates array starts with an object whose content is an object
    whose parts array starts with an object that has a text. *)
Definition reply_text (data : JSON) : option JSON :=
  match data with
  | JObj fields =>
      match dict_lookup (py "candidates") fields with
      | Some (JArr (JObj candidate :: _)) =>
          match dict_lookup (py "content") candidate with
          | Some (JObj content) =>
              match dict_lookup (py "parts") content with
              | Some (JArr (JObj part :: _)) => dict_lookup (py "text") part
              | _ => None
              end
          | _ => None
          end
      | _ => None
      end
  | _ => None
  end.

(** The methods of an entry do not contain generateContent. *)
Definition not_generating (fields : list (pystr * JSON)) : Prop :=
  match dict_lookup (py "supportedGenerationMethods") fields with
  | None => True
  | Some (JArr methods) => existsb (is_str (py "generateContent")) methods = false
  | Some _ => False
  end.

(** The prefix of the line of the .env file that holds the key. *)
Definition ENV_PREFIX : pystr := py "Google_api=".

(** No whitespace. *)
Definition solid (p : pystr) : Prop := Forall (fun c => isspace c = false) p.

(** The text does not start with whitespace. *)
Definition tight (s : pystr) : Prop :=
  match s with
  | c :: _ => isspace c = false
  | [] => True
  end.

(** [marker_at s m rest]: the text [s] starts with the fence marker [m]
    and goes on with [rest].  A marker is what the pattern of lines 254
    and 299 matches: the fence with its json tag and all the whitespace
    that follows it; or, where the text does not start with that,
    whitespace followed by the fence. *)
Inductive marker_at : pystr -> pystr -> pystr -> Prop :=
| opening_marker (w rest : pystr) :
    blank w -> tight rest ->
    marker_at (JSON_FENCE ++ w ++ rest) (JSON_FENCE ++ w) rest
| closing_marker (w rest : pystr) :
    blank w -> startswith JSON_FENCE (w ++ FENCE ++ rest) = false ->
    marker_at (w ++ FENCE ++ rest) (w ++ FENCE) rest.

(** [fences_removed s out]: [out] is [s] without its fence markers, the
    markers being taken from the left, each starting where the one
    before it ended or later. *)
Inductive fences_removed : pystr -> pystr -> Prop :=
| removed_end : fences_removed [] []
| removed_marker (s m rest out : pystr) :
    marker_at s m rest -> fences_removed rest out -> fences_removed s out
| removed_char (c : char) (rest out : pystr) :
    (forall m rest', ~ marker_at (c :: rest) m rest') ->
    fences_removed rest out -> fences_removed (c :: rest) (c :: out).





(** * Sample runs *)

Module Samples.

Definition KEY : pystr := py "sample-key".

Definition NL : pystr := [10%N].

(** A response with the given status, content type and body; [r.json()]
    decodes the body. *)
Definition http (status : Z) (ctype : string) (body : pystr) : Response :=
  {| status_code := status;
     content_type := Some (py ctype);
     text := body;
     json := json_loads body |}.

(** A network that answers the listing call with [listing] and the k-th
    post with the k-th of [answers]; further posts find no server. *)
Definition scripted (listing : result Response) (answers : list (result Response)) : Net :=
  {| requests_get := fun _ => listing;
     requests_post := fun k _ _ _ =>
       nth k answers (Raised (Raise RequestException (py "Connection refused"))) |}.

Definition listing_timeout : result Response :=
  Raised (Raise RequestException (py "Read timed out. (read timeout=5)")).

Definition payload : JSON :=
  JObj [(py "contents", JArr [JObj [(py "parts", JArr [JObj [(py "text", JStr (py "hi"))]])]])].

Definition reply_body : pystr :=
  js "{'candidates': [{'content': {'parts': [{'text': 'hello'}]}}]}".

Definition success : result Response :=
  Ok (http 200 "application/json; charset=UTF-8" reply_body).

Definition fail (status : Z) (body : string) : result Response :=
  Ok (http status "text/plain" (py body)).

(** A 400 that announces JSON and sends an empty body. *)
Definition fail_400_unreadable : result Response := Ok (http 400 "application/json" []).

(** A listing in which no model passes the filter. *)
Definition listing_embedding_only : result Response :=
  Ok (http 200 "application/json"
        (js "{'models': [{'name': 'models/embedding-001', 'supportedGenerationMethods': ['embedContent']}]}")).

Definition listing_mixed_body : pystr :=
  js "{'models': [{'name': 'models/gemini-1.5-flash', 'supportedGenerationMethods': ['generateContent', 'countTokens']}, {'name': 'models/embedding-001', 'supportedGenerationMethods': ['embedContent']}, {'name': 'models/gemini-2.5-flash-preview-TTS', 'supportedGenerationMethods': ['generateContent']}, {'name': 'models/aqa', 'supportedGenerationMethods': ['generateAnswer']}, {'name': 'models/gemini-embedding-exp', 'supportedGenerationMethods': ['generateContent']}, {'name': 'models/gemini-2.0-flash', 'supportedGenerationMethods': ['generateContent']}], 'nextPageToken': ''}".

Definition listing_mixed : result Response :=
  Ok (http 200 "application/json; charset=UTF-8" listing_mixed_body).

Definition listings_mixed : list Listing :=
  [ Build_Listing (py "models/gemini-1.5-flash")
      [JStr (py "generateContent"); JStr (py "countTokens")];
    Build_Listing (py "models/embedding-001") [JStr (py "embedContent")];
    Build_Listing (py "models/gemini-2.5-flash-preview-TTS") [JStr (py "generateContent")];
    Build_Listing (py "models/aqa") [JStr (py "generateAnswer")];
    Build_Listing (py "models/gemini-embedding-exp") [JStr (py "generateContent")];
    Build_Listing (py "models/gemini-2.0-flash") [JStr (py "generateContent")] ].

(** Two models listed, both text capable. *)
Definition listing_two : result Response :=
  Ok (http 200 "application/json"
        (js "{'models': [{'name': 'models/m1', 'supportedGenerationMethods': ['generateContent']}, {'name': 'models/m2', 'supportedGenerationMethods': ['generateContent']}]}")).

Definition fenced (inner : pystr) : pystr :=
  py "```json" ++ NL ++ inner ++ NL ++ py "```".

End Samples.

Module MoreSamples.

Import Samples.

(** A 200 answer with the given body. *)
Definition answer (body : pystr) : result Response :=
  Ok (http 200 "application/json; charset=UTF-8" body).

(** A network whose listing times out and whose first post answers 200
    with the given body. *)
Definition answering (body : pystr) : Net := scripted listing_timeout [answer body].

Definition first_url : pystr := generate_url KEY (py "gemini-1.5-flash").

(** The reply whose text is the fenced object with a equal to 1. *)
Definition fenced_reply : pystr :=
  js "{'candidates': [{'content': {'parts': [{'text': '```json\n{\'a\': 1}\n```'}]}}]}".

Definition fenced_text : pystr := fenced (js "{'a': 1}").

(** A reply whose text holds a span that is not JSON. *)
Definition bad_reply : pystr :=
  js "{'candidates': [{'content': {'parts': [{'text': 'see {bad} here'}]}}]}".

(** A reply whose text holds an integer of 4301 digits. *)
Definition huge_text : pystr := js "{'n': " ++ repeat 49%N 4301 ++ py "}".

Definition huge_reply : pystr :=
  js "{'candidates': [{'content': {'parts': [{'text': '{\'n\': "
  ++ repeat 49%N 4301 ++ js "}'}]}}]}".

(** A reply whose only candidate has no content. *)
Definition blocked_reply : pystr := js "{'candidates': [{'finishReason': 'SAFETY'}]}".

(** A reply whose text is a number. *)
Definition number_reply : pystr :=
  js "{'candidates': [{'content': {'parts': [{'text': 42}]}}]}".

(** A listing with a well-formed entry and a nameless one. *)
Definition listing_nameless : result Response :=
  Ok (http 200 "application/json"
        (js "{'models': [{'name': 'models/gemini-pro', 'supportedGenerationMethods': ['generateContent']}, {'supportedGenerationMethods': ['generateContent']}]}")).

(** A listing answer without a models field. *)
Definition listing_no_models : result Response :=
  Ok (http 200 "application/json" (js "{'nextPageToken': ''}")).

Definition entry_pro : JSON :=
  JObj [(py "name", JStr (py "models/gemini-pro"));
        (py "supportedGenerationMethods", JArr [JStr (py "generateContent")])].

Definition fields_embedding_nameless : list (pystr * JSON) :=
  [(py "supportedGenerationMethods", JArr [JStr (py "embedContent")])].

Definition canned_abort : Net :=
  scripted listing_timeout [fail 500 "boom"; fail 400 "Bad Request"; success].

Definition canned_failing : Net :=
  scripted listing_two [fail 500 "first"; fail 503 "second"].





End MoreSamples.

(** * Properties *)

(** ** Strings *)

Lemma str_eqb_eq (a b : pystr) : str_eqb a b = true <-> a = b.
Proof.
  revert b; induction a as [|x a IH]; intros [|y b]; simpl; split;
    try congruence; try reflexivity.
  - intros H. apply andb_true_iff in H as [Hx Hab].
    apply N.eqb_eq in Hx. apply IH in Hab. congruence.
  - intros H. injection H as -> ->.
    rewrite N.eqb_refl. simpl. apply IH. reflexivity.
Qed.

Lemma str_eqb_refl (a : pystr) : str_eqb a a = true.
Proof. apply str_eqb_eq. reflexivity. Qed.

(** ** The greedy brace span *)

Lemma upto_last_rbrace_none (s : pystr) :
  upto_last_rbrace s = None <-> ~ In RBRACE s.
Proof.
  induction s as [|c s IH]; simpl.
  - tauto.
  - destruct (upto_last_rbrace s) as [m|].
    + split; [discriminate|]. intros H. exfalso.
      assert (Hn : ~ In RBRACE s) by tauto.
      apply IH in Hn. discriminate.
    + destruct (N.eqb_spec c RBRACE) as [->|Hc].
      * split; [discriminate|]. tauto.
      * split; [|reflexivity]. intros _ [H|H]; [congruence|].
        apply IH in H; auto.
Qed.

Lemma in_rbrace_middle (body post : pystr) :
  In RBRACE ((body ++ [RBRACE]) ++ post).
Proof. apply in_or_app. left. apply in_or_app. right. left. reflexivity. Qed.

Lemma upto_last_rbrace_complete (body post : pystr) :
  ~ In RBRACE post ->
  upto_last_rbrace ((body ++ [RBRACE]) ++ post) = Some (body ++ [RBRACE]).
Proof.
  intros Hpost. induction body as [|c body IH]; simpl.
  - apply upto_last_rbrace_none in Hpost. rewrite Hpost. reflexivity.
  - rewrite IH. reflexivity.
Qed.

Lemma upto_last_rbrace_sound (s m : pystr) :
  upto_last_rbrace s = Some m ->
  exists body post, m = body ++ [RBRACE] /\ s = m ++ post /\ ~ In RBRACE post.
Proof.
  revert m; induction s as [|c s IH]; intros m; simpl; [discriminate|].
  destruct (upto_last_rbrace s) as [m'|] eqn:E.
  - destruct (IH m' eq_refl) as (body & post & -> & Hs & Hpost).
    intros H. injection H as <-.
    exists (c :: body), post. rewrite Hs at 1. auto.
  - apply upto_last_rbrace_none in E.
    destruct (N.eqb_spec c RBRACE) as [->|Hc]; [|discriminate].
    intros H. injection H as <-. exists [], s. auto.
Qed.

Lemma match_braces_complete (m post : pystr) :
  brace_span m -> ~ In RBRACE post -> match_braces (m ++ post) = Some m.
Proof.
  intros (body & ->) Hpost. cbn [app match_braces]. rewrite N.eqb_refl.
  rewrite upto_last_rbrace_complete by exact Hpost. reflexivity.
Qed.

Lemma match_braces_sound (s m : pystr) :
  match_braces s = Some m ->
  exists post, s = m ++ post /\ brace_span m /\ ~ In RBRACE post.
Proof.
  destruct s as [|c rest]; simpl; [discriminate|].
  destruct (N.eqb_spec c LBRACE) as [->|Hc]; [|discriminate].
  destruct (upto_last_rbrace rest) as [m'|] eqn:E; simpl; [|discriminate].
  apply upto_last_rbrace_sound in E as (body & post & -> & Hs & Hpost).
  intros H. injection H as <-. exists post. split; [|split]; auto.
  - simpl. f_equal. exact Hs.
  - exists body. reflexivity.
Qed.

Lemma re_search_braces_unfold (c : char) (s : pystr) :
  re_search_braces (c :: s) =
  match match_braces (c :: s) with
  | Some m => Some m
  | None => re_search_braces s
  end.
Proof. reflexivity. Qed.

Lemma re_search_braces_complete (pre span post : pystr) :
  brace_span span -> ~ In LBRACE pre -> ~ In RBRACE post ->
  re_search_braces (pre ++ span ++ post) = Some span.
Proof.
  intros Hspan Hpre Hpost. induction pre as [|c pre IH].
  - simpl app. pose proof (match_braces_complete span post Hspan Hpost) as H.
    destruct Hspan as (body & ->). simpl app in *.
    rewrite re_search_braces_unfold, H. reflexivity.
  - simpl app. rewrite re_search_braces_unfold.
    replace (match_braces (c :: pre ++ span ++ post)) with (@None pystr).
    + apply IH. intros H. apply Hpre. right. exact H.
    + simpl. destruct (N.eqb_spec c LBRACE) as [->|Hc]; [|reflexivity].
      exfalso. apply Hpre. left. reflexivity.
Qed.

Lemma re_search_braces_sound (s span : pystr) :
  re_search_braces s = Some span -> first_to_last s span.
Proof.
  induction s as [|c s IH]; [discriminate|].
  rewrite re_search_braces_unfold.
  destruct (match_braces (c :: s)) as [m|] eqn:E.
  - intros H. injection H as <-.
    apply match_braces_sound in E as (post & Hs & Hm & Hpost).
    exists [], post. simpl. auto.
  - intros H. destruct (IH H) as (pre & post & -> & Hspan & Hpre & Hpost).
    exists (c :: pre), post. split; [reflexivity|]. split; [exact Hspan|].
    split; [|exact Hpost].
    intros [Hc|Hin]; [|auto]. subst c.
    destruct Hspan as (body & ->).
    cbn [match_braces] in E. rewrite N.eqb_refl in E.
    destruct (upto_last_rbrace (pre ++ (LBRACE :: body ++ [RBRACE]) ++ post)) eqn:E2;
      [discriminate|].
    apply upto_last_rbrace_none in E2. apply E2.
    apply in_or_app. right. apply in_or_app. left.
    right. apply in_or_app. right. left. reflexivity.
Qed.

Lemma re_search_braces_spec (s span : pystr) :
  re_search_braces s = Some span <-> first_to_last s span.
Proof.
  split.
  - apply re_search_braces_sound.
  - intros (pre & post & -> & Hspan & Hpre & Hpost).
    apply re_search_braces_complete; assumption.
Qed.

(** ** The fallback loop *)

Section Loop.

Context {P : Python}.
Variable GOOGLE_API_KEY : pystr.
Variable net : Net.
Variable payload : JSON.
Variable timeout : Z.

Lemma pass_from_cons k m rest i :
  pass_from GOOGLE_API_KEY net payload timeout k (m :: rest) (S i) = pass_from GOOGLE_API_KEY net payload timeout (S k) rest i.
Proof. unfold pass_from. simpl. rewrite Nat.add_succ_r. reflexivity. Qed.

Lemma pass_from_head k m rest :
  pass_from GOOGLE_API_KEY net payload timeout k (m :: rest) 0 =
  Some (attempt m (requests_post net k (generate_url GOOGLE_API_KEY m) payload timeout)).
Proof. unfold pass_from. simpl. rewrite Nat.add_0_r. reflexivity. Qed.

Lemma continued_from_cons k m rest n :
  continued_from GOOGLE_API_KEY net payload timeout k (m :: rest) (S n) <->
  (exists e, attempt m (requests_post net k (generate_url GOOGLE_API_KEY m) payload timeout) = Continue e)
  /\ continued_from GOOGLE_API_KEY net payload timeout (S k) rest n.
Proof.
  unfold continued_from. split.
  - intros H. split.
    + destruct (H 0%nat ltac:(lia)) as (e & He).
      rewrite pass_from_head in He. exists e. congruence.
    + intros i Hi. destruct (H (S i) ltac:(lia)) as (e & He).
      rewrite pass_from_cons in He. eauto.
  - intros [(e & He) H] [|i] Hi.
    + exists e. rewrite pass_from_head. congruence.
    + rewrite pass_from_cons. apply H. lia.
Qed.

Lemma continued_from_bound k models n :
  continued_from GOOGLE_API_KEY net payload timeout k models n -> (n <= List.length models)%nat.
Proof.
  intros H. destruct n as [|n]; [lia|].
  destruct (H n ltac:(lia)) as (e & He). unfold pass_from in He.
  destruct (nth_error models n) eqn:E; [|discriminate].
  assert (Hn : nth_error models n <> None) by congruence.
  apply nth_error_Some in Hn. lia.
Qed.

Lemma length_snoc (log : list pystr) (u : pystr) :
  List.length (log ++ [u]) = S (List.length log).
Proof. rewrite length_app. simpl. lia. Qed.

Lemma try_models_returned models last_error log v log' :
  try_models GOOGLE_API_KEY net payload timeout models last_error log = (Returned v, log') <->
  exists n,
    continued_from GOOGLE_API_KEY net payload timeout (List.length log) models n /\
    pass_from GOOGLE_API_KEY net payload timeout (List.length log) models n = Some (Return v) /\
    log' = log ++ map (generate_url GOOGLE_API_KEY) (firstn (S n) models).
Proof.
  revert last_error log. induction models as [|m rest IH]; intros last_error log.
  - simpl. split; [discriminate|].
    intros (n & _ & H & _). unfold pass_from in H.
    destruct n; discriminate.
  - cbn [try_models].
    destruct (attempt m (requests_post net (List.length log) (generate_url GOOGLE_API_KEY m) payload timeout))
      as [v0|e|e] eqn:E.
    + split.
      * intros H. injection H as <- <-. exists 0%nat. split; [|split].
        -- intros i Hi. lia.
        -- rewrite pass_from_head, E. reflexivity.
        -- reflexivity.
      * intros ([|n] & Hc & Hn & ->).
        -- rewrite pass_from_head, E in Hn. injection Hn as ->. reflexivity.
        -- apply continued_from_cons in Hc as [(e & He) _]. congruence.
    + split; [discriminate|].
      intros ([|n] & Hc & Hn & _).
      * rewrite pass_from_head, E in Hn. discriminate.
      * apply continued_from_cons in Hc as [(e' & He) _]. congruence.
    + rewrite IH, length_snoc. split.
      * intros (n & Hc & Hn & ->). exists (S n). split; [|split].
        -- apply continued_from_cons. split; [eauto|exact Hc].
        -- rewrite pass_from_cons. exact Hn.
        -- rewrite <- app_assoc. reflexivity.
      * intros ([|n] & Hc & Hn & ->).
        -- rewrite pass_from_head, E in Hn. discriminate.
        -- exists n. split; [|split].
           ++ apply continued_from_cons in Hc as [_ Hc]. exact Hc.
           ++ rewrite <- pass_from_cons with (m := m). exact Hn.
           ++ rewrite <- app_assoc. reflexivity.
Qed.

Lemma last_recorded_cons k m rest initial e e0 :
  attempt m (requests_post net k (generate_url GOOGLE_API_KEY m) payload timeout) = Continue e0 ->
  last_recorded GOOGLE_API_KEY net payload timeout k (m :: rest) initial e <-> last_recorded GOOGLE_API_KEY net payload timeout (S k) rest e0 e.
Proof.
  intros E. unfold last_recorded. cbn [List.length].
  destruct rest as [|m' rest'].
  - cbn [List.length]. rewrite pass_from_head, E. split; congruence.
  - cbn [List.length]. rewrite pass_from_cons. tauto.
Qed.

Lemma try_models_exhausted models last_error log e log' :
  try_models GOOGLE_API_KEY net payload timeout models last_error log = (Exhausted e, log') <->
  (continued_from GOOGLE_API_KEY net payload timeout (List.length log) models (List.length models) /\
   last_recorded GOOGLE_API_KEY net payload timeout (List.length log) models last_error e /\
   log' = log ++ map (generate_url GOOGLE_API_KEY) models)
  \/
  (exists n,
     continued_from GOOGLE_API_KEY net payload timeout (List.length log) models n /\
     pass_from GOOGLE_API_KEY net payload timeout (List.length log) models n = Some (Break e) /\
     log' = log ++ map (generate_url GOOGLE_API_KEY) (firstn (S n) models)).
Proof.
  revert last_error log. induction models as [|m rest IH]; intros last_error log.
  - simpl. split.
    + intros H. injection H as <- <-. left. split; [|split].
      * intros i Hi. lia.
      * reflexivity.
      * rewrite app_nil_r. reflexivity.
    + intros [(_ & H & ->)|(n & _ & H & _)].
      * unfold last_recorded in H. simpl in H. subst e.
        rewrite app_nil_r. reflexivity.
      * unfold pass_from in H. destruct n; discriminate.
  - cbn [try_models].
    destruct (attempt m (requests_post net (List.length log) (generate_url GOOGLE_API_KEY m) payload timeout))
      as [v0|e0|e0] eqn:E.
    + split; [discriminate|].
      intros [(Hc & _)|(n & Hc & Hn & _)].
      * cbn [List.length] in Hc.
        apply continued_from_cons in Hc as [(e' & He) _]. congruence.
      * destruct n as [|n].
        -- rewrite pass_from_head, E in Hn. discriminate.
        -- apply continued_from_cons in Hc as [(e' & He) _]. congruence.
    + split.
      * intros H. injection H as <- <-. right. exists 0%nat. split; [|split].
        -- intros i Hi. lia.
        -- rewrite pass_from_head, E. reflexivity.
        -- reflexivity.
      * intros [(Hc & _)|(n & Hc & Hn & ->)].
        -- cbn [List.length] in Hc.
           apply continued_from_cons in Hc as [(e' & He) _]. congruence.
        -- destruct n as [|n].
           ++ rewrite pass_from_head, E in Hn. injection Hn as ->. reflexivity.
           ++ apply continued_from_cons in Hc as [(e' & He) _]. congruence.
    + rewrite IH, length_snoc. split.
      * intros [(Hc & Hl & ->)|(n & Hc & Hn & ->)].
        -- left. split; [|split].
           ++ cbn [List.length]. apply continued_from_cons. split; [eauto|exact Hc].
           ++ apply (proj2 (last_recorded_cons (List.length log) m rest last_error e e0 E)).
              exact Hl.
           ++ rewrite <- app_assoc. reflexivity.
        -- right. exists (S n). split; [|split].
           ++ apply continued_from_cons. split; [eauto|exact Hc].
           ++ rewrite pass_from_cons. exact Hn.
           ++ rewrite <- app_assoc. reflexivity.
      * intros [(Hc & Hl & ->)|(n & Hc & Hn & ->)].
        -- left. split; [|split].
           ++ cbn [List.length] in Hc.
              apply continued_from_cons in Hc as [_ Hc]. exact Hc.
           ++ apply (proj1 (last_recorded_cons (List.length log) m rest last_error e e0 E)).
              exact Hl.
           ++ rewrite <- app_assoc. reflexivity.
        -- destruct n as [|n].
           ++ rewrite pass_from_head, E in Hn. discriminate.
           ++ right. exists n. split; [|split].
              ** apply continued_from_cons in Hc as [_ Hc]. exact Hc.
              ** rewrite <- pass_from_cons with (m := m). exact Hn.
              ** rewrite <- app_assoc. reflexivity.
Qed.

End Loop.

(** ** The invoker *)

Section Invoker.

Context {P : Python}.
Variable GOOGLE_API_KEY : pystr.

Lemma attempt_return model posted v :
  attempt model posted = Return v <->
  exists r, posted = Ok r /\ status_code r = 200%Z /\ json r = Ok v.
Proof.
  unfold attempt. destruct posted as [r|e].
  - destruct (Z.eqb_spec (status_code r) 200) as [H200|H200].
    + destruct (json r) as [v0|e] eqn:Ej.
      * split.
        -- intros H. injection H as <-. eauto.
        -- intros (r' & Hr & _ & Hj). injection Hr as <-.
           rewrite Ej in Hj. congruence.
      * split; [discriminate|].
        intros (r' & Hr & _ & Hj). injection Hr as <-. congruence.
    + split.
      * destruct (error_data r); [|discriminate].
        destruct (_ || _); discriminate.
      * intros (r' & Hr & Hs & _). injection Hr as <-. contradiction.
  - split; [discriminate|]. intros (r & Hr & _). discriminate.
Qed.

Lemma attempt_unparseable_200 model r e :
  status_code r = 200%Z -> json r = Raised e ->
  attempt model (Ok r) = Continue (str_exn e).
Proof.
  intros Hs Hj. unfold attempt. rewrite Hs, Hj. reflexivity.
Qed.

Lemma attempt_terminal model r data :
  status_code r = 400%Z \/ status_code r = 403%Z ->
  error_data r = Ok data ->
  attempt model (Ok r) =
  Break (py "API " ++ str_int (status_code r) ++ py " (" ++ model ++ py "): " ++ data).
Proof.
  intros Hs Hd. unfold attempt. rewrite Hd.
  destruct Hs as [-> | ->]; reflexivity.
Qed.

Lemma attempt_unreadable_error model r e :
  status_code r <> 200%Z -> error_data r = Raised e ->
  attempt model (Ok r) = Continue (str_exn e).
Proof.
  intros Hs Hd. unfold attempt. rewrite Hd.
  destruct (Z.eqb_spec (status_code r) 200); [contradiction|reflexivity].
Qed.

Lemma call_gemini_returns net payload timeout v log :
  call_gemini GOOGLE_API_KEY net payload timeout = (Ok v, log) <->
  exists n,
    continued GOOGLE_API_KEY net payload timeout n /\
    pass GOOGLE_API_KEY net payload timeout n = Some (Return v) /\
    log = posted_to GOOGLE_API_KEY net (S n).
Proof.
  pose proof (try_models_returned GOOGLE_API_KEY net payload timeout
                (get_supported_models GOOGLE_API_KEY net) (py "No models attempted") [] v log) as X.
  cbn [List.length app] in X.
  unfold call_gemini, continued, pass, posted_to. cbv zeta.
  destruct (try_models _ _ _ _ _ _ _) as [[v0|e0] log0] eqn:E.
  - split.
    + intros H. injection H as -> ->. apply X. reflexivity.
    + intros H. apply X in H. injection H as -> ->. reflexivity.
  - split; [discriminate|]. intros H. apply X in H. discriminate.
Qed.

Lemma call_gemini_raises net payload timeout e log :
  call_gemini GOOGLE_API_KEY net payload timeout = (Raised e, log) <->
  exists last_error,
    e = Raise Exception (FINAL_ERROR ++ last_error) /\
    ((continued GOOGLE_API_KEY net payload timeout (List.length (get_supported_models GOOGLE_API_KEY net)) /\
      last_recorded GOOGLE_API_KEY net payload timeout 0 (get_supported_models GOOGLE_API_KEY net)
        NO_MODELS_ATTEMPTED last_error /\
      log = posted_to GOOGLE_API_KEY net (List.length (get_supported_models GOOGLE_API_KEY net)))
     \/
     (exists n,
        continued GOOGLE_API_KEY net payload timeout n /\
        pass GOOGLE_API_KEY net payload timeout n = Some (Break last_error) /\
        log = posted_to GOOGLE_API_KEY net (S n))).
Proof.
  pose proof (fun le => try_models_exhausted GOOGLE_API_KEY net payload timeout
                (get_supported_models GOOGLE_API_KEY net) (py "No models attempted") [] le log) as X.
  cbn [List.length app] in X.
  unfold call_gemini, continued, pass, posted_to, NO_MODELS_ATTEMPTED, FINAL_ERROR.
  cbv zeta. rewrite firstn_all.
  destruct (try_models _ _ _ _ _ _ _) as [[v0|e0] log0] eqn:E.
  - split; [discriminate|].
    intros (le & _ & H). apply X in H. discriminate.
  - split.
    + intros H. injection H as <- <-. exists e0. split; [reflexivity|].
      apply X. reflexivity.
    + intros (le & -> & H). apply X in H. injection H as <- <-. reflexivity.
Qed.

End Invoker.

(** ** The model directory *)

Section Directory.

Context {P : Python}.
Variable GOOGLE_API_KEY : pystr.

Lemma text_capable_described m d :
  describe m = Some d -> text_capable m = Ok (included d).
Proof.
  destruct m as [| | | | |items|fields]; try discriminate.
  unfold describe, text_capable, marker_absent, included, generates_content, marked.
  cbn [py_get py_getitem].
  destruct (dict_lookup (py "name") fields) as [[| | | |name| |]|]; try discriminate.
  destruct (dict_lookup (py "supportedGenerationMethods") fields)
    as [[| | | | |methods|]|]; try discriminate;
    intros H; injection H as <-; cbn [bind py_in py_lower identifier capabilities];
    destruct (existsb _ _); cbn [negb andb bind]; try reflexivity;
    destruct (contains (py "tts") _); cbn [negb andb bind]; try reflexivity;
    destruct (contains (py "embed") _); cbn [negb andb bind]; reflexivity.
Qed.

Lemma name_described m d :
  describe m = Some d ->
  (name <- py_getitem m (py "name") ;; py_last_segment name) = Ok (short_name d).
Proof.
  destruct m as [| | | | |items|fields]; try discriminate.
  unfold describe, short_name. cbn [py_getitem].
  destruct (dict_lookup (py "name") fields) as [[| | | |name| |]|]; try discriminate.
  destruct (dict_lookup (py "supportedGenerationMethods") fields)
    as [[| | | | |methods|]|]; try discriminate;
    intros H; injection H as <-; reflexivity.
Qed.

Lemma select_models_described entries listings :
  map describe entries = map Some listings ->
  select_models entries = Ok (map short_name (filter included listings)).
Proof.
  revert listings. induction entries as [|m entries IH]; intros [|d listings] H;
    try discriminate; [reflexivity|].
  simpl in H. injection H as Hd Hrest.
  cbn [select_models filter].
  rewrite (text_capable_described m d Hd). cbn [bind].
  destruct (included d).
  - pose proof (name_described m d Hd) as Hn.
    destruct (py_getitem m (py "name")) as [name|e]; [|discriminate].
    cbn [bind] in Hn |- *. rewrite Hn. cbn [bind].
    rewrite (IH listings Hrest). reflexivity.
  - apply IH. exact Hrest.
Qed.

Lemma select_models_raises items m e :
  In m items -> text_capable m = Raised e ->
  exists e', select_models items = Raised e'.
Proof.
  intros Hin Hm. induction items as [|x items IH]; [contradiction|].
  cbn [select_models]. destruct Hin as [->|Hin].
  - rewrite Hm. cbn [bind]. eauto.
  - destruct (IH Hin) as (e' & He'). rewrite He'.
    destruct (text_capable x) as [[|]|ex]; cbn [bind]; eauto.
    destruct (py_getitem x (py "name")) as [name|en]; cbn [bind]; eauto.
    destruct (py_last_segment name) as [short|es]; cbn [bind]; eauto.
Qed.




End Directory.

(** ** Extraction and the routes *)

Section Extraction.

Context {P : Python}.
Variable GOOGLE_API_KEY : pystr.

Lemma scan_food_extract_success text payload :
  scan_food_extract (JStr text) = Ok (payload, 200%Z) <->
  exists span,
    re_search_braces (clean_text text) = Some span /\ json_loads span = Ok payload.
Proof.
  unfold scan_food_extract, clean_text. cbn [clean bind].
  destruct (re_search_braces _) as [span|].
  - destruct (json_loads span) as [v|e] eqn:E.
    + split.
      * intros H. injection H as <-. eauto.
      * intros (span' & H & Hj). injection H as <-. congruence.
    + split.
      * destruct (exn_class_of e); discriminate.
      * intros (span' & H & Hj). injection H as <-. congruence.
  - split; [discriminate|]. intros (span & H & _). discriminate.
Qed.

Lemma diet_plan_extract_success text payload :
  diet_plan_extract (JStr text) = Ok (payload, 200%Z) <->
  exists span,
    re_search_braces (clean_text text) = Some span /\ json_loads span = Ok payload.
Proof.
  unfold diet_plan_extract, clean_text. cbn [clean bind].
  destruct (re_search_braces _) as [span|].
  - destruct (json_loads span) as [v|e] eqn:E; cbn [bind].
    + split.
      * intros H. injection H as <-. eauto.
      * intros (span' & H & Hj). injection H as <-. congruence.
    + split; [discriminate|].
      intros (span' & H & Hj). injection H as <-. congruence.
  - split; [discriminate|]. intros (span & H & _). discriminate.
Qed.

Lemma dict_lookup_none key fields :
  dict_lookup key fields = None <->
  existsb (fun kv => str_eqb (fst kv) key) fields = false.
Proof.
  induction fields as [|[k v] rest IH]; simpl; [tauto|].
  destruct (str_eqb k key); simpl; [split; discriminate|exact IH].
Qed.

Lemma no_candidates_object fields :
  dict_lookup (py "candidates") fields = None \/
  dict_lookup (py "candidates") fields = Some (JArr []) ->
  no_candidates (JObj fields) = Ok true.
Proof.
  unfold no_candidates. cbn [py_in py_getitem bind].
  intros [H|H].
  - apply dict_lookup_none in H. rewrite H. reflexivity.
  - destruct (existsb _ fields); [|reflexivity].
    cbn [negb]. rewrite H. reflexivity.
Qed.

(** Without usable candidates the check answers true or raises; it never
    lets the value through. *)
Lemma no_candidates_never_false data :
  candidates_of data = None \/ candidates_of data = Some (JArr []) ->
  no_candidates data <> Ok false.
Proof.
  intros H. destruct data as [| | | | s|items|fields];
    try (unfold no_candidates; cbn [py_in raise_fault bind]; discriminate).
  - unfold no_candidates. cbn [py_in bind].
    destruct (contains _ s); cbn [negb py_getitem raise_fault bind]; discriminate.
  - unfold no_candidates. cbn [py_in bind].
    destruct (existsb _ items); cbn [negb py_getitem raise_fault bind]; discriminate.
  - rewrite (no_candidates_object fields H). discriminate.
Qed.

Lemma guarded_failure prefix handle message net payload data log :
  call_gemini GOOGLE_API_KEY net payload 30 = (Ok data, log) ->
  handle data = Ok (error_body message, 500%Z) \/ (exists e, handle data = Raised e) ->
  exists msg,
    guarded GOOGLE_API_KEY prefix handle net (Ok payload) = ((error_body msg, 500%Z), log).
Proof.
  intros Hc Hh. unfold guarded. rewrite Hc. cbn [bind].
  destruct Hh as [-> | (e & ->)]; eauto.
Qed.

Lemma scan_food_handle_without data :
  candidates_of data = None \/ candidates_of data = Some (JArr []) ->
  scan_food_handle data
    = Ok (error_body (py "No results from AI. Safety filters might be active."), 500%Z)
  \/ (exists e, scan_food_handle data = Raised e).
Proof.
  intros H. apply no_candidates_never_false in H. unfold scan_food_handle.
  destruct (no_candidates data) as [[|]|e]; cbn [bind]; eauto. congruence.
Qed.

Lemma diet_plan_handle_without data :
  candidates_of data = None \/ candidates_of data = Some (JArr []) ->
  diet_plan_handle data = Ok (error_body (py "AI could not generate a plan."), 500%Z)
  \/ (exists e, diet_plan_handle data = Raised e).
Proof.
  intros H. apply no_candidates_never_false in H. unfold diet_plan_handle.
  destruct (no_candidates data) as [[|]|e]; cbn [bind]; eauto. congruence.
Qed.

Lemma chat_handle_without data :
  candidates_of data = None \/ candidates_of data = Some (JArr []) ->
  chat_handle data = Ok (error_body (py "Bella is unable to respond right now."), 500%Z)
  \/ (exists e, chat_handle data = Raised e).
Proof.
  intros H. apply no_candidates_never_false in H. unfold chat_handle.
  destruct (no_candidates data) as [[|]|e]; cbn [bind]; eauto. congruence.
Qed.

End Extraction.

(** * The claims *)

Section Claims.

Context {P : Python}.
Variable GOOGLE_API_KEY : pystr.

(** A 400 or 403 whose error body can be read ends the loop: the call
    raises with that error and posts to no later candidate. *)
Lemma call_gemini_terminal net payload timeout n model r data :
  continued GOOGLE_API_KEY net payload timeout n ->
  nth_error (get_supported_models GOOGLE_API_KEY net) n = Some model ->
  requests_post net n (generate_url GOOGLE_API_KEY model) payload timeout = Ok r ->
  status_code r = 400%Z \/ status_code r = 403%Z ->
  error_data r = Ok data ->
  call_gemini GOOGLE_API_KEY net payload timeout =
  (Raised (Raise Exception
     (FINAL_ERROR ++ py "API " ++ str_int (status_code r) ++ py " (" ++ model
      ++ py "): " ++ data)),
   posted_to GOOGLE_API_KEY net (S n)).
Proof.
  intros Hc Hm Hp Hs Hd. apply call_gemini_raises.
  eexists. split; [reflexivity|]. right. exists n. split; [exact Hc|].
  split; [|reflexivity].
  unfold pass, pass_from. rewrite Hm. cbn [Nat.add]. rewrite Hp.
  rewrite (attempt_terminal model r data Hs Hd). reflexivity.
Qed.

(** C4. [call_gemini] returns a value exactly when the pass for some
    candidate, reached because every earlier pass went on to the next
    model, ends in a return; that pass is one whose post answered status
    200 with a body [r.json()] parses, the value returned is that body,
    and no later candidate is posted to.  A 200 whose body does not
    parse sends the loop on to the next candidate. *)
Theorem call_gemini_success net payload timeout :
  (forall v log,
     call_gemini GOOGLE_API_KEY net payload timeout = (Ok v, log) <->
     exists n,
       continued GOOGLE_API_KEY net payload timeout n /\
       pass GOOGLE_API_KEY net payload timeout n = Some (Return v) /\
       log = posted_to GOOGLE_API_KEY net (S n))
  /\
  (forall n v,
     pass GOOGLE_API_KEY net payload timeout n = Some (Return v) <->
     exists model r,
       nth_error (get_supported_models GOOGLE_API_KEY net) n = Some model /\
       requests_post net n (generate_url GOOGLE_API_KEY model) payload timeout = Ok r /\
       status_code r = 200%Z /\ json r = Ok v)
  /\
  (forall model r e,
     status_code r = 200%Z -> json r = Raised e ->
     attempt model (Ok r) = Continue (str_exn e)).
Proof.
  split; [|split].
  - intros v log. apply call_gemini_returns.
  - intros n v. unfold pass, pass_from. cbn [Nat.add].
    destruct (nth_error (get_supported_models GOOGLE_API_KEY net) n) as [model|].
    + split.
      * intros H. injection H as H. apply attempt_return in H as (r & Hr & Hs & Hj).
        eauto 6.
      * intros (model' & r & Hm & Hr & Hs & Hj). injection Hm as <-.
        f_equal. apply attempt_return. eauto.
    + split; [discriminate|]. intros (model & r & H & _). discriminate.
  - intros model r e. apply attempt_unparseable_200.
Qed.

(** C3, as the code has it.  When no pass ends in a return,
    [call_gemini] raises [Exception] (it has no failure value to return);
    the message is the fixed prefix followed by the last error on record.
    Either every candidate was posted to, each pass going on to the next,
    and the error is that of the last pass (or the initial one when there
    is no candidate); or a pass broke out of the loop, its error is the
    one reported and no later candidate was posted to.  The exception
    carries the message only; the candidates tried are the URLs posted
    to, in candidate order. *)
Theorem call_gemini_failure net payload timeout :
  (forall n v,
     continued GOOGLE_API_KEY net payload timeout n ->
     pass GOOGLE_API_KEY net payload timeout n <> Some (Return v)) ->
  exists last_error log,
    call_gemini GOOGLE_API_KEY net payload timeout
      = (Raised (Raise Exception (FINAL_ERROR ++ last_error)), log) /\
    ((continued GOOGLE_API_KEY net payload timeout (List.length (get_supported_models GOOGLE_API_KEY net)) /\
      last_recorded GOOGLE_API_KEY net payload timeout 0 (get_supported_models GOOGLE_API_KEY net)
        NO_MODELS_ATTEMPTED last_error /\
      log = map (generate_url GOOGLE_API_KEY) (get_supported_models GOOGLE_API_KEY net))
     \/
     (exists n,
        continued GOOGLE_API_KEY net payload timeout n /\
        pass GOOGLE_API_KEY net payload timeout n = Some (Break last_error) /\
        log = posted_to GOOGLE_API_KEY net (S n))).
Proof.
  intros Hnone.
  destruct (call_gemini GOOGLE_API_KEY net payload timeout) as [[v|e] log] eqn:E.
  - exfalso. apply call_gemini_returns in E as (n & Hc & Hn & _).
    exact (Hnone n v Hc Hn).
  - apply call_gemini_raises in E as (last_error & -> & H).
    exists last_error, log. split; [reflexivity|].
    destruct H as [(Hc & Hl & ->)|H]; [left|right; exact H].
    split; [exact Hc|]. split; [exact Hl|].
    unfold posted_to. rewrite firstn_all. reflexivity.
Qed.

(** C10. With an empty candidate list [call_gemini] posts nothing and
    raises with the initial error on record. *)
Theorem call_gemini_no_models net payload timeout :
  get_supported_models GOOGLE_API_KEY net = [] ->
  call_gemini GOOGLE_API_KEY net payload timeout
    = (Raised (Raise Exception (FINAL_ERROR ++ NO_MODELS_ATTEMPTED)), []).
Proof.
  intros H. unfold call_gemini. rewrite H. reflexivity.
Qed.


(** C5. When the listing call answers 200 with an object whose models
    field is an array of entries, each an object with a string name and
    an array of methods (or none), the result is, in provider order, the
    last path segment of the name of exactly those entries whose methods
    contain generateContent and whose lower-cased name contains none of
    tts, embed and aqa. *)
Theorem get_supported_models_filter net r body entries listings :
  requests_get net (models_url GOOGLE_API_KEY) = Ok r ->
  status_code r = 200%Z ->
  json r = Ok (JObj body) ->
  dict_lookup (py "models") body = Some (JArr entries) ->
  map describe entries = map Some listings ->
  get_supported_models GOOGLE_API_KEY net = map short_name (filter included listings)
  /\ (forall d, included d = true <->
        existsb (is_str (py "generateContent")) (capabilities d) = true /\
        contains (py "tts") (str_lower (identifier d)) = false /\
        contains (py "embed") (str_lower (identifier d)) = false /\
        contains (py "aqa") (str_lower (identifier d)) = false).
Proof.
  intros Hget Hs Hj Hm Hd. split.
  - unfold get_supported_models. rewrite Hget, Hs. cbn [Z.eqb Pos.eqb].
    unfold discovered. rewrite Hj. cbn [bind py_get]. rewrite Hm. cbn [bind py_iter].
    rewrite select_models_described with (listings := listings) by exact Hd.
    reflexivity.
  - intros d. unfold included, generates_content, marked.
    rewrite !andb_true_iff, !negb_true_iff. tauto.
Qed.

(** C8, as the code has it.  A text whose cleaned form has no span gets,
    in both routes, the error that says so, with the raw text.  A span
    that [json.loads] rejects with [JSONDecodeError] gets, in scan_food,
    another error, with the raw text and nothing else. *)
Theorem extraction_errors text :
  (re_search_braces (clean_text text) = None ->
   scan_food_extract (JStr text) = Ok (error_raw NO_JSON (JStr text), 500%Z) /\
   diet_plan_extract (JStr text) = Ok (error_raw NO_JSON (JStr text), 500%Z))
  /\
  (forall span e,
     re_search_braces (clean_text text) = Some span ->
     json_loads span = Raised e -> exn_class_of e = JSONDecodeError ->
     scan_food_extract (JStr text)
       = Ok (JObj [(py "error", JStr INVALID_JSON); (py "raw", JStr text)], 500%Z)).
Proof.
  unfold scan_food_extract, diet_plan_extract, clean_text. cbn [clean bind]. split.
  - intros ->. split; reflexivity.
  - intros span e -> -> ->. reflexivity.
Qed.

(** C9. When [call_gemini] returned a body (so a post answered 200) that
    has no candidates field, or an empty candidates array, each of the
    three routes answers status 500 with an error object; and for a body
    that is an object the error is the route's own message for this
    case. *)
Theorem routes_without_candidates net payload data log :
  call_gemini GOOGLE_API_KEY net payload 30 = (Ok data, log) ->
  candidates_of data = None \/ candidates_of data = Some (JArr []) ->
  (exists msg,
     scan_food GOOGLE_API_KEY net (Some (Ok payload)) = ((error_body msg, 500%Z), log))
  /\ (exists msg,
        diet_plan GOOGLE_API_KEY net (Ok payload) = ((error_body msg, 500%Z), log))
  /\ (exists msg,
        chat GOOGLE_API_KEY net (Ok payload) = ((error_body msg, 500%Z), log))
  /\ (forall fields, data = JObj fields ->
        scan_food_handle data
          = Ok (error_body (py "No results from AI. Safety filters might be active."),
                500%Z) /\
        diet_plan_handle data
          = Ok (error_body (py "AI could not generate a plan."), 500%Z) /\
        chat_handle data
          = Ok (error_body (py "Bella is unable to respond right now."), 500%Z)).
Proof.
  intros Hc Hd. split; [|split; [|split]].
  - unfold scan_food.
    exact (guarded_failure GOOGLE_API_KEY _ _ _ net payload data log Hc
             (scan_food_handle_without data Hd)).
  - unfold diet_plan.
    exact (guarded_failure GOOGLE_API_KEY _ _ _ net payload data log Hc
             (diet_plan_handle_without data Hd)).
  - unfold chat.
    exact (guarded_failure GOOGLE_API_KEY _ _ _ net payload data log Hc
             (chat_handle_without data Hd)).
  - intros fields ->. unfold scan_food_handle, diet_plan_handle, chat_handle.
    rewrite (no_candidates_object fields Hd). repeat split; reflexivity.
Qed.

End Claims.

(** * The claims on concrete runs *)

Section Runs.

Import Samples.

(** The canned responses fail(500), fail(400), success: two posts, and
    the 400 is the error raised. *)
Example canned_500_400_success :
  call_gemini KEY (scripted listing_timeout [fail 500 "boom"; fail 400 "Bad Request"; success])
    payload 30
  = (Raised (Raise Exception
       (py "All AI attempts failed. Final error: API 400 (gemini-1.5-pro): Bad Request")),
     [generate_url KEY (py "gemini-1.5-flash"); generate_url KEY (py "gemini-1.5-pro")]).
Proof. vm_compute. reflexivity. Qed.

(** The canned responses fail(500), fail(500), success: three posts, and
    the third body is returned. *)
Example canned_500_500_success :
  call_gemini KEY (scripted listing_timeout [fail 500 "boom"; fail 500 "boom"; success])
    payload 30
  = (json_loads reply_body,
     [generate_url KEY (py "gemini-1.5-flash"); generate_url KEY (py "gemini-1.5-pro"); generate_url KEY (py "gemini-2.0-flash")]).
Proof. vm_compute. reflexivity. Qed.

(** Three answers of 403: one post. *)
Example canned_403_403_403 :
  call_gemini KEY (scripted listing_timeout
                     [fail 403 "Forbidden"; fail 403 "Forbidden"; fail 403 "Forbidden"])
    payload 30
  = (Raised (Raise Exception
       (py "All AI attempts failed. Final error: API 403 (gemini-1.5-flash): Forbidden")),
     [generate_url KEY (py "gemini-1.5-flash")]).
Proof. vm_compute. reflexivity. Qed.

(** C1, where the code departs from it.  The second candidate answers
    400 with content type application/json and a body that is not JSON:
    reading the error body raises inside the [try], the handler goes on
    to the next candidate, and the call returns the third candidate's
    body after three posts. *)
Theorem call_gemini_unreadable_400_goes_on :
  call_gemini KEY (scripted listing_timeout [fail 500 "boom"; fail_400_unreadable; success])
    payload 30
  = (json_loads reply_body,
     [generate_url KEY (py "gemini-1.5-flash"); generate_url KEY (py "gemini-1.5-pro"); generate_url KEY (py "gemini-2.0-flash")])
  /\ attempt (py "gemini-1.5-pro") fail_400_unreadable
     = Continue (py "Expecting value: line 1 column 1 (char 0)").
Proof. split; vm_compute; reflexivity. Qed.



(** C3 fails wherever no model succeeds: the call raises, and what it
    raises holds a message and no list of models. *)
Lemma call_gemini_failure_raises_exception :
  fst (call_gemini KEY (scripted listing_two [fail 500 "first"; fail 503 "second"]) payload 30)
  = Raised (Raise Exception
      (py "All AI attempts failed. Final error: API 503 (m2): second")).
Proof. vm_compute. reflexivity. Qed.

Lemma two_candidates :
  get_supported_models KEY (scripted listing_two [fail 500 "first"; fail 503 "second"])
  = [py "m1"; py "m2"].
Proof. vm_compute. reflexivity. Defined.

Lemma call_gemini_failure_witness :
  (forall n v,
     continued KEY (scripted listing_two [fail 500 "first"; fail 503 "second"]) payload 30 n ->
     pass KEY (scripted listing_two [fail 500 "first"; fail 503 "second"]) payload 30 n
     <> Some (Return v))
  /\ exists last_error log,
       call_gemini KEY (scripted listing_two [fail 500 "first"; fail 503 "second"]) payload 30
       = (Raised (Raise Exception (FINAL_ERROR ++ last_error)), log)
       /\ List.length log = 2%nat.
Proof.
  assert (H : forall n v,
     continued KEY (scripted listing_two [fail 500 "first"; fail 503 "second"]) payload 30 n ->
     pass KEY (scripted listing_two [fail 500 "first"; fail 503 "second"]) payload 30 n
     <> Some (Return v)).
  { intros n v Hc. apply continued_from_bound in Hc. rewrite two_candidates in Hc.
    destruct n as [|[|[|n]]]; [vm_compute; discriminate ..|simpl in Hc; lia]. }
  split; [exact H|].
  destruct (call_gemini_failure KEY _ payload 30 H) as (last_error & log & E & Hlog).
  exists last_error, log. split; [exact E|].
  destruct Hlog as [(_ & _ & ->)|(n & Hc & Hb & _)].
  - rewrite two_candidates. reflexivity.
  - exfalso. apply continued_from_bound in Hc. rewrite two_candidates in Hc.
    destruct n as [|[|[|n]]]; [vm_compute in Hb; discriminate ..|simpl in Hc; lia].
Defined.

Lemma call_gemini_success_witness :
  call_gemini KEY (scripted listing_timeout [fail 500 "boom"; success]) payload 30
  = (json_loads reply_body, posted_to KEY (scripted listing_timeout [fail 500 "boom"; success]) 2)
  /\ exists n v,
       continued KEY (scripted listing_timeout [fail 500 "boom"; success]) payload 30 n /\
       pass KEY (scripted listing_timeout [fail 500 "boom"; success]) payload 30 n
       = Some (Return v).
Proof.
  assert (E : call_gemini KEY (scripted listing_timeout [fail 500 "boom"; success]) payload 30
              = (json_loads reply_body,
                 posted_to KEY (scripted listing_timeout [fail 500 "boom"; success]) 2)).
  { vm_compute. reflexivity. }
  split; [exact E|].
  destruct (json_loads reply_body) as [v|e] eqn:Ev; [|vm_compute in Ev; discriminate].
  apply (proj1 (call_gemini_success KEY _ payload 30)) in E as (n & Hc & Hn & _).
  exists n, v. split; assumption.
Defined.

Lemma get_supported_models_filter_witness :
  requests_get (scripted listing_mixed []) (models_url KEY) = listing_mixed
  /\ map describe
       (match json_loads listing_mixed_body with
        | Ok (JObj ((_, JArr entries) :: _)) => entries
        | _ => []
        end) = map Some listings_mixed
  /\ get_supported_models KEY (scripted listing_mixed [])
     = [py "gemini-1.5-flash"; py "gemini-2.0-flash"].
Proof.
  split; [reflexivity|]. split; [vm_compute; reflexivity|].
  assert (Hf : map short_name (filter included listings_mixed)
               = [py "gemini-1.5-flash"; py "gemini-2.0-flash"])
    by (vm_compute; reflexivity).
  rewrite <- Hf.
  eapply (fun r body entries H1 H2 H3 H4 H5 =>
            proj1 (@get_supported_models_filter CPython KEY (scripted listing_mixed [])
                     r body entries listings_mixed H1 H2 H3 H4 H5)).
  - reflexivity.
  - reflexivity.
  - vm_compute. reflexivity.
  - vm_compute. reflexivity.
  - vm_compute. reflexivity.
Defined.

(** C8 fails on its own example: the fenced text has an opening brace
    and no closing one, so no span is found and the reply is the one for
    a text without JSON; and the reply for a span that does not parse
    has two fields, the message and the raw text, not the span. *)
Lemma extraction_fenced_bad_json :
  scan_food_extract (JStr (fenced (py "{bad json")))
  = Ok (JObj [(py "error", JStr (py "AI response did not contain JSON"));
              (py "raw", JStr (fenced (py "{bad json")))], 500%Z)
  /\ re_search_braces (clean_text (py "see {bad json} here")) = Some (py "{bad json}")
  /\ scan_food_extract (JStr (py "see {bad json} here"))
     = Ok (JObj [(py "error", JStr (py "AI returned invalid JSON structure"));
                 (py "raw", JStr (py "see {bad json} here"))], 500%Z).
Proof. repeat split; vm_compute; reflexivity. Qed.

Lemma extraction_errors_witness :
  re_search_braces (clean_text (py "no braces here")) = None
  /\ scan_food_extract (JStr (py "no braces here"))
     = Ok (error_raw NO_JSON (JStr (py "no braces here")), 500%Z)
  /\ diet_plan_extract (JStr (py "no braces here"))
     = Ok (error_raw NO_JSON (JStr (py "no braces here")), 500%Z).
Proof.
  assert (E : re_search_braces (clean_text (py "no braces here")) = None)
    by (vm_compute; reflexivity).
  split; [exact E|].
  exact (proj1 (extraction_errors (py "no braces here")) E).
Defined.

Lemma routes_without_candidates_witness :
  call_gemini KEY (scripted listing_timeout [Ok (http 200 "application/json" (js "{'candidates': []}"))])
    payload 30
  = (Ok (JObj [(py "candidates", JArr [])]), [generate_url KEY (py "gemini-1.5-flash")])
  /\ candidates_of (JObj [(py "candidates", JArr [])]) = Some (JArr [])
  /\ (exists msg,
        scan_food KEY (scripted listing_timeout
                         [Ok (http 200 "application/json" (js "{'candidates': []}"))])
          (Some (Ok payload))
        = ((error_body msg, 500%Z), [generate_url KEY (py "gemini-1.5-flash")])).
Proof.
  assert (E : call_gemini KEY
                (scripted listing_timeout
                   [Ok (http 200 "application/json" (js "{'candidates': []}"))])
                payload 30
              = (Ok (JObj [(py "candidates", JArr [])]), [generate_url KEY (py "gemini-1.5-flash")]))
    by (vm_compute; reflexivity).
  assert (H : candidates_of (JObj [(py "candidates", JArr [])]) = Some (JArr []))
    by (vm_compute; reflexivity).
  split; [exact E|]. split; [exact H|].
  exact (proj1 (routes_without_candidates KEY _ payload _ _ E (or_intror H))).
Defined.

Lemma call_gemini_no_models_witness :
  get_supported_models KEY (scripted listing_embedding_only [success]) = []
  /\ call_gemini KEY (scripted listing_embedding_only [success]) payload 30
     = (Raised (Raise Exception
          (py "All AI attempts failed. Final error: No models attempted")), []).
Proof.
  assert (E : get_supported_models KEY (scripted listing_embedding_only [success]) = [])
    by (vm_compute; reflexivity).
  split; [exact E|].
  exact (call_gemini_no_models KEY (scripted listing_embedding_only [success]) payload 30 E).
Defined.

End Runs.

(** * The span and the payload *)

(** ** Whitespace *)

Lemma lstrip_blank (w s : pystr) : blank w -> lstrip (w ++ s) = lstrip s.
Proof.
  intros H. induction H as [|c w Hc _ IH]; simpl; [reflexivity|].
  rewrite Hc. exact IH.
Qed.

Lemma lstrip_blank_nil (w : pystr) : blank w -> lstrip w = [].
Proof.
  intros H. rewrite <- (app_nil_r w). rewrite lstrip_blank by exact H. reflexivity.
Qed.

Lemma lstrip_nil_blank (s : pystr) : lstrip s = [] -> blank s.
Proof.
  induction s as [|c s IH]; simpl; [intros _; apply Forall_nil|].
  destruct (isspace c) eqn:E; [|discriminate].
  intros H. apply Forall_cons; [exact E|exact (IH H)].
Qed.

Lemma lstrip_idempotent (s : pystr) : lstrip (lstrip s) = lstrip s.
Proof.
  induction s as [|c s IH]; simpl; [reflexivity|].
  destruct (isspace c) eqn:E; [exact IH|]. simpl. rewrite E. reflexivity.
Qed.

Lemma blank_rev (w : pystr) : blank w -> blank (rev w).
Proof. unfold blank. apply Forall_rev. Qed.

Lemma rstrip_snoc (s : pystr) (d : char) :
  rstrip (s ++ [d]) = if isspace d then rstrip s else s ++ [d].
Proof.
  unfold rstrip. rewrite rev_unit. simpl.
  destruct (isspace d); [reflexivity|].
  simpl. rewrite rev_involutive. reflexivity.
Qed.

Lemma rstrip_blank (s w : pystr) : blank w -> rstrip (s ++ w) = rstrip s.
Proof.
  intros H. unfold rstrip. rewrite rev_app_distr.
  rewrite lstrip_blank by (apply blank_rev; exact H). reflexivity.
Qed.

Lemma rstrip_blank_nil (w : pystr) : blank w -> rstrip w = [].
Proof.
  intros H. change w with ([] ++ w). rewrite rstrip_blank by exact H. reflexivity.
Qed.

Lemma rstrip_cons (c : char) (s : pystr) :
  rstrip (c :: s) =
  match rstrip s with
  | [] => if isspace c then [] else [c]
  | r => c :: r
  end.
Proof.
  induction s as [|d s IH] using rev_ind.
  - unfold rstrip. simpl. destruct (isspace c); reflexivity.
  - rewrite app_comm_cons, !rstrip_snoc.
    destruct (isspace d); [exact IH|].
    destruct (s ++ [d]) eqn:E; [destruct s; discriminate|].
    simpl. rewrite E. reflexivity.
Qed.

Lemma rstrip_nil_blank (s : pystr) : rstrip s = [] -> blank s.
Proof.
  induction s as [|c s IH]; [intros _; apply Forall_nil|].
  rewrite rstrip_cons. destruct (rstrip s) eqn:E; [|discriminate].
  destruct (isspace c) eqn:Ec; [|discriminate].
  intros _. apply Forall_cons; [exact Ec|exact (IH eq_refl)].
Qed.

Lemma rstrip_idempotent (s : pystr) : rstrip (rstrip s) = rstrip s.
Proof.
  unfold rstrip. rewrite rev_involutive, lstrip_idempotent. reflexivity.
Qed.

Lemma rstrip_cons_solid (c : char) (s : pystr) :
  isspace c = false -> rstrip (c :: s) = c :: rstrip s.
Proof.
  intros H. rewrite rstrip_cons, H. destruct (rstrip s); reflexivity.
Qed.

Lemma rstrip_cons_kept (c : char) (s : pystr) :
  rstrip s <> [] -> rstrip (c :: s) = c :: rstrip s.
Proof.
  intros H. rewrite rstrip_cons. destruct (rstrip s); [contradiction|reflexivity].
Qed.

Lemma lstrip_rstrip (s : pystr) : lstrip (rstrip s) = rstrip (lstrip s).
Proof.
  induction s as [|c s IH]; [reflexivity|].
  simpl lstrip at 2. destruct (isspace c) eqn:E.
  - rewrite <- IH. rewrite rstrip_cons, E.
    destruct (rstrip s) eqn:Er; [reflexivity|].
    simpl. rewrite E. reflexivity.
  - rewrite rstrip_cons_solid by exact E. simpl. rewrite E. reflexivity.
Qed.

Lemma strip_rstrip (s : pystr) : strip (rstrip s) = strip s.
Proof.
  unfold strip. rewrite lstrip_rstrip, rstrip_idempotent. reflexivity.
Qed.

Lemma strip_idempotent (s : pystr) : strip (strip s) = strip s.
Proof.
  unfold strip. rewrite lstrip_rstrip, lstrip_idempotent, rstrip_idempotent.
  reflexivity.
Qed.

Lemma strip_blank_around (w1 s w2 : pystr) :
  blank w1 -> blank w2 -> strip (w1 ++ s ++ w2) = strip s.
Proof.
  intros H1 H2. unfold strip. rewrite lstrip_blank by exact H1.
  rewrite <- !lstrip_rstrip. rewrite rstrip_blank by exact H2. reflexivity.
Qed.

(** ** Fence removal *)

Lemma in_lstrip (c : char) (s : pystr) : In c (lstrip s) -> In c s.
Proof.
  induction s as [|d s IH]; simpl; [tauto|].
  destruct (isspace d); [auto|]. simpl. tauto.
Qed.

Lemma blank_no_backtick (w : pystr) : blank w -> ~ In BACKTICK w.
Proof.
  intros H Hin. unfold blank in H. rewrite Forall_forall in H.
  apply H in Hin. discriminate.
Qed.

Lemma skipn_count_space (s : pystr) : skipn (count_space s) s = lstrip s.
Proof.
  induction s as [|c s IH]; simpl; [reflexivity|].
  destruct (isspace c); [exact IH|reflexivity].
Qed.

Lemma count_space_blank (w s : pystr) :
  blank w -> count_space (w ++ s) = (List.length w + count_space s)%nat.
Proof.
  intros H. induction H as [|c w Hc _ IH]; simpl; [reflexivity|].
  rewrite Hc, IH. reflexivity.
Qed.

Lemma lstrip_before_fence (u : pystr) : lstrip (u ++ FENCE) = lstrip u ++ FENCE.
Proof.
  induction u as [|c u IH]; simpl; [reflexivity|].
  destruct (isspace c); [exact IH|reflexivity].
Qed.

Lemma remove_fences_unfold (c : char) (rest : pystr) :
  remove_fences 0 (c :: rest) =
  match fence_match (c :: rest) with
  | Some (S k) => remove_fences k rest
  | _ => c :: remove_fences 0 rest
  end.
Proof. reflexivity. Qed.

Lemma remove_fences_skip (k : nat) (s : pystr) :
  remove_fences k s = remove_fences 0 (skipn k s).
Proof.
  revert k. induction s as [|c s IH]; intros [|k]; try reflexivity.
  simpl skipn. rewrite <- IH. reflexivity.
Qed.

Lemma startswith_fence_solid (s : pystr) :
  ~ In BACKTICK s -> startswith FENCE s = false.
Proof.
  destruct s as [|c s]; [reflexivity|]. intros H.
  change FENCE with (BACKTICK :: BACKTICK :: [BACKTICK]). cbn [startswith].
  destruct (N.eqb_spec BACKTICK c) as [E|_]; [|reflexivity].
  exfalso. apply H. left. symmetry. exact E.
Qed.

Lemma startswith_json_fence_solid (c : char) (s : pystr) :
  c <> BACKTICK -> startswith JSON_FENCE (c :: s) = false.
Proof.
  intros H.
  change JSON_FENCE with (BACKTICK :: BACKTICK :: BACKTICK :: py "json").
  cbn [startswith].
  destruct (N.eqb_spec BACKTICK c) as [E|_]; [|reflexivity].
  exfalso. apply H. symmetry. exact E.
Qed.

Lemma fence_match_clear (s : pystr) : ~ In BACKTICK s -> fence_match s = None.
Proof.
  intros H. unfold fence_match. fold JSON_FENCE. fold FENCE.
  replace (startswith JSON_FENCE s) with false.
  - rewrite skipn_count_space.
    rewrite startswith_fence_solid; [reflexivity|].
    intros Hin. apply H. apply in_lstrip. exact Hin.
  - destruct s as [|c s]; [reflexivity|].
    symmetry. apply startswith_json_fence_solid.
    intros ->. apply H. left. reflexivity.
Qed.

Lemma remove_fences_clear (s : pystr) : ~ In BACKTICK s -> remove_fences 0 s = s.
Proof.
  induction s as [|c s IH]; intros H; [reflexivity|].
  rewrite remove_fences_unfold, fence_match_clear by exact H.
  rewrite IH; [reflexivity|]. intros Hin. apply H. right. exact Hin.
Qed.

(** The match at the start of a text that has no backtick before its
    closing fence: the whole text when it is blank up to the fence. *)
Lemma fence_match_before_fence (c : char) (u : pystr) :
  ~ In BACKTICK (c :: u) ->
  fence_match ((c :: u) ++ FENCE) =
  match lstrip (c :: u) with
  | [] => Some (List.length (c :: u) + 3)%nat
  | _ => None
  end.
Proof.
  intros H. unfold fence_match. fold JSON_FENCE. fold FENCE.
  rewrite <- app_comm_cons at 1.
  rewrite startswith_json_fence_solid
    by (intros ->; apply H; left; reflexivity).
  rewrite skipn_count_space, lstrip_before_fence.
  destruct (lstrip (c :: u)) as [|x l] eqn:E.
  - rewrite count_space_blank by (apply lstrip_nil_blank; exact E).
    change (startswith FENCE ([] ++ FENCE)) with true.
    change (count_space FENCE) with 0%nat. rewrite Nat.add_0_r. reflexivity.
  - rewrite <- app_comm_cons.
    change FENCE with (BACKTICK :: BACKTICK :: [BACKTICK]). cbn [startswith].
    destruct (N.eqb_spec BACKTICK x) as [Ex|_]; [|reflexivity].
    exfalso. apply H. apply in_lstrip. rewrite E. left. symmetry. exact Ex.
Qed.

Lemma remove_fences_before_fence (u : pystr) :
  ~ In BACKTICK u -> remove_fences 0 (u ++ FENCE) = rstrip u.
Proof.
  induction u as [|c u IH]; intros H; [reflexivity|].
  assert (Hu : ~ In BACKTICK u) by (intros Hin; apply H; right; exact Hin).
  rewrite <- app_comm_cons, remove_fences_unfold, app_comm_cons.
  rewrite fence_match_before_fence by exact H.
  destruct (lstrip (c :: u)) as [|x l] eqn:E.
  - cbn [List.length Nat.add].
    rewrite remove_fences_skip, skipn_all2
      by (rewrite length_app; change (List.length FENCE) with 3%nat; lia).
    rewrite rstrip_blank_nil by (apply lstrip_nil_blank; exact E).
    reflexivity.
  - rewrite IH by exact Hu. rewrite rstrip_cons.
    destruct (rstrip u) eqn:Er; [|reflexivity].
    destruct (isspace c) eqn:Ec; [|reflexivity].
    exfalso. simpl in E. rewrite Ec in E.
    rewrite lstrip_blank_nil in E by (apply rstrip_nil_blank; exact Er).
    discriminate.
Qed.

Lemma fence_match_json_fence (rest : pystr) :
  fence_match (JSON_FENCE ++ rest) = Some (7 + count_space rest)%nat.
Proof. reflexivity. Qed.

Lemma remove_fences_json_fence (rest : pystr) :
  remove_fences 0 (JSON_FENCE ++ rest) = remove_fences 0 (lstrip rest).
Proof.
  change (JSON_FENCE ++ rest) with (BACKTICK :: (skipn 1 JSON_FENCE ++ rest)).
  rewrite remove_fences_unfold.
  change (BACKTICK :: (skipn 1 JSON_FENCE ++ rest)) with (JSON_FENCE ++ rest).
  rewrite fence_match_json_fence.
  change (7 + count_space rest)%nat with (S (6 + count_space rest)).
  cbv beta iota. rewrite remove_fences_skip.
  change (skipn (6 + count_space rest) (skipn 1 JSON_FENCE ++ rest))
    with (skipn (count_space rest) rest).
  rewrite skipn_count_space. reflexivity.
Qed.

Lemma blank_around_no_backtick (w1 inner w2 : pystr) :
  blank w1 -> blank w2 -> ~ In BACKTICK inner ->
  ~ In BACKTICK (w1 ++ inner ++ w2).
Proof.
  intros H1 H2 Hi Hin.
  apply in_app_or in Hin as [Hin|Hin]; [exact (blank_no_backtick w1 H1 Hin)|].
  apply in_app_or in Hin as [Hin|Hin]; [exact (Hi Hin)|].
  exact (blank_no_backtick w2 H2 Hin).
Qed.

(** ** The fence markers *)

Lemma startswith_skipn (p s : pystr) :
  startswith p s = true -> s = p ++ skipn (List.length p) s.
Proof.
  revert s. induction p as [|x p IH]; intros [|y s]; simpl; try discriminate;
    [reflexivity..|].
  intros H. apply andb_true_iff in H as (Hx & Hp).
  apply N.eqb_eq in Hx. subst y. f_equal. exact (IH s Hp).
Qed.

Lemma startswith_prefix (p s : pystr) : startswith p (p ++ s) = true.
Proof.
  induction p as [|x p IH]; [reflexivity|]. simpl. rewrite N.eqb_refl. exact IH.
Qed.

Lemma leading_space (s : pystr) :
  s = firstn (count_space s) s ++ lstrip s
  /\ blank (firstn (count_space s) s) /\ tight (lstrip s).
Proof.
  induction s as [|c s (IH1 & IH2 & IH3)]; simpl.
  - repeat split. apply Forall_nil.
  - destruct (isspace c) eqn:E; simpl.
    + repeat split; [f_equal; exact IH1| |exact IH3].
      apply Forall_cons; assumption.
    + repeat split; [apply Forall_nil|exact E].
Qed.

Lemma count_space_tight (s : pystr) : tight s -> count_space s = 0%nat.
Proof.
  destruct s as [|c s]; [reflexivity|]. simpl. intros ->. reflexivity.
Qed.

Lemma marker_at_app (s m rest : pystr) : marker_at s m rest -> s = m ++ rest.
Proof.
  intros [w r _ _|w r _ _]; rewrite <- app_assoc; reflexivity.
Qed.

Lemma marker_at_match (s m rest : pystr) :
  marker_at s m rest -> fence_match s = Some (List.length m).
Proof.
  intros [w r Hw Hr|w r Hw Hs].
  - rewrite fence_match_json_fence.
    rewrite count_space_blank by exact Hw.
    rewrite count_space_tight by exact Hr.
    rewrite length_app. change (List.length JSON_FENCE) with 7%nat.
    f_equal. lia.
  - unfold fence_match. fold JSON_FENCE. fold FENCE. rewrite Hs.
    rewrite count_space_blank by exact Hw.
    change (count_space (FENCE ++ r)) with 0%nat. rewrite Nat.add_0_r.
    rewrite skipn_app, skipn_all, Nat.sub_diag. cbn [app skipn].
    rewrite startswith_prefix. rewrite length_app.
    change (List.length FENCE) with 3%nat. reflexivity.
Qed.

Lemma match_marker_at (s : pystr) (n : nat) :
  fence_match s = Some n -> marker_at s (firstn n s) (skipn n s).
Proof.
  unfold fence_match. fold JSON_FENCE. fold FENCE.
  destruct (startswith JSON_FENCE s) eqn:Ej.
  - intros H. replace n with (7 + count_space (skipn 7 s))%nat by congruence. clear H.
    apply startswith_skipn in Ej. change (List.length JSON_FENCE) with 7%nat in Ej.
    destruct (leading_space (skipn 7 s)) as (Hsplit & Hblank & Htight).
    set (t := skipn 7 s) in *.
    assert (E1 : firstn (7 + count_space t) s = JSON_FENCE ++ firstn (count_space t) t).
    { rewrite Ej at 1. rewrite firstn_app.
      change (List.length JSON_FENCE) with 7%nat.
      replace (7 + count_space t - 7)%nat with (count_space t) by lia.
      rewrite firstn_all2 by (change (List.length JSON_FENCE) with 7%nat; lia).
      reflexivity. }
    assert (E2 : skipn (7 + count_space t) s = lstrip t).
    { rewrite Nat.add_comm, <- skipn_skipn. fold t. apply skipn_count_space. }
    rewrite E1, E2.
    assert (E3 : s = JSON_FENCE ++ firstn (count_space t) t ++ lstrip t).
    { rewrite <- Hsplit. exact Ej. }
    rewrite E3 at 1. apply opening_marker; assumption.
  - destruct (startswith FENCE (skipn (count_space s) s)) eqn:Ef; [|discriminate].
    intros H. replace n with (count_space s + 3)%nat by congruence. clear H.
    destruct (leading_space s) as (Hsplit & Hblank & _).
    rewrite skipn_count_space in Ef. apply startswith_skipn in Ef.
    change (List.length FENCE) with 3%nat in Ef.
    set (w := firstn (count_space s) s) in *.
    assert (Hlen : List.length w = count_space s).
    { assert (Hl : (count_space s <= List.length s)%nat).
      { clear. induction s as [|c s IH]; simpl; [lia|].
        destruct (isspace c); simpl; lia. }
      unfold w. rewrite length_firstn. lia. }
    assert (E0 : s = w ++ FENCE ++ skipn 3 (lstrip s)).
    { rewrite <- Ef. exact Hsplit. }
    assert (E1 : firstn (count_space s + 3) s = w ++ FENCE).
    { rewrite E0 at 2. rewrite firstn_app, Hlen.
      replace (count_space s + 3 - count_space s)%nat with 3%nat by lia.
      rewrite firstn_all2 by lia. reflexivity. }
    assert (E2 : skipn (count_space s + 3) s = skipn 3 (lstrip s)).
    { rewrite Nat.add_comm, <- skipn_skipn. rewrite skipn_count_space. reflexivity. }
    rewrite E1, E2. rewrite E0 at 1.
    apply closing_marker; [exact Hblank|]. rewrite <- E0. exact Ej.
Qed.

Lemma no_match_no_marker (s m rest : pystr) :
  fence_match s = None -> ~ marker_at s m rest.
Proof.
  intros H Hm. rewrite (marker_at_match s m rest Hm) in H. discriminate.
Qed.

Lemma fence_match_positive (s : pystr) : fence_match s <> Some 0%nat.
Proof.
  unfold fence_match. destruct (startswith _ s); [discriminate|].
  destruct (startswith _ _); [|discriminate].
  intros H. injection H as H. lia.
Qed.

(** [re.sub] removes the fence markers. *)
Lemma re_sub_fences_removed (s : pystr) : fences_removed s (re_sub_fences s).
Proof.
  unfold re_sub_fences.
  remember (List.length s) as n eqn:Hn. revert s Hn.
  induction n as [n IH] using lt_wf_ind. intros s Hn.
  destruct s as [|c rest]; [apply removed_end|].
  rewrite remove_fences_unfold.
  destruct (fence_match (c :: rest)) as [[|k]|] eqn:E.
  - exfalso. exact (fence_match_positive _ E).
  - rewrite remove_fences_skip.
    apply (removed_marker (c :: rest) (firstn (S k) (c :: rest)) (skipn (S k) (c :: rest))).
    + apply match_marker_at. exact E.
    + cbn [skipn]. apply (IH (List.length (skipn k rest))); [|reflexivity].
      subst n. rewrite length_skipn. simpl. lia.
  - apply removed_char.
    + intros m rest'. apply no_match_no_marker. exact E.
    + apply (IH (List.length rest)); [subst n; simpl; lia|reflexivity].
Qed.

(** And the text without its markers is no other than what [re.sub]
    gives. *)
Lemma fences_removed_unique (s out : pystr) :
  fences_removed s out -> out = re_sub_fences s.
Proof.
  unfold re_sub_fences.
  induction 1 as [|s m rest out Hm _ IH|c rest out Hno _ IH]; [reflexivity| |].
  - pose proof (marker_at_match s m rest Hm) as E.
    pose proof (marker_at_app s m rest Hm) as Hs.
    destruct s as [|c s'].
    + destruct m; [|discriminate]. exfalso. exact (fence_match_positive _ E).
    + rewrite remove_fences_unfold, E.
      destruct m as [|x m]; [exfalso; exact (fence_match_positive _ E)|].
      cbn [List.length]. rewrite remove_fences_skip.
      injection Hs as _ Hs. rewrite Hs.
      rewrite skipn_app, skipn_all, Nat.sub_diag. cbn [app skipn]. exact IH.
  - rewrite remove_fences_unfold.
    destruct (fence_match (c :: rest)) as [n|] eqn:E.
    + exfalso. exact (Hno _ _ (match_marker_at _ n E)).
    + f_equal. exact IH.
Qed.

(** ** The span of the text without its fences *)

Lemma blank_without (c : char) (w : pystr) :
  isspace c = false -> blank w -> ~ In c w.
Proof.
  intros Hc Hw Hin. unfold blank in Hw. rewrite Forall_forall in Hw.
  rewrite (Hw c Hin) in Hc. discriminate.
Qed.

Lemma trailing_space (s : pystr) : exists w, s = rstrip s ++ w /\ blank w.
Proof.
  destruct (leading_space (rev s)) as (Hsplit & Hblank & _).
  exists (rev (firstn (count_space (rev s)) (rev s))). split.
  - unfold rstrip. rewrite <- rev_app_distr, <- Hsplit, rev_involutive. reflexivity.
  - apply blank_rev. exact Hblank.
Qed.

Lemma strip_around (s : pystr) :
  exists w1 w2, s = w1 ++ strip s ++ w2 /\ blank w1 /\ blank w2.
Proof.
  destruct (leading_space s) as (H1 & Hb1 & _).
  destruct (trailing_space (lstrip s)) as (w2 & H2 & Hb2).
  exists (firstn (count_space s) s), w2. unfold strip.
  rewrite <- H2. auto.
Qed.

Lemma lstrip_before_solid (u : pystr) (c : char) (x : pystr) :
  isspace c = false -> lstrip (u ++ c :: x) = lstrip u ++ c :: x.
Proof.
  intros Hc. induction u as [|d u IH]; simpl; [rewrite Hc; reflexivity|].
  destruct (isspace d); [exact IH|reflexivity].
Qed.

Lemma rstrip_after_solid (x : pystr) (c : char) (y : pystr) :
  isspace c = false -> rstrip (x ++ c :: y) = x ++ c :: rstrip y.
Proof.
  intros Hc. unfold rstrip. rewrite rev_app_distr. cbn [rev].
  rewrite <- app_assoc. cbn [app].
  rewrite lstrip_before_solid by exact Hc.
  rewrite rev_app_distr. cbn [rev]. rewrite rev_involutive, <- app_assoc.
  reflexivity.
Qed.

Lemma in_rstrip (c : char) (s : pystr) : In c (rstrip s) -> In c s.
Proof.
  unfold rstrip. intros H. apply in_rev in H. apply in_lstrip in H.
  apply in_rev. exact H.
Qed.

(** The whitespace that [strip] drops lies outside the span. *)
Lemma first_to_last_strip (u span : pystr) :
  first_to_last (strip u) span <-> first_to_last u span.
Proof.
  split.
  - intros (pre & post & E & Hspan & Hpre & Hpost).
    destruct (strip_around u) as (w1 & w2 & Hu & H1 & H2).
    exists (w1 ++ pre), (post ++ w2). repeat split.
    + rewrite Hu at 1. rewrite E. rewrite <- !app_assoc. reflexivity.
    + exact Hspan.
    + intros Hin. apply in_app_or in Hin as [Hin|Hin]; [|exact (Hpre Hin)].
      exact (blank_without LBRACE w1 eq_refl H1 Hin).
    + intros Hin. apply in_app_or in Hin as [Hin|Hin]; [exact (Hpost Hin)|].
      exact (blank_without RBRACE w2 eq_refl H2 Hin).
  - intros (pre & post & -> & (body & ->) & Hpre & Hpost).
    exists (lstrip pre), (rstrip post). repeat split.
    + unfold strip. cbn [app].
      rewrite lstrip_before_solid by reflexivity.
      replace (lstrip pre ++ LBRACE :: (body ++ [RBRACE]) ++ post)
        with ((lstrip pre ++ LBRACE :: body) ++ RBRACE :: post)
        by (rewrite <- !app_assoc; reflexivity).
      rewrite rstrip_after_solid by reflexivity.
      rewrite <- !app_assoc. reflexivity.
    + exists body. reflexivity.
    + intros Hin. apply Hpre. apply in_lstrip. exact Hin.
    + intros Hin. apply Hpost. apply in_rstrip. exact Hin.
Qed.

Section Span.

Context {P : Python}.

(** C6. The span the routes hand to [json.loads] is the part of the
    fence-stripped text from its first opening brace to its last closing
    brace, whatever braces lie between.  The fence-stripped text is the
    reply without its fence markers, and there is one such text; the
    routes search it once the whitespace around it is dropped, which
    leaves the span as it is.  A route answers 200 with a payload
    exactly when there is such a span and the payload is its parse. *)
Theorem extraction_span text :
  exists unfenced,
    fences_removed text unfenced
    /\ (forall out, fences_removed text out -> out = unfenced)
    /\ clean_text text = strip unfenced
    /\ (forall span,
          re_search_braces (clean_text text) = Some span <->
          first_to_last unfenced span)
    /\ (forall payload,
          scan_food_extract (JStr text) = Ok (payload, 200%Z) <->
          exists span,
            first_to_last unfenced span /\ json_loads span = Ok payload)
    /\ (forall payload,
          diet_plan_extract (JStr text) = Ok (payload, 200%Z) <->
          exists span,
            first_to_last unfenced span /\ json_loads span = Ok payload).
Proof.
  exists (re_sub_fences text).
  assert (Hspan : forall span,
            re_search_braces (clean_text text) = Some span <->
            first_to_last (re_sub_fences text) span).
  { intros span. rewrite re_search_braces_spec. apply first_to_last_strip. }
  split; [apply re_sub_fences_removed|].
  split; [apply fences_removed_unique|].
  split; [reflexivity|]. split; [exact Hspan|]. split.
  - intros payload. rewrite scan_food_extract_success.
    split; intros (span & H & Hj); exists span; split; auto; apply Hspan; exact H.
  - intros payload. rewrite diet_plan_extract_success.
    split; intros (span & H & Hj); exists span; split; auto; apply Hspan; exact H.
Qed.

End Span.

(** ** Balanced spans *)

Lemma option_map_app (p q : pystr) (o : option pystr) :
  option_map (app p) (option_map (app q) o) = option_map (app (p ++ q)) o.
Proof. destruct o; simpl; [rewrite app_assoc|]; reflexivity. Qed.

Lemma passes_nil (m : lexing) : passes m m [].
Proof. intros depth tail. simpl. destruct (closing m (S depth) tail); reflexivity. Qed.

Lemma passes_app (a b c : lexing) (p q : pystr) :
  passes a b p -> passes b c q -> passes a c (p ++ q).
Proof.
  intros Hp Hq depth tail. rewrite <- app_assoc, Hp, Hq. apply option_map_app.
Qed.

Lemma passes_cons (a b : lexing) (x : char) (q : pystr) :
  passes a a [x] -> passes a b q -> passes a b (x :: q).
Proof. intros Hx Hq. exact (passes_app a a b [x] q Hx Hq). Qed.

Lemma passes_plain (c : char) :
  c <> Json.QUOTE -> c <> LBRACE -> c <> RBRACE -> passes Outside Outside [c].
Proof.
  intros Hq Hl Hr depth tail. cbn [app closing].
  destruct (N.eqb_spec c Json.QUOTE); [contradiction|].
  destruct (N.eqb_spec c LBRACE); [contradiction|].
  destruct (N.eqb_spec c RBRACE); [contradiction|].
  reflexivity.
Qed.

Lemma passes_plain_text (p : pystr) :
  forallb (fun c => negb (N.eqb c Json.QUOTE || N.eqb c LBRACE || N.eqb c RBRACE)) p = true ->
  passes Outside Outside p.
Proof.
  induction p as [|c p IH]; [intros _; apply passes_nil|].
  cbn [forallb]. intros H. apply andb_true_iff in H as (Hc & Hp).
  apply negb_true_iff in Hc. apply orb_false_iff in Hc as (Hc & Hr).
  apply orb_false_iff in Hc as (Hq & Hl).
  apply passes_cons; [|exact (IH Hp)].
  apply passes_plain; intros ->.
  - discriminate.
  - discriminate.
  - discriminate.
Qed.

Lemma passes_in_string (c : char) :
  c <> Json.QUOTE -> c <> Json.BACKSLASH -> passes Inside Inside [c].
Proof.
  intros Hq Hb depth tail. cbn [app closing].
  destruct (N.eqb_spec c Json.QUOTE); [contradiction|].
  destruct (N.eqb_spec c Json.BACKSLASH); [contradiction|].
  reflexivity.
Qed.

Lemma passes_escape (e : char) : passes Inside Inside [Json.BACKSLASH; e].
Proof. intros depth tail. cbn [app closing N.eqb Pos.eqb]. 
  change (N.eqb Json.BACKSLASH Json.QUOTE) with false.
  change (N.eqb Json.BACKSLASH Json.BACKSLASH) with true. cbv iota.
  destruct (closing Inside (S depth) tail); reflexivity.
Qed.

Lemma passes_open_quote : passes Outside Inside [Json.QUOTE].
Proof. intros depth tail. reflexivity. Qed.

Lemma passes_close_quote : passes Inside Outside [Json.QUOTE].
Proof. intros depth tail. reflexivity. Qed.

Lemma passes_object (b : pystr) :
  passes Outside Outside b -> passes Outside Outside (LBRACE :: b ++ [RBRACE]).
Proof.
  intros Hb depth tail. cbn [app closing].
  change (N.eqb LBRACE Json.QUOTE) with false.
  change (N.eqb LBRACE LBRACE) with true. cbv iota.
  rewrite <- app_assoc, Hb. cbn [app closing].
  change (N.eqb RBRACE Json.QUOTE) with false.
  change (N.eqb RBRACE LBRACE) with false.
  change (N.eqb RBRACE RBRACE) with true. cbv iota.
  destruct (closing Outside (S depth) tail) as [x|]; simpl; [|reflexivity].
  rewrite <- app_assoc. reflexivity.
Qed.

Lemma closing_object (b tail : pystr) :
  passes Outside Outside b -> closing Outside 1 (b ++ RBRACE :: tail) = Some (b ++ [RBRACE]).
Proof.
  intros Hb. rewrite Hb. reflexivity.
Qed.

Lemma reads_refl (m : lexing) (s : pystr) : reads m m s s.
Proof. exists []. split; [reflexivity|apply passes_nil]. Qed.

Lemma reads_trans (a b c : lexing) (s t r : pystr) :
  reads a b s t -> reads b c t r -> reads a c s r.
Proof.
  intros (p & -> & Hp) (q & -> & Hq). exists (p ++ q).
  split; [rewrite app_assoc; reflexivity|exact (passes_app a b c p q Hp Hq)].
Qed.

Lemma reads_step (a b : lexing) (x : char) (s r : pystr) :
  passes a a [x] -> reads a b s r -> reads a b (x :: s) r.
Proof.
  intros Hx (q & -> & Hq). exists (x :: q). split; [reflexivity|].
  exact (passes_cons a b x q Hx Hq).
Qed.

Lemma reads_skip_ws (s : pystr) : reads Outside Outside s (Json.skip_ws s).
Proof.
  induction s as [|c s IH]; [apply reads_refl|].
  cbn [Json.skip_ws]. destruct (Json.is_json_space c) eqn:E; [|apply reads_refl].
  apply reads_step; [|exact IH].
  apply passes_plain; intros ->; discriminate.
Qed.

Lemma reads_prefix (p s : pystr) :
  forallb (fun c => negb (N.eqb c Json.QUOTE || N.eqb c LBRACE || N.eqb c RBRACE)) p = true ->
  reads Outside Outside (p ++ s) s.
Proof.
  intros H. exists p. split; [reflexivity|apply passes_plain_text; exact H].
Qed.

Lemma reads_keyword (word : string) (v v' : JSON) (s rest : pystr) :
  forallb (fun c => negb (N.eqb c Json.QUOTE || N.eqb c LBRACE || N.eqb c RBRACE)) (py word)
  = true ->
  Json.keyword word v s = Some (v', rest) -> reads Outside Outside s rest.
Proof.
  intros Hw. unfold Json.keyword.
  destruct (startswith (py word) s) eqn:E; [|discriminate].
  intros H. injection H as _ <-.
  apply startswith_skipn in E. rewrite E at 1. apply reads_prefix. exact Hw.
Qed.

Lemma hex_value_in_string (c : char) (x : N) :
  Json.hex_value c = Some x -> passes Inside Inside [c].
Proof.
  intros H. apply passes_in_string; intros ->; vm_compute in H; discriminate.
Qed.

Lemma reads_hex4 (s rest : pystr) (u : N) :
  Json.hex4 s = Some (u, rest) -> reads Inside Inside s rest.
Proof.
  unfold Json.hex4.
  destruct s as [|a [|b [|c [|d s]]]]; try discriminate.
  destruct (Json.hex_value a) as [x|] eqn:Ea; [|discriminate].
  destruct (Json.hex_value b) as [y|] eqn:Eb; [|discriminate].
  destruct (Json.hex_value c) as [z|] eqn:Ec; [|discriminate].
  destruct (Json.hex_value d) as [w|] eqn:Ed; [|discriminate].
  intros H. injection H as _ <-.
  apply reads_step; [exact (hex_value_in_string a x Ea)|].
  apply reads_step; [exact (hex_value_in_string b y Eb)|].
  apply reads_step; [exact (hex_value_in_string c z Ec)|].
  apply reads_step; [exact (hex_value_in_string d w Ed)|].
  apply reads_refl.
Qed.

Lemma reads_escape (e : char) (s r : pystr) :
  reads Inside Outside s r -> reads Inside Outside (Json.BACKSLASH :: e :: s) r.
Proof.
  intros (q & -> & Hq). exists (Json.BACKSLASH :: e :: q). split; [reflexivity|].
  exact (passes_app Inside Inside Outside [Json.BACKSLASH; e] q (passes_escape e) Hq).
Qed.

(** A string literal is read to its closing quote. *)
Lemma reads_scan_string (fuel : nat) :
  forall start s acc str rest,
    Json.scan_string fuel start s acc = inl (str, rest) -> reads Inside Outside s rest.
Proof.
  induction fuel as [|fuel IH]; intros start s acc str rest; [discriminate|].
  cbn [Json.scan_string].
  destruct s as [|c s1]; [discriminate|].
  destruct (N.eqb_spec c Json.QUOTE) as [->|Hq].
  { intros H. injection H as _ <-.
    exists [Json.QUOTE]. split; [reflexivity|apply passes_close_quote]. }
  destruct (N.eqb_spec c Json.BACKSLASH) as [->|Hb].
  { destruct s1 as [|e s2]; [discriminate|].
    destruct (N.eqb_spec e 117) as [->|He].
    - destruct (Json.hex4 s2) as [[u after]|] eqn:Eh; [|discriminate].
      pose proof (reads_hex4 s2 after u Eh) as Hh.
      assert (Halone : forall acc',
                Json.scan_string fuel start after acc' = inl (str, rest) ->
                reads Inside Outside (Json.BACKSLASH :: 117%N :: s2) rest).
      { intros acc' H. apply reads_escape.
        exact (reads_trans Inside Inside Outside s2 after rest Hh (IH _ _ _ _ _ H)). }
      destruct (Json.is_high_surrogate u); [|apply Halone].
      destruct after as [|b [|v after']]; try apply Halone.
      destruct (N.eqb_spec b Json.BACKSLASH) as [->|Hbb]; [|apply Halone].
      destruct (N.eqb_spec v 117) as [->|Hv]; [|apply Halone].
      cbn [andb].
      destruct (Json.hex4 after') as [[u2 after2]|] eqn:Eh2; [|apply Halone].
      destruct (Json.is_low_surrogate u2); [|apply Halone].
      intros H. apply reads_escape.
      apply (reads_trans Inside Inside Outside s2 _ rest Hh).
      apply reads_escape.
      exact (reads_trans Inside Inside Outside after' after2 rest
               (reads_hex4 after' after2 u2 Eh2) (IH _ _ _ _ _ H)).
    - destruct (Json.simple_escape e) as [x|]; [|discriminate].
      intros H. apply reads_escape. exact (IH _ _ _ _ _ H). }
  destruct (c <? 32)%N; [discriminate|].
  intros H. apply reads_step; [exact (passes_in_string c Hq Hb)|].
  exact (IH _ _ _ _ _ H).
Qed.

Lemma reads_string (s after : pystr) (fuel : nat) (start acc str : pystr) :
  Json.scan_string fuel start s acc = inl (str, after) ->
  reads Outside Outside (Json.QUOTE :: s) after.
Proof.
  intros H. destruct (reads_scan_string fuel start s acc str after H) as (q & -> & Hq).
  exists (Json.QUOTE :: q). split; [reflexivity|].
  exact (passes_app Outside Inside Outside [Json.QUOTE] q passes_open_quote Hq).
Qed.

(** ** What the decoder reads *)

Lemma reads_digit (c : char) : Json.is_digit c = true -> passes Outside Outside [c].
Proof.
  intros H. apply passes_plain; intros ->; vm_compute in H; discriminate.
Qed.

Lemma reads_take_digits (s d r : pystr) :
  Json.take_digits s = (d, r) -> reads Outside Outside s r.
Proof.
  revert d r. induction s as [|c s IH]; intros d r; cbn [Json.take_digits].
  - intros H. injection H as _ <-. apply reads_refl.
  - destruct (Json.is_digit c) eqn:E.
    + destruct (Json.take_digits s) as [d' r'] eqn:Et.
      intros H. injection H as _ <-.
      apply reads_step; [exact (reads_digit c E)|]. exact (IH d' r' eq_refl).
    + intros H. injection H as _ <-. apply reads_refl.
Qed.

Lemma reads_sign (s s1 : pystr) (negative : bool) :
  match s with
  | [] => (false, s)
  | c :: s' => if N.eqb c 45 then (true, s') else (false, s)
  end = (negative, s1) ->
  reads Outside Outside s s1.
Proof.
  destruct s as [|c s']; [intros H; injection H as _ <-; apply reads_refl|].
  destruct (N.eqb_spec c 45) as [->|_]; intros H; injection H as _ <-;
    [|apply reads_refl].
  apply reads_step; [apply passes_plain; discriminate|apply reads_refl].
Qed.

Lemma reads_exponent_sign (s4 s5 : pystr) (minus : bool) :
  match s4 with
  | [] => (false, s4)
  | c :: s' =>
      if N.eqb c 45 then (true, s')
      else if N.eqb c 43 then (false, s') else (false, s4)
  end = (minus, s5) ->
  reads Outside Outside s4 s5.
Proof.
  destruct s4 as [|c s']; [intros H; injection H as _ <-; apply reads_refl|].
  destruct (N.eqb_spec c 45) as [->|_].
  { intros H; injection H as _ <-.
    apply reads_step; [apply passes_plain; discriminate|apply reads_refl]. }
  destruct (N.eqb_spec c 43) as [->|_]; intros H; injection H as _ <-;
    [|apply reads_refl].
  apply reads_step; [apply passes_plain; discriminate|apply reads_refl].
Qed.

Lemma reads_scan_number (s rest : pystr) (r : result JSON) :
  Json.scan_number s = Some (r, rest) -> reads Outside Outside s rest.
Proof.
  unfold Json.scan_number.
  match goal with
  | |- context [match ?X with (negative, s1) => _ end] =>
      destruct X as [negative s1] eqn:E1
  end.
  apply reads_sign in E1.
  match goal with
  | |- context [match ?X with Some _ => _ | None => _ end] =>
      destruct X as [[int_digits s2]|] eqn:E2; [|discriminate]
  end.
  assert (R2 : reads Outside Outside s1 s2).
  { destruct s1 as [|c s']; [discriminate|].
    destruct (N.eqb_spec c 48) as [->|_].
    - injection E2 as _ <-.
      apply reads_step; [apply passes_plain; discriminate|apply reads_refl].
    - destruct (Json.is_digit c) eqn:Ed; [|discriminate].
      assert (E : Json.take_digits (c :: s') = (int_digits, s2)) by congruence.
      exact (reads_take_digits _ _ _ E). }
  clear E2.
  match goal with
  | |- context [match ?X with (frac_digits, s3) => _ end] =>
      destruct X as [frac_digits s3] eqn:E3
  end.
  assert (R3 : reads Outside Outside s2 s3).
  { destruct s2 as [|dot [|d s2']];
      try (injection E3 as _ <-; apply reads_refl).
    destruct (N.eqb_spec dot 46) as [->|_]; cbn [andb] in E3;
      [|injection E3 as _ <-; apply reads_refl].
    destruct (Json.is_digit d); [|injection E3 as _ <-; apply reads_refl].
    cbn [tl] in E3.
    apply reads_step; [apply passes_plain; discriminate|].
    exact (reads_take_digits _ _ _ E3). }
  clear E3.
  pose proof (reads_trans _ _ _ _ _ _ E1 (reads_trans _ _ _ _ _ _ R2 R3)) as R.
  clear E1 R2 R3.
  match goal with
  | |- context [match ?X with Some _ => _ | None => _ end] =>
      destruct X as [[e rest']|] eqn:E4
  end.
  - assert (R4 : reads Outside Outside s3 rest').
    { destruct s3 as [|e0 s4]; [discriminate|].
      destruct (N.eqb e0 101 || N.eqb e0 69) eqn:Ee; [|discriminate].
      destruct (match s4 with [] => _ | _ :: _ => _ end) as [minus s5] eqn:E5.
      apply reads_exponent_sign in E5.
      destruct (Json.take_digits s5) as [d rest0] eqn:E6.
      destruct d as [|d0 d]; [discriminate|]. injection E4 as _ <-.
      apply reads_step.
      - apply orb_true_iff in Ee as [Ee|Ee]; apply N.eqb_eq in Ee; subst e0;
          apply passes_plain; discriminate.
      - exact (reads_trans _ _ _ _ _ _ E5 (reads_take_digits _ _ _ E6)). }
    destruct (negb _); intros H; injection H as _ <-;
      exact (reads_trans _ _ _ _ _ _ R R4).
  - destruct (negb _).
    + intros H; injection H as _ <-. exact R.
    + destruct (Nat.ltb _ _); intros H; injection H as _ <-; exact R.
Qed.

Lemma reads_after_space (s1 s2 : pystr) (x : char) :
  Json.skip_ws s1 = x :: s2 -> passes Outside Outside [x] ->
  reads Outside Outside s1 s2.
Proof.
  intros E Hx. apply (reads_trans _ _ _ s1 (Json.skip_ws s1) s2 (reads_skip_ws s1)).
  rewrite E. apply reads_step; [exact Hx|apply reads_refl].
Qed.

Lemma reads_to_space (s1 t : pystr) :
  reads Outside Outside (Json.skip_ws s1) t -> reads Outside Outside s1 t.
Proof.
  exact (reads_trans _ _ _ s1 (Json.skip_ws s1) t (reads_skip_ws s1)).
Qed.

Lemma passes_colon : passes Outside Outside [58%N].
Proof. apply passes_plain; discriminate. Qed.

Lemma passes_comma : passes Outside Outside [44%N].
Proof. apply passes_plain; discriminate. Qed.

Lemma passes_lbracket : passes Outside Outside [91%N].
Proof. apply passes_plain; discriminate. Qed.

Lemma passes_rbracket : passes Outside Outside [93%N].
Proof. apply passes_plain; discriminate. Qed.

(** What the decoder reads as a value is a text the scan goes through;
    the members of an object are read up to its closing brace, the items
    of an array up to its closing bracket. *)
Lemma reads_value (fuel : nat) :
  (forall s v rest,
     Json.scan_once fuel s = Json.Value v rest ->
     reads Outside Outside s rest /\
     (forall s', s = LBRACE :: s' -> reads Outside Outside s' (RBRACE :: rest)))
  /\ (forall s acc v rest,
        Json.scan_members fuel s acc = Json.Value v rest ->
        reads Outside Outside s (RBRACE :: rest))
  /\ (forall s acc v rest,
        Json.scan_items fuel s acc = Json.Value v rest ->
        reads Outside Outside s (93%N :: rest)).
Proof.
  induction fuel as [|fuel (IH1 & IH2 & IH3)];
    [repeat split; intros; discriminate|].
  split; [|split].
  - (* scan_once *)
    intros s v rest. cbn [Json.scan_once].
    destruct s as [|c rest0]; [discriminate|].
    destruct (N.eqb_spec c Json.QUOTE) as [->|Hq].
    { destruct (Json.scan_string _ _ rest0 []) as [[str after]|[message suffix]] eqn:Es;
        [|discriminate].
      intros H. injection H as _ <-. split.
      - exact (reads_string rest0 after _ _ _ _ Es).
      - intros s' H. discriminate. }
    destruct (N.eqb_spec c LBRACE) as [->|Hl].
    { intros H.
      assert (Hm : reads Outside Outside rest0 (RBRACE :: rest)).
      { apply reads_to_space.
        destruct (Json.skip_ws rest0) as [|c' after'] eqn:Ew.
        - exact (IH2 _ _ _ _ H).
        - destruct (N.eqb_spec c' RBRACE) as [->|_].
          + injection H as _ <-. apply reads_refl.
          + exact (IH2 _ _ _ _ H). }
      split.
      - destruct Hm as (b & -> & Hb). exists (LBRACE :: b ++ [RBRACE]). split.
        + cbn [app]. rewrite <- app_assoc. reflexivity.
        + exact (passes_object b Hb).
      - intros s' E. injection E as <-. exact Hm. }
    assert (Honly : reads Outside Outside (c :: rest0) rest ->
            reads Outside Outside (c :: rest0) rest /\
            (forall s', c :: rest0 = LBRACE :: s' ->
                        reads Outside Outside s' (RBRACE :: rest))).
    { intros H. split; [exact H|]. intros s' E. injection E as E _. contradiction. }
    destruct (N.eqb_spec c 91) as [->|Hb].
    { intros H. apply Honly.
      assert (Hm : reads Outside Outside rest0 (93%N :: rest)).
      { apply reads_to_space.
        destruct (Json.skip_ws rest0) as [|c' after'] eqn:Ew.
        - exact (IH3 _ _ _ _ H).
        - destruct (N.eqb_spec c' 93) as [->|_].
          + injection H as _ <-. apply reads_refl.
          + exact (IH3 _ _ _ _ H). }
      apply reads_step; [exact passes_lbracket|].
      apply (reads_trans _ _ _ _ _ _ Hm).
      apply reads_step; [exact passes_rbracket|apply reads_refl]. }
    destruct (Json.keyword "null" JNull (c :: rest0)) as [[v1 a1]|] eqn:K1.
    { intros H. injection H as _ <-. apply Honly.
      exact (reads_keyword "null" _ _ _ _ eq_refl K1). }
    destruct (Json.keyword "true" (JBool true) (c :: rest0)) as [[v2 a2]|] eqn:K2.
    { intros H. injection H as _ <-. apply Honly.
      exact (reads_keyword "true" _ _ _ _ eq_refl K2). }
    destruct (Json.keyword "false" (JBool false) (c :: rest0)) as [[v3 a3]|] eqn:K3.
    { intros H. injection H as _ <-. apply Honly.
      exact (reads_keyword "false" _ _ _ _ eq_refl K3). }
    destruct (Json.scan_number (c :: rest0)) as [[[v4|e4] a4]|] eqn:K4.
    { intros H. injection H as _ <-. apply Honly.
      exact (reads_scan_number _ _ _ K4). }
    { discriminate. }
    destruct (Json.keyword "NaN" (JFloat S754_nan) (c :: rest0)) as [[v5 a5]|] eqn:K5.
    { intros H. injection H as _ <-. apply Honly.
      exact (reads_keyword "NaN" _ _ _ _ eq_refl K5). }
    destruct (Json.keyword "Infinity" (JFloat (S754_infinity false)) (c :: rest0))
      as [[v6 a6]|] eqn:K6.
    { intros H. injection H as _ <-. apply Honly.
      exact (reads_keyword "Infinity" _ _ _ _ eq_refl K6). }
    destruct (Json.keyword "-Infinity" (JFloat (S754_infinity true)) (c :: rest0))
      as [[v7 a7]|] eqn:K7; [|discriminate].
    intros H. injection H as _ <-. apply Honly.
    exact (reads_keyword "-Infinity" _ _ _ _ eq_refl K7).
  - (* scan_members *)
    intros s acc v rest. cbn [Json.scan_members].
    destruct s as [|c rest0]; [discriminate|].
    destruct (N.eqb_spec c Json.QUOTE) as [->|_]; [|discriminate].
    destruct (Json.scan_string _ _ rest0 []) as [[key after_key]|[message suffix]] eqn:Es;
      [|discriminate].
    pose proof (reads_string rest0 after_key _ _ _ _ Es) as Rkey.
    destruct (Json.skip_ws after_key) as [|colon after_colon] eqn:Ec; [discriminate|].
    destruct (N.eqb_spec colon 58) as [->|_]; [|discriminate].
    pose proof (reads_after_space _ _ _ Ec passes_colon) as Rcolon.
    destruct (Json.scan_once fuel (Json.skip_ws after_colon))
      as [x after_value|message suffix|e] eqn:Ev; [|discriminate|discriminate].
    pose proof (reads_to_space _ _ (proj1 (IH1 _ _ _ Ev))) as Rvalue.
    pose proof (reads_trans _ _ _ _ _ _ Rkey
                  (reads_trans _ _ _ _ _ _ Rcolon Rvalue)) as R.
    destruct (Json.skip_ws after_value) as [|d after_d] eqn:Ed; [discriminate|].
    destruct (N.eqb_spec d RBRACE) as [->|_].
    { intros H. injection H as _ <-.
      apply (reads_trans _ _ _ _ _ _ R). apply reads_to_space.
      rewrite Ed. apply reads_refl. }
    destruct (N.eqb_spec d 44) as [->|_]; [|discriminate].
    intros H. apply (reads_trans _ _ _ _ _ _ R).
    apply (reads_trans _ _ _ _ _ _ (reads_after_space _ _ _ Ed passes_comma)).
    apply reads_to_space. exact (IH2 _ _ _ _ H).
  - (* scan_items *)
    intros s acc v rest. cbn [Json.scan_items].
    destruct (Json.scan_once fuel s) as [x after_value|message suffix|e] eqn:Ev;
      [|discriminate|discriminate].
    pose proof (proj1 (IH1 _ _ _ Ev)) as R.
    destruct (Json.skip_ws after_value) as [|d after_d] eqn:Ed; [discriminate|].
    destruct (N.eqb_spec d 93) as [->|_].
    { intros H. injection H as _ <-.
      apply (reads_trans _ _ _ _ _ _ R). apply reads_to_space.
      rewrite Ed. apply reads_refl. }
    destruct (N.eqb_spec d 44) as [->|_]; [|discriminate].
    intros H. apply (reads_trans _ _ _ _ _ _ R).
    apply (reads_trans _ _ _ _ _ _ (reads_after_space _ _ _ Ed passes_comma)).
    apply reads_to_space. exact (IH3 _ _ _ _ H).
Qed.

Lemma closing_extend (s post : pystr) :
  forall m depth p, closing m depth s = Some p -> closing m depth (s ++ post) = Some p.
Proof.
  induction s as [|c s IH]; intros m depth p; [discriminate|].
  assert (Hmap : forall m' d',
            option_map (cons c) (closing m' d' s) = Some p ->
            option_map (cons c) (closing m' d' (s ++ post)) = Some p).
  { intros m' d' H. destruct (closing m' d' s) as [q|] eqn:E; [|discriminate].
    rewrite (IH m' d' q E). exact H. }
  cbn [app closing]. destruct m.
  - destruct (N.eqb c Json.QUOTE); [apply Hmap|].
    destruct (N.eqb c LBRACE); [apply Hmap|].
    destruct (N.eqb c RBRACE); [|apply Hmap].
    destruct depth as [|[|d]]; [discriminate|intros H; exact H|apply Hmap].
  - destruct (N.eqb c Json.QUOTE); [apply Hmap|].
    destruct (N.eqb c Json.BACKSLASH); apply Hmap.
  - apply Hmap.
Qed.

Lemma first_balanced_skip (pre s : pystr) :
  ~ In LBRACE pre -> first_balanced (pre ++ s) = first_balanced s.
Proof.
  induction pre as [|c pre IH]; intros H; [reflexivity|].
  cbn [app first_balanced].
  destruct (N.eqb_spec c LBRACE) as [->|_]; [exfalso; apply H; left; reflexivity|].
  apply IH. intros Hin. apply H. right. exact Hin.
Qed.

(** A balanced span is the first balanced substring of any text in
    which no opening brace comes before it. *)
Lemma first_balanced_found (pre span post : pystr) :
  balanced span -> ~ In LBRACE pre -> first_balanced (pre ++ span ++ post) = Some span.
Proof.
  intros (body & -> & Hb) Hpre. rewrite first_balanced_skip by exact Hpre.
  cbn [app first_balanced]. rewrite N.eqb_refl.
  rewrite (closing_extend body post Outside 1 body Hb). reflexivity.
Qed.

Lemma skip_ws_nil (s : pystr) :
  Json.skip_ws s = [] -> Forall (fun c => Json.is_json_space c = true) s.
Proof.
  induction s as [|c s IH]; [intros _; apply Forall_nil|].
  cbn [Json.skip_ws]. destruct (Json.is_json_space c) eqn:E; [|discriminate].
  intros H. apply Forall_cons; [exact E|exact (IH H)].
Qed.

Lemma loads_reads (s : pystr) (v : JSON) :
  Json.loads (LBRACE :: s) = Ok v ->
  exists rest, reads Outside Outside s (RBRACE :: rest) /\ Json.skip_ws rest = [].
Proof.
  unfold Json.loads.
  change (Json.skip_ws (LBRACE :: s)) with (LBRACE :: s).
  generalize (2 * List.length (LBRACE :: s) + 2)%nat. intros fuel.
  cbv beta iota delta [LBRACE].
  fold LBRACE.
  destruct (Json.scan_once fuel (LBRACE :: s)) as [x rest|message suffix|e] eqn:E;
    [|discriminate|discriminate].
  destruct (Json.skip_ws rest) eqn:Ew; [|discriminate].
  intros _. exists rest. split; [|exact Ew].
  exact (proj2 (proj1 (reads_value fuel) _ _ _ E) s eq_refl).
Qed.

(** The decoder accepts a brace span only when it is balanced. *)
Lemma loads_balanced (span : pystr) (v : JSON) :
  brace_span span -> Json.loads span = Ok v -> balanced span.
Proof.
  intros (body & ->) H.
  destruct (loads_reads _ _ H) as (rest & (b & E & Hb) & Hrest).
  assert (Hnil : rest = []).
  { destruct rest as [|r0 rest0]; [reflexivity|]. exfalso.
    destruct (@exists_last _ (r0 :: rest0)) as (rest' & x & Ex); [discriminate|].
    rewrite Ex in E, Hrest.
    replace (b ++ RBRACE :: rest' ++ [x]) with ((b ++ RBRACE :: rest') ++ [x]) in E
      by (rewrite <- app_assoc; reflexivity).
    apply app_inj_tail in E as (_ & Ex').
    apply skip_ws_nil in Hrest. rewrite Forall_forall in Hrest.
    assert (Hx : Json.is_json_space x = true)
      by (apply Hrest; apply in_or_app; right; left; reflexivity).
    subst x. discriminate. }
  subst rest. exists (body ++ [RBRACE]). split; [reflexivity|].
  rewrite E at 1. rewrite E. exact (closing_object b [] Hb).
Qed.

Section Payload.

Context {P : Python}.

(** C7. The balanced substring is read as a reader of JSON matches
    braces, those inside string literals not counting; and the decoder
    is one that accepts a brace span only when it is balanced, as that
    of the standard library does.  When scan_food (or diet_plan) answers
    200 with a payload, the payload is the parse of the first balanced
    substring of the fence-stripped text, with or without the whitespace
    around it;
    and what lies outside that substring plays no part: in any text
    that has no opening brace before it and no closing brace after it,
    the substring is again the first balanced one and the span that the
    route finds. *)
Theorem extraction_payload text payload :
  (forall span v, brace_span span -> json_loads span = Ok v -> balanced span) ->
  scan_food_extract (JStr text) = Ok (payload, 200%Z)
  \/ diet_plan_extract (JStr text) = Ok (payload, 200%Z) ->
  exists unfenced span,
    fences_removed text unfenced
    /\ clean_text text = strip unfenced
    /\ first_balanced unfenced = Some span
    /\ first_balanced (clean_text text) = Some span
    /\ json_loads span = Ok payload
    /\ (forall pre post,
          ~ In LBRACE pre -> ~ In RBRACE post ->
          first_balanced (pre ++ span ++ post) = Some span /\
          re_search_braces (pre ++ span ++ post) = Some span).
Proof.
  intros Hloads H.
  assert (Hfound : exists span,
            re_search_braces (clean_text text) = Some span /\
            json_loads span = Ok payload).
  { destruct H as [H|H].
    - apply scan_food_extract_success. exact H.
    - apply diet_plan_extract_success. exact H. }
  destruct Hfound as (span & Hs & Hj).
  apply re_search_braces_sound in Hs.
  pose proof (proj1 (first_to_last_strip (re_sub_fences text) span) Hs) as Hu.
  destruct Hs as (pre & post & Hc & Hspan & Hpre & Hpost).
  destruct Hu as (pre' & post' & Hc' & _ & Hpre' & _).
  pose proof (Hloads span payload Hspan Hj) as Hb.
  exists (re_sub_fences text), span.
  split; [apply re_sub_fences_removed|]. split; [reflexivity|].
  split; [rewrite Hc'; exact (first_balanced_found pre' span post' Hb Hpre')|].
  split; [rewrite Hc; exact (first_balanced_found pre span post Hb Hpre)|].
  split; [exact Hj|].
  intros pre0 post0 Hpre0 Hpost0. split.
  - exact (first_balanced_found pre0 span post0 Hb Hpre0).
  - exact (re_search_braces_complete pre0 span post0 Hspan Hpre0 Hpost0).
Qed.

End Payload.

(** ** The span and the payload on concrete replies *)

Section SpanRuns.

Import Samples.

(** A fence marker is removed wherever it stands, inside a string
    literal too. *)
Example fence_inside_string :
  scan_food_extract (JStr (js "{'a': '```json x'}")) = Ok (JObj [(py "a", JStr (py "x"))], 200%Z).
Proof. vm_compute. reflexivity. Qed.

Lemma extraction_span_witness :
  scan_food_extract (JStr (fenced (js "{'a': 1}"))) = Ok (JObj [(py "a", JInt 1)], 200%Z)
  /\ exists unfenced span,
       fences_removed (fenced (js "{'a': 1}")) unfenced /\
       first_to_last unfenced span /\
       json_loads span = Ok (JObj [(py "a", JInt 1)]).
Proof.
  assert (E : scan_food_extract (JStr (fenced (js "{'a': 1}")))
              = Ok (JObj [(py "a", JInt 1)], 200%Z)) by (vm_compute; reflexivity).
  split; [exact E|].
  destruct (extraction_span (fenced (js "{'a': 1}")))
    as (unfenced & Hf & _ & _ & _ & Hscan & _).
  destruct (proj1 (Hscan _) E) as (span & Hspan & Hj).
  exists unfenced, span. repeat split; assumption.
Defined.

(** The reply whose object holds a closing brace inside a string: the
    payload is the parse of the whole object. *)
Lemma extraction_payload_witness :
  (forall span v, brace_span span -> json_loads span = Ok v -> balanced span)
  /\ scan_food_extract (JStr (js "{'a':'}'}")) = Ok (JObj [(py "a", JStr (py "}"))], 200%Z)
  /\ exists unfenced span,
       fences_removed (js "{'a':'}'}") unfenced /\
       first_balanced unfenced = Some span /\
       json_loads span = Ok (JObj [(py "a", JStr (py "}"))]).
Proof.
  assert (E : scan_food_extract (JStr (js "{'a':'}'}"))
              = Ok (JObj [(py "a", JStr (py "}"))], 200%Z)) by (vm_compute; reflexivity).
  split; [exact loads_balanced|]. split; [exact E|].
  destruct (@extraction_payload CPython (js "{'a':'}'}") _ loads_balanced (or_introl E))
    as (unfenced & span & Hf & _ & Hb & _ & Hj & _).
  exists unfenced, span. repeat split; assumption.
Defined.

End SpanRuns.

(** * Further properties *)

(** ** Cleaning *)

Section Cleaning.

Context {P : Python}.

(** X1. A reply without a backtick goes through the fence removal
    unchanged: the text searched for a span is the reply stripped of the
    whitespace around it. *)
Theorem clean_text_without_backtick (text : pystr) :
  ~ In BACKTICK text ->
  re_sub_fences text = text /\ clean_text text = strip text.
Proof.
  intros H. unfold clean_text, re_sub_fences.
  rewrite remove_fences_clear by exact H. split; reflexivity.
Qed.

(** X2. A reply that is a fenced block, the opening fence with or
    without the json tag, whitespace, a text without backticks,
    whitespace and the closing fence, is cleaned to that text stripped of
    the whitespace around it. *)
Theorem clean_text_fenced (w1 inner w2 : pystr) :
  blank w1 -> blank w2 -> ~ In BACKTICK inner ->
  clean_text (JSON_FENCE ++ w1 ++ inner ++ w2 ++ FENCE) = strip inner
  /\ (w1 <> [] -> clean_text (FENCE ++ w1 ++ inner ++ w2 ++ FENCE) = strip inner).
Proof.
  intros H1 H2 Hi.
  pose proof (blank_around_no_backtick w1 inner w2 H1 H2 Hi) as Hu.
  assert (Ha : w1 ++ inner ++ w2 ++ FENCE = (w1 ++ inner ++ w2) ++ FENCE)
    by (rewrite <- !app_assoc; reflexivity).
  unfold clean_text, re_sub_fences. rewrite Ha. split.
  - rewrite remove_fences_json_fence, lstrip_before_fence.
    rewrite remove_fences_before_fence
      by (intros Hin; apply Hu; apply in_lstrip; exact Hin).
    fold (strip (w1 ++ inner ++ w2)).
    rewrite strip_idempotent. apply strip_blank_around; assumption.
  - intros Hw. destruct w1 as [|c w1]; [contradiction|].
    assert (Hc : isspace c = true) by (inversion H1; assumption).
    change (FENCE ++ ((c :: w1) ++ inner ++ w2) ++ FENCE)
      with (BACKTICK :: BACKTICK :: BACKTICK :: c :: (w1 ++ inner ++ w2) ++ FENCE).
    rewrite remove_fences_unfold.
    assert (Hm : fence_match
                   (BACKTICK :: BACKTICK :: BACKTICK :: c :: (w1 ++ inner ++ w2) ++ FENCE)
                 = Some 3%nat).
    { unfold fence_match.
      change (py "```json") with (BACKTICK :: BACKTICK :: BACKTICK :: py "json").
      cbn [startswith]. rewrite !N.eqb_refl. cbn [andb].
      change (py "json") with (106%N :: py "son"). cbn [startswith].
      destruct (N.eqb_spec 106 c) as [Ej|_]; [|reflexivity].
      rewrite <- Ej in Hc. discriminate. }
    rewrite Hm. rewrite remove_fences_skip. cbn [skipn].
    change (c :: (w1 ++ inner ++ w2) ++ FENCE)
      with (((c :: w1) ++ inner ++ w2) ++ FENCE).
    rewrite remove_fences_before_fence by exact Hu.
    rewrite strip_rstrip. apply strip_blank_around; assumption.
Qed.

End Cleaning.

(** ** More on the span *)

(** X3. Greedy over-capture: when the cleaned text holds two brace
    spans, the span found runs from the start of the first to the end
    of the second, the text between them included. *)
Theorem re_search_braces_over_capture (pre o1 mid o2 post : pystr) :
  brace_span o1 -> brace_span o2 ->
  ~ In LBRACE pre -> ~ In RBRACE post ->
  re_search_braces (pre ++ o1 ++ mid ++ o2 ++ post) = Some (o1 ++ mid ++ o2).
Proof.
  intros (b1 & ->) (b2 & ->) Hpre Hpost.
  replace (pre ++ (LBRACE :: b1 ++ [RBRACE]) ++ mid ++ (LBRACE :: b2 ++ [RBRACE]) ++ post)
    with (pre ++ ((LBRACE :: b1 ++ [RBRACE]) ++ mid ++ (LBRACE :: b2 ++ [RBRACE])) ++ post)
    by (rewrite <- !app_assoc; reflexivity).
  apply re_search_braces_complete; try assumption.
  exists (b1 ++ [RBRACE] ++ mid ++ LBRACE :: b2).
  cbn [app]. f_equal. repeat (rewrite <- app_assoc; cbn [app]). reflexivity.
Qed.

(** X4. No span is found exactly when no opening brace of the text has
    a closing brace anywhere after it. *)
Theorem re_search_braces_none (s : pystr) :
  re_search_braces s = None <->
  (forall pre post, s = pre ++ LBRACE :: post -> ~ In RBRACE post).
Proof.
  induction s as [|c s IH].
  - split; [|reflexivity]. intros _ pre post H. destruct pre; discriminate.
  - rewrite re_search_braces_unfold. split.
    + destruct (match_braces (c :: s)) as [m|] eqn:E; [discriminate|].
      intros H pre post Hs. destruct pre as [|c' pre].
      * simpl in Hs. injection Hs as -> ->.
        cbn [match_braces] in E. rewrite N.eqb_refl in E.
        destruct (upto_last_rbrace post) eqn:Eu; [discriminate|].
        apply upto_last_rbrace_none. exact Eu.
      * simpl in Hs. injection Hs as _ ->.
        apply (proj1 IH H pre post). reflexivity.
    + intros H.
      assert (E : match_braces (c :: s) = None).
      { cbn [match_braces]. destruct (N.eqb_spec c LBRACE) as [->|_]; [|reflexivity].
        replace (upto_last_rbrace s) with (@None pystr); [reflexivity|].
        symmetry. apply upto_last_rbrace_none. apply (H [] s). reflexivity. }
      rewrite E. apply IH. intros pre post ->.
      apply (H (c :: pre) post). reflexivity.
Qed.

(** ** More on the invoker *)

Section MoreInvoker.

Context {P : Python}.
Variable GOOGLE_API_KEY : pystr.

Lemma attempt_break model posted e :
  attempt model posted = Break e ->
  exists r, posted = Ok r /\ (status_code r = 400%Z \/ status_code r = 403%Z).
Proof.
  unfold attempt. destruct posted as [r|x]; [|discriminate].
  destruct (Z.eqb_spec (status_code r) 200).
  - destruct (json r); discriminate.
  - destruct (error_data r); [|discriminate].
    destruct (Z.eqb_spec (status_code r) 400) as [H4|_].
    + intros _. exists r. auto.
    + destruct (Z.eqb_spec (status_code r) 403) as [H3|_];
        [|cbn [orb]; discriminate].
      intros _. exists r. auto.
Qed.

Lemma attempt_transient model posted :
  transient posted -> exists e, attempt model posted = Continue e.
Proof.
  unfold transient, attempt. destruct posted as [r|x]; [|eauto].
  intros (H2 & H4 & H3).
  destruct (Z.eqb_spec (status_code r) 200); [contradiction|].
  destruct (error_data r); [|eauto].
  destruct (Z.eqb_spec (status_code r) 400); [contradiction|].
  destruct (Z.eqb_spec (status_code r) 403); [contradiction|].
  cbn [orb]. eauto.
Qed.

Lemma error_data_readable r :
  is_application_json (content_type r) = false \/ (exists v, json r = Ok v) ->
  exists data, error_data r = Ok data.
Proof.
  unfold error_data. intros [H|(v & H)].
  - rewrite H. eauto.
  - rewrite H. destruct (is_application_json _); cbn [bind]; eauto.
Qed.

Lemma posted_to_length net n :
  (n <= List.length (get_supported_models GOOGLE_API_KEY net))%nat ->
  List.length (posted_to GOOGLE_API_KEY net n) = n.
Proof.
  intros H. unfold posted_to. rewrite length_map, length_firstn. lia.
Qed.

Lemma pass_some_bound net payload timeout n f :
  pass GOOGLE_API_KEY net payload timeout n = Some f ->
  (S n <= List.length (get_supported_models GOOGLE_API_KEY net))%nat.
Proof.
  unfold pass, pass_from.
  destruct (nth_error (get_supported_models GOOGLE_API_KEY net) n) eqn:E; [|discriminate].
  intros _.
  assert (Hn : nth_error (get_supported_models GOOGLE_API_KEY net) n <> None)
    by congruence.
  apply nth_error_Some in Hn. lia.
Qed.

(** X5. When every post raises or answers a status other than 200, 400
    and 403, [call_gemini] posts to every candidate, once each and in
    order, and then raises with the error of the last pass. *)
Theorem call_gemini_exhausts net payload timeout :
  (forall i model,
     nth_error (get_supported_models GOOGLE_API_KEY net) i = Some model ->
     transient (requests_post net i (generate_url GOOGLE_API_KEY model) payload timeout)) ->
  exists last_error,
    call_gemini GOOGLE_API_KEY net payload timeout
    = (Raised (Raise Exception (FINAL_ERROR ++ last_error)),
       map (generate_url GOOGLE_API_KEY) (get_supported_models GOOGLE_API_KEY net))
    /\ last_recorded GOOGLE_API_KEY net payload timeout 0
         (get_supported_models GOOGLE_API_KEY net) NO_MODELS_ATTEMPTED last_error.
Proof.
  intros H.
  assert (Hp : forall n f, pass GOOGLE_API_KEY net payload timeout n = Some f ->
                           exists e, f = Continue e).
  { intros n f. unfold pass, pass_from.
    destruct (nth_error (get_supported_models GOOGLE_API_KEY net) n) as [m|] eqn:E;
      [|discriminate].
    intros Hf. injection Hf as <-. cbn [Nat.add].
    apply attempt_transient. apply H. exact E. }
  destruct (call_gemini GOOGLE_API_KEY net payload timeout) as [[v|e] log] eqn:E.
  - apply call_gemini_returns in E as (n & _ & Hn & _).
    apply Hp in Hn as (e & He). discriminate.
  - apply call_gemini_raises in E as (last_error & -> & [(_ & Hl & ->)|(n & _ & Hn & _)]).
    + exists last_error. split; [|exact Hl].
      unfold posted_to. rewrite firstn_all. reflexivity.
    + apply Hp in Hn as (e & He). discriminate.
Qed.

(** X6. Whatever the network does, the URLs [call_gemini] posts to are
    those of the first k candidates, in candidate order, for some k: no
    candidate is skipped, posted to twice for one position, or posted to
    after a later one; and k is at least one when there is a
    candidate. *)
Theorem call_gemini_posts_prefix net payload timeout :
  exists k,
    (k <= List.length (get_supported_models GOOGLE_API_KEY net))%nat /\
    snd (call_gemini GOOGLE_API_KEY net payload timeout)
    = map (generate_url GOOGLE_API_KEY)
        (firstn k (get_supported_models GOOGLE_API_KEY net)) /\
    List.length (snd (call_gemini GOOGLE_API_KEY net payload timeout)) = k /\
    (get_supported_models GOOGLE_API_KEY net <> [] -> (1 <= k)%nat).
Proof.
  destruct (call_gemini GOOGLE_API_KEY net payload timeout) as [[v|e] log] eqn:E;
    cbn [snd].
  - apply call_gemini_returns in E as (n & _ & Hn & ->).
    apply pass_some_bound in Hn. exists (S n). repeat split.
    + exact Hn.
    + apply posted_to_length. exact Hn.
    + intros _. lia.
  - apply call_gemini_raises in E as (last_error & _ & [(_ & _ & ->)|(n & _ & Hn & ->)]).
    + exists (List.length (get_supported_models GOOGLE_API_KEY net)). repeat split.
      * lia.
      * apply posted_to_length. lia.
      * intros Hne.
        destruct (get_supported_models GOOGLE_API_KEY net); [contradiction|simpl; lia].
    + apply pass_some_bound in Hn. exists (S n). repeat split.
      * exact Hn.
      * apply posted_to_length. exact Hn.
      * intros _. lia.
Qed.

(** X7. A candidate that answers 400 or 403 with an error body that can
    be read (the content type is not exactly application/json, or the
    body parses) ends the loop: the call raises with that candidate's
    status, name and error body, and it is the last candidate posted
    to. *)
Theorem call_gemini_aborts net payload timeout n model r :
  continued GOOGLE_API_KEY net payload timeout n ->
  nth_error (get_supported_models GOOGLE_API_KEY net) n = Some model ->
  requests_post net n (generate_url GOOGLE_API_KEY model) payload timeout = Ok r ->
  status_code r = 400%Z \/ status_code r = 403%Z ->
  is_application_json (content_type r) = false \/ (exists v, json r = Ok v) ->
  exists data,
    error_data r = Ok data /\
    call_gemini GOOGLE_API_KEY net payload timeout
    = (Raised (Raise Exception
         (FINAL_ERROR ++ py "API " ++ str_int (status_code r) ++ py " (" ++ model
          ++ py "): " ++ data)),
       posted_to GOOGLE_API_KEY net (S n))
    /\ List.length (posted_to GOOGLE_API_KEY net (S n)) = S n.
Proof.
  intros Hc Hm Hp Hs Hr.
  destruct (error_data_readable r Hr) as (data & Hd).
  exists data. split; [exact Hd|]. split.
  - apply (call_gemini_terminal GOOGLE_API_KEY net payload timeout n model r data);
      assumption.
  - apply posted_to_length.
    assert (Hn : nth_error (get_supported_models GOOGLE_API_KEY net) n <> None)
      by congruence.
    apply nth_error_Some in Hn. lia.
Qed.

End MoreInvoker.

(** ** More on the model directory *)

Lemma split_without_separator (sep : char) (s x : pystr) :
  In x (split sep s) -> ~ In sep x.
Proof.
  revert x. induction s as [|c s IH]; intros x; simpl.
  - intros [<-|[]]. auto.
  - destruct (N.eqb_spec c sep) as [->|Hc].
    + intros [<-|H]; [auto|exact (IH x H)].
    + destruct (split sep s) as [|h t] eqn:E.
      * intros [<-|[]]. intros [H|[]]. congruence.
      * intros [<-|H].
        -- intros [H|H]; [congruence|].
           apply (IH h); [left; reflexivity|exact H].
        -- apply IH. right. exact H.
Qed.

Lemma last_in_or_default (l : list pystr) (d : pystr) :
  last l d = d \/ In (last l d) l.
Proof.
  induction l as [|a l IH]; [left; reflexivity|].
  destruct l as [|b l]; [right; left; reflexivity|].
  destruct IH as [H|H].
  - change (last (a :: b :: l) d) with (last (b :: l) d). rewrite H.
    left. reflexivity.
  - right. right. exact H.
Qed.

Lemma last_segment_without_slash (s : pystr) : ~ In SLASH (last (split SLASH s) []).
Proof.
  destruct (last_in_or_default (split SLASH s) []) as [->|H]; [auto|].
  apply (split_without_separator SLASH s). exact H.
Qed.

Section MoreDirectory.

Context {P : Python}.
Variable GOOGLE_API_KEY : pystr.

Lemma select_models_without_slash items models :
  select_models items = Ok models ->
  forall m, In m models -> ~ In SLASH m.
Proof.
  revert models. induction items as [|x items IH]; intros models.
  - simpl. intros H. injection H as <-. intros m [].
  - cbn [select_models].
    destruct (text_capable x) as [[|]|e]; cbn [bind]; [| |discriminate].
    + destruct (py_getitem x (py "name")) as [name|e]; cbn [bind]; [|discriminate].
      destruct name as [| | | |s| |]; cbn [py_last_segment raise_fault bind];
        try discriminate.
      destruct (select_models items) as [rest|e]; cbn [bind]; [|discriminate].
      intros H. injection H as <-. intros m [<-|Hm].
      * apply last_segment_without_slash.
      * exact (IH rest eq_refl m Hm).
    + apply IH.
Qed.

Lemma fallback_without_slash m : In m AVAILABLE_MODELS -> ~ In SLASH m.
Proof.
  assert (H : forallb (fun x => negb (existsb (N.eqb SLASH) x)) AVAILABLE_MODELS = true)
    by (vm_compute; reflexivity).
  rewrite forallb_forall in H. intros Hm Hin.
  specialize (H m Hm). apply negb_true_iff in H.
  assert (Ht : existsb (N.eqb SLASH) m = true).
  { apply existsb_exists. exists SLASH. split; [exact Hin|apply N.eqb_refl]. }
  congruence.
Qed.

(** X8. No model identifier that [get_supported_models] returns holds
    a slash: a listed name is cut down to what follows its last slash,
    and the fallback names have none. *)
Theorem get_supported_models_without_slash net m :
  In m (get_supported_models GOOGLE_API_KEY net) -> ~ In SLASH m.
Proof.
  unfold get_supported_models.
  destruct (requests_get net (models_url GOOGLE_API_KEY)) as [r|e];
    [|apply fallback_without_slash].
  destruct (Z.eqb (status_code r) 200); [|apply fallback_without_slash].
  destruct (discovered r) as [models|e] eqn:E; [|apply fallback_without_slash].
  unfold discovered in E.
  destruct (json r) as [body|e]; cbn [bind] in E; [|discriminate].
  destruct (py_get body (py "models") (JArr [])) as [all_models|e];
    cbn [bind] in E; [|discriminate].
  destruct (py_iter all_models) as [items|e]; cbn [bind] in E; [|discriminate].
  apply (select_models_without_slash items models E).
Qed.

(** X9. A listing that answers 200 with an object that has no models
    field gives the empty candidate list, not the fallback; the call
    that follows posts nothing and raises. *)
Theorem get_supported_models_missing_models net r body :
  requests_get net (models_url GOOGLE_API_KEY) = Ok r ->
  status_code r = 200%Z ->
  json r = Ok (JObj body) ->
  dict_lookup (py "models") body = None ->
  get_supported_models GOOGLE_API_KEY net = []
  /\ forall payload timeout,
       call_gemini GOOGLE_API_KEY net payload timeout
       = (Raised (Raise Exception (FINAL_ERROR ++ NO_MODELS_ATTEMPTED)), []).
Proof.
  intros Hg Hs Hj Hm.
  assert (E : get_supported_models GOOGLE_API_KEY net = []).
  { unfold get_supported_models. rewrite Hg, Hs. cbn [Z.eqb Pos.eqb].
    unfold discovered. rewrite Hj. cbn [bind py_get]. rewrite Hm. reflexivity. }
  split; [exact E|].
  intros payload timeout. unfold call_gemini. rewrite E. reflexivity.
Qed.

Lemma text_capable_not_generating fields :
  not_generating fields -> text_capable (JObj fields) = Ok false.
Proof.
  unfold not_generating, text_capable. cbn [py_get].
  destruct (dict_lookup (py "supportedGenerationMethods") fields)
    as [[| | | | |methods|]|]; try contradiction.
  - intros H. cbn [bind py_in]. rewrite H. reflexivity.
  - intros _. reflexivity.
Qed.

(** X10. An entry whose methods do not contain generateContent is
    dropped before its name is looked at: with or without a name, of
    whatever type, it changes nothing in what the comprehension gives
    for the other entries. *)
Theorem select_models_skips pre fields post :
  not_generating fields ->
  select_models (pre ++ JObj fields :: post) = select_models (pre ++ post).
Proof.
  intros H. induction pre as [|x pre IH].
  - cbn [app select_models]. rewrite (text_capable_not_generating fields H).
    reflexivity.
  - cbn [app select_models]. rewrite IH. reflexivity.
Qed.

(** X11. One entry that supports generateContent and has no name makes
    the whole discovery fall back: the lookup of the name raises, and the
    well-formed entries of the listing are discarded with it. *)
Theorem get_supported_models_nameless_entry net r body entries fields methods :
  requests_get net (models_url GOOGLE_API_KEY) = Ok r ->
  status_code r = 200%Z ->
  json r = Ok (JObj body) ->
  dict_lookup (py "models") body = Some (JArr entries) ->
  In (JObj fields) entries ->
  dict_lookup (py "supportedGenerationMethods") fields = Some (JArr methods) ->
  existsb (is_str (py "generateContent")) methods = true ->
  dict_lookup (py "name") fields = None ->
  get_supported_models GOOGLE_API_KEY net = AVAILABLE_MODELS.
Proof.
  intros Hg Hs Hj Hm Hin Hmeth Hgen Hname.
  assert (Ht : text_capable (JObj fields)
               = Raised (Raise KeyError (errmsg (MissingKey (JStr (py "name")))))).
  { unfold text_capable, marker_absent. cbn [py_get]. rewrite Hmeth.
    cbn [bind py_in]. rewrite Hgen. cbn [negb py_getitem]. rewrite Hname.
    reflexivity. }
  destruct (select_models_raises entries (JObj fields) _ Hin Ht) as (e' & He').
  unfold get_supported_models. rewrite Hg, Hs. cbn [Z.eqb Pos.eqb].
  unfold discovered. rewrite Hj. cbn [bind py_get]. rewrite Hm.
  cbn [bind py_iter]. rewrite He'. reflexivity.
Qed.

End MoreDirectory.

(** ** More on the routes *)

Section MoreRoutes.

Context {P : Python}.
Variable GOOGLE_API_KEY : pystr.

Lemma dict_lookup_some_exists key fields v :
  dict_lookup key fields = Some v ->
  existsb (fun kv => str_eqb (fst kv) key) fields = true.
Proof.
  intros H. destruct (existsb _ fields) eqn:E; [reflexivity|].
  apply dict_lookup_none in E. congruence.
Qed.

Lemma reply_text_read data text :
  reply_text data = Some text ->
  no_candidates data = Ok false /\ first_text data = Ok text.
Proof.
  unfold reply_text, no_candidates, first_text.
  destruct data as [| | | | | |fields]; try discriminate.
  cbn [py_in py_getitem bind].
  destruct (dict_lookup (py "candidates") fields) as [candidates|] eqn:Ec;
    [|discriminate].
  rewrite (dict_lookup_some_exists _ _ _ Ec). cbn [negb bind].
  destruct candidates as [| | | | |[|[| | | | | |candidate] rest]|]; try discriminate.
  cbn [truthy List.length Nat.eqb negb py_first py_getitem bind].
  destruct (dict_lookup (py "content") candidate) as [[| | | | | |content]|];
    try discriminate.
  cbn [py_getitem bind].
  destruct (dict_lookup (py "parts") content)
    as [[| | | | |[|[| | | | | |part] parts]|]|]; try discriminate.
  cbn [py_first py_getitem bind].
  intros ->. split; reflexivity.
Qed.

(** X12. When [call_gemini] raises, each route answers status 500 with
    its own prefix followed by the message of the exception, which is the
    fixed text about failed attempts followed by the last error on
    record. *)
Theorem routes_gateway_failure net payload e log :
  call_gemini GOOGLE_API_KEY net payload 30 = (Raised e, log) ->
  exists last_error,
    str_exn e = FINAL_ERROR ++ last_error /\
    scan_food GOOGLE_API_KEY net (Some (Ok payload))
    = ((error_body (py "Server Error: " ++ FINAL_ERROR ++ last_error), 500%Z), log) /\
    diet_plan GOOGLE_API_KEY net (Ok payload)
    = ((error_body (py "AI Plan failed: " ++ FINAL_ERROR ++ last_error), 500%Z), log) /\
    chat GOOGLE_API_KEY net (Ok payload)
    = ((error_body (py "Bella Error: " ++ FINAL_ERROR ++ last_error), 500%Z), log).
Proof.
  intros E. pose proof E as E'.
  apply call_gemini_raises in E' as (last_error & -> & _).
  exists last_error. split; [reflexivity|].
  unfold scan_food, diet_plan, chat, guarded. rewrite E. cbn [bind str_exn].
  repeat split; reflexivity.
Qed.

(** X13. When [call_gemini] returned a body of the documented shape
    whose text, once cleaned, holds a span that [json.loads] parses,
    scan_food and diet_plan answer that payload with status 200. *)
Theorem routes_extract_payload net payload data log text span parsed :
  call_gemini GOOGLE_API_KEY net payload 30 = (Ok data, log) ->
  reply_text data = Some (JStr text) ->
  re_search_braces (clean_text text) = Some span ->
  json_loads span = Ok parsed ->
  scan_food GOOGLE_API_KEY net (Some (Ok payload)) = ((parsed, 200%Z), log)
  /\ diet_plan GOOGLE_API_KEY net (Ok payload) = ((parsed, 200%Z), log).
Proof.
  intros E Ht Hs Hj. apply reply_text_read in Ht as (Hn & Hf).
  unfold scan_food, diet_plan, guarded. rewrite E. cbn [bind].
  unfold scan_food_handle, diet_plan_handle. rewrite Hn, Hf. cbn [bind].
  unfold scan_food_extract, diet_plan_extract. cbn [clean bind].
  fold (clean_text text). rewrite Hs, Hj. cbn [bind]. split; reflexivity.
Qed.

(** X14. chat hands the text of a body of the documented shape back as
    it is, under the key reply and with status 200: no fence is
    removed, no span is searched, and the text need not even be a
    string. *)
Theorem chat_echoes net payload data log text :
  call_gemini GOOGLE_API_KEY net payload 30 = (Ok data, log) ->
  reply_text data = Some text ->
  chat GOOGLE_API_KEY net (Ok payload) = ((JObj [(py "reply", text)], 200%Z), log).
Proof.
  intros E Ht. apply reply_text_read in Ht as (Hn & Hf).
  unfold chat, guarded. rewrite E. cbn [bind].
  unfold chat_handle. rewrite Hn, Hf. reflexivity.
Qed.

(** X15. When the first candidate of the returned body has no content
    (as when the provider blocks a reply), the lookup raises KeyError
    and each route answers status 500 with its prefix followed by the
    message of that error. *)
Theorem routes_candidate_without_content net payload fields candidate rest log :
  call_gemini GOOGLE_API_KEY net payload 30 = (Ok (JObj fields), log) ->
  dict_lookup (py "candidates") fields = Some (JArr (JObj candidate :: rest)) ->
  dict_lookup (py "content") candidate = None ->
  scan_food GOOGLE_API_KEY net (Some (Ok payload))
  = ((error_body (py "Server Error: " ++ errmsg (MissingKey (JStr (py "content")))),
      500%Z), log) /\
  diet_plan GOOGLE_API_KEY net (Ok payload)
  = ((error_body (py "AI Plan failed: " ++ errmsg (MissingKey (JStr (py "content")))),
      500%Z), log) /\
  chat GOOGLE_API_KEY net (Ok payload)
  = ((error_body (py "Bella Error: " ++ errmsg (MissingKey (JStr (py "content")))),
      500%Z), log).
Proof.
  intros E Hc Hn.
  assert (Hno : no_candidates (JObj fields) = Ok false).
  { unfold no_candidates. cbn [py_in py_getitem bind].
    rewrite (dict_lookup_some_exists _ _ _ Hc). cbn [negb]. rewrite Hc.
    reflexivity. }
  assert (Hf : first_text (JObj fields)
               = Raised (Raise KeyError (errmsg (MissingKey (JStr (py "content")))))).
  { unfold first_text. cbn [py_getitem bind]. rewrite Hc.
    cbn [bind py_first py_getitem]. rewrite Hn. reflexivity. }
  unfold scan_food, diet_plan, chat, guarded. rewrite E. cbn [bind].
  unfold scan_food_handle, diet_plan_handle, chat_handle.
  rewrite Hno, Hf. cbn [bind str_exn]. repeat split; reflexivity.
Qed.

(** X16. In diet_plan a span that [json.loads] rejects, with whatever
    exception, gives status 500 with the prefix of the route followed by
    the message of the exception, and no raw text. *)
Theorem diet_plan_unparseable_span net payload data log text span e :
  call_gemini GOOGLE_API_KEY net payload 30 = (Ok data, log) ->
  reply_text data = Some (JStr text) ->
  re_search_braces (clean_text text) = Some span ->
  json_loads span = Raised e ->
  diet_plan GOOGLE_API_KEY net (Ok payload)
  = ((JObj [(py "error", JStr (py "AI Plan failed: " ++ str_exn e))], 500%Z), log).
Proof.
  intros E Ht Hs Hj. apply reply_text_read in Ht as (Hn & Hf).
  unfold diet_plan, guarded. rewrite E. cbn [bind].
  unfold diet_plan_handle. rewrite Hn, Hf. cbn [bind].
  unfold diet_plan_extract. cbn [clean bind].
  fold (clean_text text). rewrite Hs, Hj. reflexivity.
Qed.

(** X17. In scan_food only [JSONDecodeError] gets the reply for invalid
    JSON: any other exception of [json.loads] reaches the handler of the
    route, which answers status 500 with the message of the exception
    and no raw text. *)
Theorem scan_food_other_exception net payload data log text span e :
  call_gemini GOOGLE_API_KEY net payload 30 = (Ok data, log) ->
  reply_text data = Some (JStr text) ->
  re_search_braces (clean_text text) = Some span ->
  json_loads span = Raised e ->
  exn_class_of e <> JSONDecodeError ->
  scan_food GOOGLE_API_KEY net (Some (Ok payload))
  = ((JObj [(py "error", JStr (py "Server Error: " ++ str_exn e))], 500%Z), log).
Proof.
  intros E Ht Hs Hj Hc. apply reply_text_read in Ht as (Hn & Hf).
  unfold scan_food, guarded. rewrite E. cbn [bind].
  unfold scan_food_handle. rewrite Hn, Hf. cbn [bind].
  unfold scan_food_extract. cbn [clean bind].
  fold (clean_text text). rewrite Hs, Hj.
  destruct (exn_class_of e); try reflexivity. contradiction.
Qed.

(** X18. A text that is not a string stops scan_food and diet_plan at
    the fence removal: status 500 with the message of the TypeError. *)
Theorem routes_text_not_string net payload data log text :
  call_gemini GOOGLE_API_KEY net payload 30 = (Ok data, log) ->
  reply_text data = Some text ->
  (forall s, text <> JStr s) ->
  scan_food GOOGLE_API_KEY net (Some (Ok payload))
  = ((error_body (py "Server Error: " ++ errmsg (NotAString text)), 500%Z), log) /\
  diet_plan GOOGLE_API_KEY net (Ok payload)
  = ((error_body (py "AI Plan failed: " ++ errmsg (NotAString text)), 500%Z), log).
Proof.
  intros E Ht Hs. apply reply_text_read in Ht as (Hn & Hf).
  unfold scan_food, diet_plan, guarded. rewrite E. cbn [bind].
  unfold scan_food_handle, diet_plan_handle. rewrite Hn, Hf. cbn [bind].
  unfold scan_food_extract, diet_plan_extract.
  destruct text as [| | | |s| |]; try (split; reflexivity).
  exfalso. exact (Hs s eq_refl).
Qed.

End MoreRoutes.

(** ** Loading the key *)

Lemma startswith_app (p s : pystr) : startswith p (p ++ s) = true.
Proof.
  induction p as [|c p IH]; [reflexivity|].
  simpl. rewrite N.eqb_refl. exact IH.
Qed.

Lemma startswith_split (p s : pystr) :
  startswith p s = true -> exists rest, s = p ++ rest.
Proof.
  revert s. induction p as [|c p IH]; intros s; [exists s; reflexivity|].
  destruct s as [|d s]; [discriminate|]. simpl.
  intros H. apply andb_true_iff in H as [Hc Hp].
  apply N.eqb_eq in Hc. subst d.
  destruct (IH s Hp) as (rest & ->). exists rest. reflexivity.
Qed.

Lemma rstrip_solid_prefix (p v : pystr) :
  solid p -> rstrip (p ++ v) = p ++ rstrip v.
Proof.
  intros H. induction H as [|c p Hc _ IH]; [reflexivity|].
  cbn [app]. rewrite rstrip_cons_solid by exact Hc. rewrite IH. reflexivity.
Qed.

Lemma env_prefix_solid : solid ENV_PREFIX.
Proof. unfold solid. repeat constructor. Qed.

Lemma strip_env_line (w value : pystr) :
  blank w -> strip (w ++ ENV_PREFIX ++ value) = ENV_PREFIX ++ rstrip value.
Proof.
  intros H. unfold strip. rewrite lstrip_blank by exact H.
  change (lstrip (ENV_PREFIX ++ value)) with (ENV_PREFIX ++ value).
  apply rstrip_solid_prefix. exact env_prefix_solid.
Qed.

Lemma after_first_env_prefix (value : pystr) :
  after_first 61%N (ENV_PREFIX ++ value) = Some value.
Proof. reflexivity. Qed.

Lemma manual_parse_line (w value : pystr) (rest : list pystr) :
  blank w ->
  manual_parse ((w ++ ENV_PREFIX ++ value) :: rest) = Some (unquote (strip value)).
Proof.
  intros H. cbn [manual_parse]. fold ENV_PREFIX.
  rewrite strip_env_line by exact H.
  rewrite startswith_app, after_first_env_prefix, strip_rstrip. reflexivity.
Qed.

Lemma strip_solid_ends (a b : char) (s : pystr) :
  isspace a = false -> isspace b = false ->
  strip (a :: s ++ [b]) = a :: s ++ [b].
Proof.
  intros Ha Hb. unfold strip. simpl lstrip. rewrite Ha.
  rewrite app_comm_cons, rstrip_snoc, Hb. reflexivity.
Qed.

Lemma unquote_wrapped (q : char) (k : pystr) :
  q = 34%N \/ q = 39%N -> unquote (q :: k ++ [q]) = k.
Proof.
  intros Hq. unfold unquote, endswith, strip_ends.
  rewrite app_comm_cons, rev_unit.
  assert (E : (startswith DQUOTE ((q :: k) ++ [q]) && startswith (rev DQUOTE) (q :: rev (q :: k))
               || startswith SQUOTE ((q :: k) ++ [q]) && startswith (rev SQUOTE) (q :: rev (q :: k)))
              = true).
  { destruct Hq as [-> | ->]; reflexivity. }
  rewrite E. cbn [app tl]. apply removelast_last.
Qed.

(** X19. The key is taken from the first line of the file that, once
    stripped, starts with [Google_api=]: the lines before it are passed
    over, the lines after it are not read, and the key is what follows
    the first equals sign of that line, stripped and unquoted. *)
Theorem manual_parse_first_match (pre post : list pystr) (line : pystr) :
  Forall (fun l => startswith ENV_PREFIX (strip l) = false) pre ->
  startswith ENV_PREFIX (strip line) = true ->
  exists value,
    strip line = ENV_PREFIX ++ value /\
    manual_parse (pre ++ line :: post) = Some (unquote (strip value)).
Proof.
  intros Hpre Hline.
  destruct (startswith_split ENV_PREFIX (strip line) Hline) as (value & Hv).
  exists value. split; [exact Hv|].
  induction Hpre as [|l pre Hl _ IH].
  - cbn [app manual_parse]. fold ENV_PREFIX. rewrite Hline, Hv.
    rewrite after_first_env_prefix. reflexivity.
  - cbn [app manual_parse]. fold ENV_PREFIX. rewrite Hl. exact IH.
Qed.

(** X20. Writing a key and reading it back: a line made of optional
    whitespace, [Google_api=], the key between two double quotes or two
    single quotes, and optional whitespace (the end of line included)
    gives back the key, whatever it holds; and so does the same line
    without the quotes when the key has no whitespace around it and is
    not itself wrapped in quotes. *)
Theorem manual_parse_round_trip (w1 key w2 : pystr) (rest : list pystr) :
  blank w1 -> blank w2 ->
  manual_parse ((w1 ++ ENV_PREFIX ++ DQUOTE ++ key ++ DQUOTE ++ w2) :: rest) = Some key
  /\ manual_parse ((w1 ++ ENV_PREFIX ++ SQUOTE ++ key ++ SQUOTE ++ w2) :: rest) = Some key
  /\ (strip key = key -> unquote key = key ->
      manual_parse ((w1 ++ ENV_PREFIX ++ key ++ w2) :: rest) = Some key).
Proof.
  intros H1 H2.
  assert (Hq : forall q, q = 34%N \/ q = 39%N ->
                 unquote (strip ([q] ++ key ++ [q] ++ w2)) = key).
  { intros q Hq.
    replace ([q] ++ key ++ [q] ++ w2) with ([] ++ (q :: key ++ [q]) ++ w2)
      by (cbn [app]; rewrite <- app_assoc; reflexivity).
    rewrite strip_blank_around by (exact H2 || apply Forall_nil).
    rewrite strip_solid_ends by (destruct Hq as [-> | ->]; reflexivity).
    apply unquote_wrapped. exact Hq. }
  split; [|split].
  - rewrite manual_parse_line by exact H1. f_equal. apply (Hq 34%N). auto.
  - rewrite manual_parse_line by exact H1. f_equal. apply (Hq 39%N). auto.
  - intros Hs Hu. rewrite manual_parse_line by exact H1. f_equal.
    replace (key ++ w2) with ([] ++ key ++ w2) by reflexivity.
    rewrite strip_blank_around by (exact H2 || apply Forall_nil).
    rewrite Hs. exact Hu.
Qed.

(** ** The weekly series *)

Lemma series_length (n : nat) (rows : list row) :
  List.length (series n rows) = List.length rows.
Proof. unfold series. rewrite length_rev, length_map. reflexivity. Qed.

Lemma day_labels_length (n : nat) : List.length (day_labels n) = n.
Proof. unfold day_labels. rewrite length_map, length_seq. reflexivity. Qed.

(** X21. Whatever rows the query returns, weekly answers status 200
    with five series of one and the same length, the number of rows, or
    one when there is none; with rows, each series holds its column in
    the reverse of the query order, and the labels count the days from
    one. *)
Theorem weekly_series_aligned (rows : list row) :
  exists labels calories protein carbs fats,
    weekly (Ok rows)
    = (JObj [(py "labels", JArr labels);
             (py "calories", JArr calories);
             (py "protein", JArr protein);
             (py "carbs", JArr carbs);
             (py "fats", JArr fats)], 200%Z)
    /\ List.length labels = Nat.max 1 (List.length rows)
    /\ List.length calories = List.length labels
    /\ List.length protein = List.length labels
    /\ List.length carbs = List.length labels
    /\ List.length fats = List.length labels
    /\ (rows <> [] ->
        calories = rev (map (column 0) rows) /\
        protein = rev (map (column 1) rows) /\
        carbs = rev (map (column 2) rows) /\
        fats = rev (map (column 3) rows) /\
        forall i, (i < List.length rows)%nat ->
          nth_error labels i = Some (JStr (py "Day " ++ str_int (Z.of_nat (S i))))).
Proof.
  destruct rows as [|r rows].
  - do 5 eexists. split; [reflexivity|]. repeat split; try reflexivity;
      contradiction.
  - do 5 eexists. split; [reflexivity|].
    rewrite !series_length, day_labels_length.
    repeat split; try reflexivity.
    intros i Hi. unfold day_labels.
    rewrite nth_error_map, nth_error_seq.
    destruct (Nat.ltb_spec i (List.length (r :: rows))); [reflexivity|lia].
Qed.

(** ** The further properties on concrete runs *)

Section MoreRuns.

Import Samples.
Import MoreSamples.

Lemma clean_text_without_backtick_witness :
  ~ In BACKTICK (py "  {} ")
  /\ clean_text (py "  {} ") = py "{}".
Proof.
  assert (H : ~ In BACKTICK (py "  {} ")).
  { vm_compute. intros H. repeat (destruct H as [H|H]; [discriminate|]). exact H. }
  split; [exact H|].
  rewrite (proj2 (clean_text_without_backtick (py "  {} ") H)).
  vm_compute. reflexivity.
Defined.

Lemma clean_text_fenced_witness :
  blank NL /\ ~ In BACKTICK (js "{'a': 1}")
  /\ clean_text (JSON_FENCE ++ NL ++ js "{'a': 1}" ++ NL ++ FENCE) = js "{'a': 1}".
Proof.
  assert (Hb : blank NL) by (repeat constructor).
  assert (H : ~ In BACKTICK (js "{'a': 1}")).
  { vm_compute. intros H. repeat (destruct H as [H|H]; [discriminate|]). exact H. }
  split; [exact Hb|]. split; [exact H|].
  rewrite (proj1 (clean_text_fenced NL (js "{'a': 1}") NL Hb Hb H)).
  vm_compute. reflexivity.
Defined.

Lemma re_search_braces_over_capture_witness :
  brace_span (js "{'a':1}") /\ brace_span (js "{'b':2}")
  /\ re_search_braces (py "x " ++ js "{'a':1}" ++ py " and " ++ js "{'b':2}" ++ py " y")
     = Some (js "{'a':1}" ++ py " and " ++ js "{'b':2}").
Proof.
  assert (H1 : brace_span (js "{'a':1}")) by (exists (js "'a':1"); reflexivity).
  assert (H2 : brace_span (js "{'b':2}")) by (exists (js "'b':2"); reflexivity).
  split; [exact H1|]. split; [exact H2|].
  apply (re_search_braces_over_capture (py "x ") _ (py " and ") _ (py " y") H1 H2).
  - vm_compute. intros H. repeat (destruct H as [H|H]; [discriminate|]). exact H.
  - vm_compute. intros H. repeat (destruct H as [H|H]; [discriminate|]). exact H.
Defined.

Lemma re_search_braces_none_witness :
  re_search_braces (py "} then {") = None
  /\ forall pre post, py "} then {" = pre ++ LBRACE :: post -> ~ In RBRACE post.
Proof.
  assert (E : re_search_braces (py "} then {") = None) by (vm_compute; reflexivity).
  split; [exact E|].
  exact (proj1 (re_search_braces_none (py "} then {")) E).
Defined.

Lemma canned_failing_candidates :
  get_supported_models KEY canned_failing = [py "m1"; py "m2"].
Proof. vm_compute. reflexivity. Defined.

Lemma call_gemini_exhausts_witness :
  (forall i model,
     nth_error (get_supported_models KEY canned_failing) i = Some model ->
     transient (requests_post canned_failing i (generate_url KEY model) payload 30))
  /\ exists last_error,
       call_gemini KEY canned_failing payload 30
       = (Raised (Raise Exception (FINAL_ERROR ++ last_error)),
          map (generate_url KEY) [py "m1"; py "m2"]).
Proof.
  assert (H : forall i model,
     nth_error (get_supported_models KEY canned_failing) i = Some model ->
     transient (requests_post canned_failing i (generate_url KEY model) payload 30)).
  { intros i model. rewrite canned_failing_candidates.
    destruct i as [|[|i]].
    - intros _. cbn. repeat split; discriminate.
    - intros _. cbn. repeat split; discriminate.
    - destruct i; discriminate. }
  split; [exact H|].
  destruct (call_gemini_exhausts KEY canned_failing payload 30 H) as (last_error & E & _).
  exists last_error. rewrite canned_failing_candidates in E. exact E.
Defined.

Lemma call_gemini_aborts_witness :
  continued KEY canned_abort payload 30 1
  /\ nth_error (get_supported_models KEY canned_abort) 1 = Some (py "gemini-1.5-pro")
  /\ exists data,
       call_gemini KEY canned_abort payload 30
       = (Raised (Raise Exception
            (FINAL_ERROR ++ py "API " ++ str_int 400 ++ py " (" ++ py "gemini-1.5-pro"
             ++ py "): " ++ data)),
          posted_to KEY canned_abort 2).
Proof.
  assert (Hc : continued KEY canned_abort payload 30 1).
  { intros i Hi. destruct i as [|i]; [|lia]. vm_compute. eexists. reflexivity. }
  assert (Hm : nth_error (get_supported_models KEY canned_abort) 1
               = Some (py "gemini-1.5-pro")) by (vm_compute; reflexivity).
  split; [exact Hc|]. split; [exact Hm|].
  destruct (call_gemini_aborts KEY canned_abort payload 30 1 (py "gemini-1.5-pro")
              (http 400 "text/plain" (py "Bad Request")) Hc Hm eq_refl
              (or_introl eq_refl) (or_introl eq_refl))
    as (data & _ & E & _).
  exists data. exact E.
Defined.

Lemma get_supported_models_without_slash_witness :
  In (py "gemini-1.5-flash") (get_supported_models KEY (scripted listing_mixed []))
  /\ ~ In SLASH (py "gemini-1.5-flash").
Proof.
  assert (H : In (py "gemini-1.5-flash")
                (get_supported_models KEY (scripted listing_mixed []))).
  { vm_compute. left. reflexivity. }
  split; [exact H|].
  exact (get_supported_models_without_slash KEY (scripted listing_mixed []) _ H).
Defined.

Lemma get_supported_models_missing_models_witness :
  requests_get (scripted listing_no_models [success]) (models_url KEY) = listing_no_models
  /\ get_supported_models KEY (scripted listing_no_models [success]) = []
  /\ call_gemini KEY (scripted listing_no_models [success]) payload 30
     = (Raised (Raise Exception (FINAL_ERROR ++ NO_MODELS_ATTEMPTED)), []).
Proof.
  split; [reflexivity|].
  assert (Hj : json (http 200 "application/json" (js "{'nextPageToken': ''}"))
               = Ok (JObj [(py "nextPageToken", JStr [])])) by (vm_compute; reflexivity).
  destruct (get_supported_models_missing_models KEY (scripted listing_no_models [success])
              (http 200 "application/json" (js "{'nextPageToken': ''}"))
              [(py "nextPageToken", JStr [])] eq_refl eq_refl Hj eq_refl) as (E & Hcall).
  split; [exact E|]. apply Hcall.
Defined.

Lemma select_models_skips_witness :
  not_generating fields_embedding_nameless
  /\ select_models [JObj fields_embedding_nameless; entry_pro] = Ok [py "gemini-pro"].
Proof.
  assert (H : not_generating fields_embedding_nameless) by reflexivity.
  split; [exact H|].
  rewrite (select_models_skips [] fields_embedding_nameless [entry_pro] H).
  vm_compute. reflexivity.
Defined.

Lemma get_supported_models_nameless_entry_witness :
  requests_get (scripted listing_nameless []) (models_url KEY) = listing_nameless
  /\ get_supported_models KEY (scripted listing_nameless []) = AVAILABLE_MODELS.
Proof.
  split; [reflexivity|].
  apply (get_supported_models_nameless_entry KEY (scripted listing_nameless [])
           (http 200 "application/json"
              (js "{'models': [{'name': 'models/gemini-pro', 'supportedGenerationMethods': ['generateContent']}, {'supportedGenerationMethods': ['generateContent']}]}"))
           [(py "models",
             JArr [entry_pro;
                   JObj [(py "supportedGenerationMethods",
                          JArr [JStr (py "generateContent")])]])]
           [entry_pro;
            JObj [(py "supportedGenerationMethods", JArr [JStr (py "generateContent")])]]
           [(py "supportedGenerationMethods", JArr [JStr (py "generateContent")])]
           [JStr (py "generateContent")]).
  - reflexivity.
  - reflexivity.
  - vm_compute. reflexivity.
  - vm_compute. reflexivity.
  - right. left. reflexivity.
  - vm_compute. reflexivity.
  - vm_compute. reflexivity.
  - vm_compute. reflexivity.
Defined.

Lemma routes_gateway_failure_witness :
  call_gemini KEY canned_abort payload 30
  = (Raised (Raise Exception
       (py "All AI attempts failed. Final error: API 400 (gemini-1.5-pro): Bad Request")),
     posted_to KEY canned_abort 2)
  /\ exists last_error,
       scan_food KEY canned_abort (Some (Ok payload))
       = ((error_body (py "Server Error: " ++ FINAL_ERROR ++ last_error), 500%Z),
          posted_to KEY canned_abort 2).
Proof.
  assert (E : call_gemini KEY canned_abort payload 30
              = (Raised (Raise Exception
                   (py "All AI attempts failed. Final error: API 400 (gemini-1.5-pro): Bad Request")),
                 posted_to KEY canned_abort 2)) by (vm_compute; reflexivity).
  split; [exact E|].
  destruct (routes_gateway_failure KEY canned_abort payload _ _ E)
    as (last_error & _ & Hs & _).
  exists last_error. exact Hs.
Defined.

Lemma fenced_reply_called :
  call_gemini KEY (answering fenced_reply) payload 30
  = (json_loads fenced_reply, [first_url]).
Proof. vm_compute. reflexivity. Defined.

Lemma routes_extract_payload_witness :
  json_loads fenced_reply
  = Ok (JObj [(py "candidates",
               JArr [JObj [(py "content",
                            JObj [(py "parts", JArr [JObj [(py "text", JStr fenced_text)]])])]])])
  /\ scan_food KEY (answering fenced_reply) (Some (Ok payload))
     = ((JObj [(py "a", JInt 1)], 200%Z), [first_url])
  /\ diet_plan KEY (answering fenced_reply) (Ok payload)
     = ((JObj [(py "a", JInt 1)], 200%Z), [first_url]).
Proof.
  assert (Hj : json_loads fenced_reply
    = Ok (JObj [(py "candidates",
                 JArr [JObj [(py "content",
                              JObj [(py "parts", JArr [JObj [(py "text", JStr fenced_text)]])])]])]))
    by (vm_compute; reflexivity).
  split; [exact Hj|].
  pose proof fenced_reply_called as E. rewrite Hj in E.
  apply (routes_extract_payload KEY (answering fenced_reply) payload _ [first_url]
           fenced_text (js "{'a': 1}") (JObj [(py "a", JInt 1)]) E).
  - vm_compute. reflexivity.
  - vm_compute. reflexivity.
  - vm_compute. reflexivity.
Defined.

Lemma chat_echoes_witness :
  call_gemini KEY (answering fenced_reply) payload 30
  = (json_loads fenced_reply, [first_url])
  /\ chat KEY (answering fenced_reply) (Ok payload)
     = ((JObj [(py "reply", JStr fenced_text)], 200%Z), [first_url]).
Proof.
  split; [exact fenced_reply_called|].
  assert (Hj : json_loads fenced_reply
    = Ok (JObj [(py "candidates",
                 JArr [JObj [(py "content",
                              JObj [(py "parts", JArr [JObj [(py "text", JStr fenced_text)]])])]])]))
    by (vm_compute; reflexivity).
  pose proof fenced_reply_called as E. rewrite Hj in E.
  apply (chat_echoes KEY (answering fenced_reply) payload _ [first_url]
           (JStr fenced_text) E).
  vm_compute. reflexivity.
Defined.

Lemma routes_candidate_without_content_witness :
  call_gemini KEY (answering blocked_reply) payload 30
  = (Ok (JObj [(py "candidates", JArr [JObj [(py "finishReason", JStr (py "SAFETY"))]])]),
     [first_url])
  /\ chat KEY (answering blocked_reply) (Ok payload)
     = ((error_body (py "Bella Error: 'content'"), 500%Z), [first_url]).
Proof.
  assert (E : call_gemini KEY (answering blocked_reply) payload 30
    = (Ok (JObj [(py "candidates", JArr [JObj [(py "finishReason", JStr (py "SAFETY"))]])]),
       [first_url])) by (vm_compute; reflexivity).
  split; [exact E|].
  destruct (routes_candidate_without_content KEY (answering blocked_reply) payload
              _ [(py "finishReason", JStr (py "SAFETY"))] [] [first_url] E eq_refl eq_refl)
    as (_ & _ & Hc).
  rewrite Hc. vm_compute. reflexivity.
Defined.

Lemma diet_plan_unparseable_span_witness :
  json_loads (py "{bad}")
  = Raised (Raise JSONDecodeError
      (py "Expecting property name enclosed in double quotes: line 1 column 2 (char 1)"))
  /\ diet_plan KEY (answering bad_reply) (Ok payload)
     = ((JObj [(py "error",
                JStr (py "AI Plan failed: Expecting property name enclosed in double quotes: line 1 column 2 (char 1)"))],
         500%Z), [first_url]).
Proof.
  assert (Hj : json_loads (py "{bad}")
    = Raised (Raise JSONDecodeError
        (py "Expecting property name enclosed in double quotes: line 1 column 2 (char 1)")))
    by (vm_compute; reflexivity).
  split; [exact Hj|].
  assert (E : call_gemini KEY (answering bad_reply) payload 30
    = (Ok (JObj [(py "candidates",
                  JArr [JObj [(py "content",
                               JObj [(py "parts",
                                      JArr [JObj [(py "text", JStr (py "see {bad} here"))]])])]])]),
       [first_url])) by (vm_compute; reflexivity).
  rewrite (diet_plan_unparseable_span KEY (answering bad_reply) payload _ [first_url]
             (py "see {bad} here") (py "{bad}") _ E eq_refl eq_refl Hj).
  vm_compute. reflexivity.
Defined.

Lemma huge_span_rejected :
  exists e, json_loads huge_text = Raised e /\ exn_class_of e = ValueError.
Proof.
  destruct (json_loads huge_text) as [v|e] eqn:E; vm_compute in E; [discriminate|].
  exists e. split; [reflexivity|]. injection E as <-. reflexivity.
Defined.

Lemma scan_food_other_exception_witness :
  (exists e, json_loads huge_text = Raised e /\ exn_class_of e = ValueError)
  /\ exists message,
       scan_food KEY (answering huge_reply) (Some (Ok payload))
       = ((JObj [(py "error", JStr (py "Server Error: " ++ message))], 500%Z), [first_url]).
Proof.
  split; [exact huge_span_rejected|].
  destruct huge_span_rejected as (e & Hj & Hc).
  assert (E : call_gemini KEY (answering huge_reply) payload 30
    = (Ok (JObj [(py "candidates",
                  JArr [JObj [(py "content",
                               JObj [(py "parts", JArr [JObj [(py "text", JStr huge_text)]])])]])]),
       [first_url])) by (vm_compute; reflexivity).
  exists (str_exn e).
  apply (scan_food_other_exception KEY (answering huge_reply) payload _ [first_url]
           huge_text huge_text e E eq_refl).
  - vm_compute. reflexivity.
  - exact Hj.
  - rewrite Hc. discriminate.
Defined.

Lemma routes_text_not_string_witness :
  call_gemini KEY (answering number_reply) payload 30
  = (Ok (JObj [(py "candidates",
                JArr [JObj [(py "content",
                             JObj [(py "parts", JArr [JObj [(py "text", JInt 42)]])])]])]),
     [first_url])
  /\ scan_food KEY (answering number_reply) (Some (Ok payload))
     = ((error_body (py "Server Error: expected string or bytes-like object, got 'int'"),
         500%Z), [first_url]).
Proof.
  assert (E : call_gemini KEY (answering number_reply) payload 30
    = (Ok (JObj [(py "candidates",
                  JArr [JObj [(py "content",
                               JObj [(py "parts", JArr [JObj [(py "text", JInt 42)]])])]])]),
       [first_url])) by (vm_compute; reflexivity).
  split; [exact E|].
  assert (Hs : forall s, JInt 42 <> JStr s) by (intros s; discriminate).
  rewrite (proj1 (routes_text_not_string KEY (answering number_reply) payload _ [first_url]
                    (JInt 42) E eq_refl Hs)).
  vm_compute. reflexivity.
Defined.

Lemma manual_parse_first_match_witness :
  Forall (fun l => startswith ENV_PREFIX (strip l) = false)
    [py "# keys"; py "OTHER=1"]
  /\ startswith ENV_PREFIX (strip (py "Google_api=abc=def" ++ NL)) = true
  /\ manual_parse [py "# keys"; py "OTHER=1"; py "Google_api=abc=def" ++ NL;
                   py "Google_api=later"]
     = Some (py "abc=def").
Proof.
  assert (H1 : Forall (fun l => startswith ENV_PREFIX (strip l) = false)
                 [py "# keys"; py "OTHER=1"]) by (repeat constructor).
  assert (H2 : startswith ENV_PREFIX (strip (py "Google_api=abc=def" ++ NL)) = true)
    by (vm_compute; reflexivity).
  split; [exact H1|]. split; [exact H2|].
  destruct (manual_parse_first_match [py "# keys"; py "OTHER=1"] [py "Google_api=later"]
              (py "Google_api=abc=def" ++ NL) H1 H2) as (value & Hv & E).
  refine (eq_trans E _). f_equal.
  assert (Hv' : value = py "abc=def").
  { assert (Hs : strip (py "Google_api=abc=def" ++ NL) = ENV_PREFIX ++ py "abc=def")
      by (vm_compute; reflexivity).
    rewrite Hs in Hv. apply app_inv_head in Hv. symmetry. exact Hv. }
  rewrite Hv'. vm_compute. reflexivity.
Defined.

Lemma manual_parse_round_trip_witness :
  blank [32%N] /\ blank NL
  /\ manual_parse [[32%N] ++ ENV_PREFIX ++ DQUOTE ++ py " k 1 " ++ DQUOTE ++ NL]
     = Some (py " k 1 ").
Proof.
  assert (H1 : blank [32%N]) by (repeat constructor).
  assert (H2 : blank NL) by (repeat constructor).
  split; [exact H1|]. split; [exact H2|].
  exact (proj1 (manual_parse_round_trip [32%N] (py " k 1 ") NL [] H1 H2)).
Defined.

End MoreRuns.


(** ** The payload is an object *)

Lemma scan_members_object (fuel : nat) :
  forall s acc v rest,
    Json.scan_members fuel s acc = Json.Value v rest -> exists fields, v = JObj fields.
Proof.
  induction fuel as [|fuel IH]; intros s acc v rest; [discriminate|].
  cbn [Json.scan_members].
  destruct s as [|c s]; [discriminate|].
  destruct (N.eqb c Json.QUOTE); [|discriminate].
  destruct (Json.scan_string _ _ _ _) as [[key after_key]|[message suffix]];
    [|discriminate].
  destruct (Json.skip_ws after_key) as [|colon after_colon]; [discriminate|].
  destruct (N.eqb colon 58); [|discriminate].
  destruct (Json.scan_once fuel (Json.skip_ws after_colon)) as [x after_value| |];
    [|discriminate|discriminate].
  destruct (Json.skip_ws after_value) as [|d after_d]; [discriminate|].
  destruct (N.eqb d RBRACE).
  - intros H. injection H as <- _. eauto.
  - destruct (N.eqb d 44); [|discriminate]. apply IH.
Qed.

Lemma scan_once_object (fuel : nat) (s : pystr) (v : JSON) (rest : pystr) :
  Json.scan_once fuel (LBRACE :: s) = Json.Value v rest -> exists fields, v = JObj fields.
Proof.
  destruct fuel as [|fuel]; [discriminate|].
  cbn [Json.scan_once].
  change (N.eqb LBRACE Json.QUOTE) with false.
  change (N.eqb LBRACE LBRACE) with true. cbv iota.
  destruct (Json.skip_ws s) as [|c' after'].
  - apply scan_members_object.
  - destruct (N.eqb c' RBRACE).
    + intros H. injection H as <- _. eauto.
    + apply scan_members_object.
Qed.

Lemma loads_object (s : pystr) (v : JSON) :
  Json.loads (LBRACE :: s) = Ok v -> exists fields, v = JObj fields.
Proof.
  unfold Json.loads.
  change (Json.skip_ws (LBRACE :: s)) with (LBRACE :: s).
  generalize (2 * List.length (LBRACE :: s) + 2)%nat. intros fuel.
  cbv beta iota delta [LBRACE].
  fold LBRACE.
  destruct (Json.scan_once fuel (LBRACE :: s)) as [x rest|message suffix|e] eqn:E;
    [|discriminate|discriminate].
  destruct (Json.skip_ws rest); [|discriminate].
  intros H. injection H as <-.
  exact (scan_once_object fuel s x rest E).
Qed.

Section ObjectPayload.

Context {P : Python}.

(** X22. The span starts with an opening brace; so with a decoder that
    makes an object of every text that starts with one, as that of the
    standard library does, what scan_food and diet_plan answer with
    status 200 is always a JSON object. *)
Theorem extracted_payload_is_object (text : pystr) (payload : JSON) :
  (forall s v, json_loads (LBRACE :: s) = Ok v -> exists fields, v = JObj fields) ->
  scan_food_extract (JStr text) = Ok (payload, 200%Z)
  \/ diet_plan_extract (JStr text) = Ok (payload, 200%Z) ->
  exists fields, payload = JObj fields.
Proof.
  intros Hloads H.
  assert (Hs : exists span,
             re_search_braces (clean_text text) = Some span /\
             json_loads span = Ok payload).
  { destruct H as [H|H].
    - apply scan_food_extract_success. exact H.
    - apply diet_plan_extract_success. exact H. }
  destruct Hs as (span & Hs & Hj).
  apply re_search_braces_sound in Hs as (pre & post & _ & (body & ->) & _).
  exact (Hloads _ _ Hj).
Qed.

End ObjectPayload.


Section ObjectRuns.

Import Samples.

Lemma extracted_payload_is_object_witness :
  (forall s v, json_loads (LBRACE :: s) = Ok v -> exists fields, v = JObj fields)
  /\ scan_food_extract (JStr (fenced (js "{'a': 1}"))) = Ok (JObj [(py "a", JInt 1)], 200%Z)
  /\ exists fields, JObj [(py "a", JInt 1)] = JObj fields.
Proof.
  assert (E : scan_food_extract (JStr (fenced (js "{'a': 1}")))
              = Ok (JObj [(py "a", JInt 1)], 200%Z)) by (vm_compute; reflexivity).
  split; [exact loads_object|]. split; [exact E|].
  exact (extracted_payload_is_object (fenced (js "{'a': 1}")) _ loads_object (or_introl E)).
Defined.

End ObjectRuns.
